(** * The conversational engine emitted by ChatbotGenerator

    The generator writes four handler modules as text: the intent handler
    ([classifyIntent], [getHandlerForIntent]), the conversation flow handler
    ([processMessage], [shouldOfferRecommendations]), the product
    recommendation handler ([getProductRecommendations]) and the user state
    manager ([getUserState], [updateUserState], [addBotResponse],
    [determineConversationStage]).  This file embeds those functions as the
    generator's templates spell them, with the template escapes undone and
    every placeholder of a prompt read as a placeholder of the emitted
    module, and proves the properties stated about them.

    Conventions of the embedding:
    - JavaScript values are the inductive [Value]; JSON numbers are read as
      rationals, no property below does arithmetic on them;
    - [messageCount] is an integer ([Z]); the engine only ever stores [0] and
      successors of stored counts there;
    - [new Date()] is an explicit clock argument [now];
    - the module-level [userStates] Map is a [gmap string UserState] threaded
      through every operation;
    - a JavaScript exception is the [Thrown] outcome;
    - [processMessage] is asynchronous.  [exec] runs calls that overlap at
      the wait for the classifier, as a sequence of atomic accesses to the
      Map; [run] and [serve] are the executions in which every call runs to
      its end before the next one starts, and a statement about them is a
      statement about calls taken one at a time. *)

From Stdlib Require Import ZArith QArith String Ascii List Bool Lia.
From stdpp Require Import gmap strings list fin_maps.

Close Scope Q_scope.
Open Scope string_scope.


(** ** Values *)

#[warnings="-register-all"]
Inductive Value : Type :=
| VUndefined
| VNull
| VBool (b : bool)
| VNum (q : Q)
| VStr (s : string)
| VArr (items : list Value)
| VObj (fields : list (string * Value)).

(** Truthiness, as [if (v)], [v || d] and [v && w] test it. *)
Definition truthy (v : Value) : bool :=
  match v with
  | VUndefined | VNull => false
  | VBool b => b
  | VNum q => negb (Qeq_bool q 0)
  | VStr s => negb (String.eqb s "")
  | VArr _ | VObj _ => true
  end.

(** [a || b] *)
Definition js_or (a b : Value) : Value := if truthy a then a else b.

(** [v === 'literal'] *)
Definition strict_eq_str (v : Value) (lit : string) : bool :=
  match v with
  | VStr s => String.eqb s lit
  | _ => false
  end.

(** Own property [k] of an object built by JSON.parse: of two bindings of
    one key the later wins. *)
Fixpoint own_field (k : string) (fs : list (string * Value)) : option Value :=
  match fs with
  | [] => None
  | (k', v) :: rest =>
      match own_field k rest with
      | Some w => Some w
      | None => if String.eqb k' k then Some v else None
      end
  end.

(** [v.k] for a name [k] that no built-in prototype defines ([intent],
    [recommendations]); only plain objects can carry it.  Reading a property
    of [null] or [undefined] throws, which is [None] here. *)
Definition get_prop (v : Value) (k : string) : option Value :=
  match v with
  | VUndefined | VNull => None
  | VObj fs => Some (default VUndefined (own_field k fs))
  | _ => Some VUndefined
  end.

Definition newline : string := String (ascii_of_nat 10) EmptyString.

(** ** Conversation state *)

Record HistoryEntry : Type := {
  role : string;
  content : Value;
  timestamp : Z
}.

Record UserState : Type := {
  conversationHistory : list HistoryEntry;
  preferences : list (string * Value);
  lastIntent : Value;
  lastMessage : Value;
  messageCount : Z;
  stage : string;
  createdAt : Z;
  updatedAt : option Z
}.

(** The [updates] object literal that [processMessage] passes. *)
Record Updates : Type := {
  upd_lastIntent : Value;
  upd_lastMessage : string;
  upd_messageCount : Z
}.

(** [n || 0] on a number: [0] is falsy and is replaced by [0]. *)
Definition num_or (n d : Z) : Z := if (n =? 0)%Z then d else n.

(** [process.env.X || d]: unset and the empty string are falsy. *)
Definition env_or (e : option string) (d : string) : string :=
  match e with
  | Some s => if String.eqb s "" then d else s
  | None => d
  end.

(** ** User state manager *)

Definition determineConversationStage (state : UserState) : string :=
  let messageCount := messageCount state in
  let lastIntent := lastIntent state in
  if (messageCount <=? 1)%Z then "greeting"
  else if strict_eq_str lastIntent "checkout_help" then "checkout"
  else if strict_eq_str lastIntent "product_inquiry"
          || strict_eq_str lastIntent "price_inquiry" then "product_discovery"
  else if strict_eq_str lastIntent "objection" then "objection_handling"
  else if (5 <=? messageCount)%Z then "engagement"
  else "information".

Definition defaultState (now : Z) : UserState :=
  {| conversationHistory := [];
     preferences := [];
     lastIntent := VNull;
     lastMessage := VNull;
     messageCount := 0;
     stage := "greeting";
     createdAt := now;
     updatedAt := None |}.

(** [getUserState]: creates and stores the default state on first lookup,
    then returns the stored object. *)
Definition getUserState (userStates : gmap string UserState) (userId : string)
    (now : Z) : gmap string UserState * UserState :=
  match userStates !! userId with
  | Some st => (userStates, st)
  | None => (<[userId := defaultState now]> userStates, defaultState now)
  end.

(** The callback of [conversationHistory.some(...)]. *)
Definition is_user_message (text : string) (msg : HistoryEntry) : bool :=
  String.eqb (role msg) "user" && strict_eq_str (content msg) text.

Definition updateUserState (userStates : gmap string UserState)
    (userId : string) (updates : Updates) (now : Z)
    : gmap string UserState * UserState :=
  let '(userStates, currentState) := getUserState userStates userId now in
  (* { ...currentState, ...updates, updatedAt: new Date() } *)
  let newState :=
    {| conversationHistory := conversationHistory currentState;
       preferences := preferences currentState;
       lastIntent := upd_lastIntent updates;
       lastMessage := VStr (upd_lastMessage updates);
       messageCount := upd_messageCount updates;
       stage := stage currentState;
       createdAt := createdAt currentState;
       updatedAt := Some now |} in
  let newState :=
    if truthy (VStr (upd_lastMessage updates))
       && negb (existsb (is_user_message (upd_lastMessage updates))
                        (conversationHistory currentState))
    then
      {| conversationHistory :=
           (conversationHistory currentState ++
            [ {| role := "user";
                 content := VStr (upd_lastMessage updates);
                 timestamp := now |} ])%list;
         preferences := preferences newState;
         lastIntent := lastIntent newState;
         lastMessage := lastMessage newState;
         messageCount := messageCount newState;
         stage := stage newState;
         createdAt := createdAt newState;
         updatedAt := updatedAt newState |}
    else newState in
  let newState :=
    {| conversationHistory := conversationHistory newState;
       preferences := preferences newState;
       lastIntent := lastIntent newState;
       lastMessage := lastMessage newState;
       messageCount := messageCount newState;
       stage := determineConversationStage newState;
       createdAt := createdAt newState;
       updatedAt := updatedAt newState |} in
  (<[userId := newState]> userStates, newState).

Definition addBotResponse (userStates : gmap string UserState)
    (userId : string) (response : Value) (now : Z)
    : gmap string UserState * UserState :=
  let '(userStates, currentState) := getUserState userStates userId now in
  let newState :=
    {| conversationHistory :=
         (conversationHistory currentState ++
          [ {| role := "assistant"; content := response; timestamp := now |} ])%list;
       preferences := preferences currentState;
       lastIntent := lastIntent currentState;
       lastMessage := lastMessage currentState;
       messageCount := messageCount currentState;
       stage := stage currentState;
       createdAt := createdAt currentState;
       updatedAt := Some now |} in
  (<[userId := newState]> userStates, newState).

(** ** Recommendation policy *)

Definition shouldOfferRecommendations (OFFER_TIMING : option string)
    (intent : Value) (userState : UserState) : bool :=
  if strict_eq_str intent "product_inquiry" then true
  else
    let offerTiming := env_or OFFER_TIMING "balanced" in
    let messageCount := num_or (messageCount userState) 0 in
    if String.eqb offerTiming "early" then (2 <=? messageCount)%Z
    else if String.eqb offerTiming "balanced" then (3 <=? messageCount)%Z
    else (5 <=? messageCount)%Z.

(** ** Exceptions and the shared store *)

Inductive Outcome (A : Type) : Type :=
| Returned (a : A)
| Thrown.
Arguments Returned {A} a.
Arguments Thrown {A}.

(** [try { body } catch (error) { handler }] *)
Definition try_catch {A} (body handler : Outcome A) : Outcome A :=
  match body with
  | Returned a => Returned a
  | Thrown => handler
  end.

Definition obind {A B} (c : Outcome A) (k : A -> Outcome B) : Outcome B :=
  match c with
  | Returned a => k a
  | Thrown => Thrown
  end.

Definition of_option {A} (o : option A) : Outcome A :=
  match o with
  | Some a => Returned a
  | None => Thrown
  end.

(** A computation over the [userStates] Map that may throw; what it did to
    the Map before throwing stays done. *)
Definition Eff (A : Type) : Type :=
  gmap string UserState -> gmap string UserState * Outcome A.

Definition eret {A} (a : A) : Eff A := fun st => (st, Returned a).

Definition ebind {A B} (c : Eff A) (k : A -> Eff B) : Eff B :=
  fun st =>
    match c st with
    | (st', Returned a) => k a st'
    | (st', Thrown) => (st', Thrown)
    end.

Definition lift_state {A} (f : gmap string UserState -> gmap string UserState * A)
    : Eff A :=
  fun st => let '(st', a) := f st in (st', Returned a).

Definition lift_outcome {A} (o : Outcome A) : Eff A := fun st => (st, o).

Notation "'let*' x ':=' c 'in' k" := (ebind c (fun x => k))
  (at level 10, x name, c at level 100, k at level 200).
Notation "'let?' x ':=' c 'in' k" := (obind c (fun x => k))
  (at level 10, x name, c at level 100, k at level 200).

(** ** The completion service *)

Record ChatMessage : Type := { msg_role : string; msg_content : string }.

(** What [await openai.chat.completions.create(...)] followed by
    [response.choices[0].message.content] gives. *)
Inductive Completion : Type :=
| Rejected                  (* transport, timeout or service error *)
| Malformed                 (* no choices[0].message to read: TypeError *)
| Content (text : string).  (* the text handed to JSON.parse *)

(** ** Dispatch table *)

Inductive HandlerModule : Type :=
| welcome_handler
| product_inquiry_handler
| price_inquiry_handler
| shipping_inquiry_handler
| return_policy_handler
| checkout_handler
| objection_handler
| complaint_handler
| general_question_handler.

(** The properties every object literal inherits from [Object.prototype]. *)
Inductive PrototypeMember : Type :=
| proto_constructor
| proto_defineGetter
| proto_defineSetter
| proto_hasOwnProperty
| proto_lookupGetter
| proto_lookupSetter
| proto_isPrototypeOf
| proto_propertyIsEnumerable
| proto_toString
| proto_valueOf
| proto_proto
| proto_toLocaleString.

(** What [intentHandlers[key]] can evaluate to. *)
Inductive Callee : Type :=
| Handler (h : HandlerModule)
| Inherited (m : PrototypeMember).

(** The own properties of the [intentHandlers] literal. *)
Definition intentHandlers (key : string) : option HandlerModule :=
  if String.eqb key "greeting" then Some welcome_handler
  else if String.eqb key "product_inquiry" then Some product_inquiry_handler
  else if String.eqb key "price_inquiry" then Some price_inquiry_handler
  else if String.eqb key "shipping_inquiry" then Some shipping_inquiry_handler
  else if String.eqb key "return_policy" then Some return_policy_handler
  else if String.eqb key "checkout_help" then Some checkout_handler
  else if String.eqb key "objection" then Some objection_handler
  else if String.eqb key "complaint" then Some complaint_handler
  else if String.eqb key "general_question" then Some general_question_handler
  else None.

Definition Object_prototype (key : string) : option PrototypeMember :=
  if String.eqb key "constructor" then Some proto_constructor
  else if String.eqb key "__defineGetter__" then Some proto_defineGetter
  else if String.eqb key "__defineSetter__" then Some proto_defineSetter
  else if String.eqb key "hasOwnProperty" then Some proto_hasOwnProperty
  else if String.eqb key "__lookupGetter__" then Some proto_lookupGetter
  else if String.eqb key "__lookupSetter__" then Some proto_lookupSetter
  else if String.eqb key "isPrototypeOf" then Some proto_isPrototypeOf
  else if String.eqb key "propertyIsEnumerable" then Some proto_propertyIsEnumerable
  else if String.eqb key "toString" then Some proto_toString
  else if String.eqb key "valueOf" then Some proto_valueOf
  else if String.eqb key "__proto__" then Some proto_proto
  else if String.eqb key "toLocaleString" then Some proto_toLocaleString
  else None.

(** [intentHandlers[key]]: own property first, then the prototype chain;
    [None] is [undefined]. *)
Definition intentHandlers_get (key : string) : option Callee :=
  match intentHandlers key with
  | Some h => Some (Handler h)
  | None => Inherited <$> Object_prototype key
  end.

(** What a handler hands back: [result.response] and [result.actions]
    ([None] when absent). *)
Record HandlerResult : Type := {
  result_response : Value;
  result_actions : option (list Value)
}.

(** [handler(message, userState)] for a callee found on the prototype chain;
    it is called with no receiver.  [Object(message)] wraps the string,
    [toString] gives "[object Undefined]" and [isPrototypeOf] gives [false]
    for a string argument: none of the three carries [response] or
    [actions].  The others convert the missing receiver to an object and
    throw, and [__proto__] is not callable. *)
Definition call_inherited (m : PrototypeMember) : Outcome HandlerResult :=
  match m with
  | proto_constructor | proto_toString | proto_isPrototypeOf =>
      Returned {| result_response := VUndefined; result_actions := None |}
  | _ => Thrown
  end.

Record Reply : Type := {
  response : Value;
  actions : list Value
}.

(** ** The engine *)

Section Engine.

(** Built-ins of the runtime and the files the modules load. *)
Variable Number_toString : Q -> string.
Variable String_toNumber : string -> option Q.      (* [None] is NaN *)
Variable JSON_parse : string -> option Value.       (* [None] is SyntaxError *)
Variable intentPrompt : string.
Variable recommendationPrompt : string.
Variable OFFER_TIMING : option string.              (* process.env.OFFER_TIMING *)

(** The nine handler modules required by the dispatch table; they are not
    part of the generator, so they are parameters.  A handler returns a
    result or throws. *)
Variable handlers :
  HandlerModule -> string -> UserState -> Outcome HandlerResult.

(** String conversion of a value built by [JSON.parse], as template
    literals, property keys and [join] apply it.  An object is converted
    through its [toString] and [valueOf] members.  An own property of either
    name is a JSON value, hence not callable, and hides the inherited
    method.  Without an own [toString] the inherited one answers
    "[object Object]"; with one the conversion goes on to [valueOf], which is
    hidden too or returns the object itself, and ends in a TypeError.  An
    array has no own names: [Array.prototype.toString] joins the converted
    elements, [null] and [undefined] counting as the empty text. *)
Fixpoint ToString (v : Value) : Outcome string :=
  match v with
  | VUndefined => Returned "undefined"
  | VNull => Returned "null"
  | VBool true => Returned "true"
  | VBool false => Returned "false"
  | VNum q => Returned (Number_toString q)
  | VStr s => Returned s
  | VArr items =>
      let? parts :=
        (fix elements (l : list Value) : Outcome (list string) :=
           match l with
           | [] => Returned []
           | x :: rest =>
               let? first :=
                 match x with
                 | VUndefined | VNull => Returned ""
                 | _ => ToString x
                 end in
               let? others := elements rest in
               Returned (first :: others)
           end) items in
      Returned (String.concat "," parts)
  | VObj fields =>
      match own_field "toString" fields with
      | Some _ => Thrown
      | None => Returned "[object Object]"
      end
  end.

(** Number conversion, as [>] applies it to an operand that is compared
    with a number; [None] is NaN.  An object or array is first converted to
    a primitive: [valueOf] never yields one, so the text of [ToString] is
    taken, and "[object Object]" is no numeral. *)
Definition ToNumber (v : Value) : Outcome (option Q) :=
  match v with
  | VUndefined => Returned None
  | VNull => Returned (Some 0%Q)
  | VBool b => Returned (Some (if b then 1%Q else 0%Q))
  | VNum q => Returned (Some q)
  | VStr s => Returned (String_toNumber s)
  | VArr _ => let? text := ToString v in Returned (String_toNumber text)
  | VObj _ => let? _ := ToString v in Returned None
  end.

(** [v.length > 0] for a [v] that is neither [null] nor [undefined]: the
    length of a string or an array, the own [length] field of an object,
    [undefined] for a boolean or a number. *)
Definition length_positive (v : Value) : Outcome bool :=
  match v with
  | VArr items => Returned (0 <? length items)%nat
  | VStr s => Returned (0 <? String.length s)%nat
  | VObj fs =>
      match own_field "length" fs with
      | Some w =>
          let? number := ToNumber w in
          Returned match number with
                   | Some q => negb (Qle_bool q 0)
                   | None => false
                   end
      | None => Returned false
      end
  | _ => Returned false
  end.

(** *** Intent handler *)

Definition fallbackIntent : Value :=
  VObj [("intent", VStr "general_question"); ("confidence", VNum (1 # 2))].

Definition classifyIntent (openai : list ChatMessage -> Completion)
    (message : string) : Outcome Value :=
  try_catch
    (match openai [ {| msg_role := "system"; msg_content := intentPrompt |};
                    {| msg_role := "user"; msg_content := message |} ] with
     | Rejected | Malformed => Thrown
     | Content content => of_option (JSON_parse content)
     end)
    (Returned fallbackIntent).

(** [intentHandlers[intent] || intentHandlers.general_question]: the
    intent is converted to a property key first, which throws for an object
    that carries a [toString] field; every value the lookup can find is a
    function or an object, hence truthy. *)
Definition getHandlerForIntent (intent : Value) : Outcome Callee :=
  let? key := ToString intent in
  Returned match intentHandlers_get key with
           | Some found => found
           | None => Handler general_question_handler
           end.

(** *** Product recommendation handler *)

(** [array.slice(-n)] *)
Definition slice_last {A} (n : nat) (l : list A) : list A :=
  drop (length l - n) l.

(** [array.map(x => `...${x}...`)]: the first conversion that throws ends
    the whole map. *)
Fixpoint all_returned {A} (l : list (Outcome A)) : Outcome (list A) :=
  match l with
  | [] => Returned []
  | first :: rest =>
      let? a := first in
      let? others := all_returned rest in
      Returned (a :: others)
  end.

Definition contextPrompt (message : string) (userState : UserState)
    : Outcome string :=
  let conversationContext := conversationHistory userState in
  let userPreferences := preferences userState in
  let? preferenceLines :=
    all_returned
      (map (fun entry =>
              let? value := ToString (snd entry) in
              Returned ("- " ++ fst entry ++ ": " ++ value))
           userPreferences) in
  let? historyLines :=
    all_returned
      (map (fun msg =>
              let? text := ToString (content msg) in
              Returned (role msg ++ ": " ++ text))
           (slice_last 5 conversationContext)) in
  Returned
    (newline ++ "User message: " ++ message ++ newline ++
     newline ++ "User preferences:" ++ newline ++
     String.concat newline preferenceLines ++ newline ++
     newline ++ "Conversation history:" ++ newline ++
     String.concat newline historyLines ++ newline).

Definition getProductRecommendations (openai : list ChatMessage -> Completion)
    (message : string) (userState : UserState) : Outcome Value :=
  try_catch
    (let? contextPrompt := contextPrompt message userState in
     let? content :=
       match openai [ {| msg_role := "system";
                         msg_content := recommendationPrompt |};
                      {| msg_role := "user"; msg_content := contextPrompt |} ] with
       | Rejected | Malformed => Thrown
       | Content content => Returned content
       end in
     let? result := of_option (JSON_parse content) in
     let? recommendations := of_option (get_prop result "recommendations") in
     Returned (js_or recommendations (VArr [])))
    (Returned (VArr [])).

(** *** Conversation flow handler *)

Definition invoke (handler : Callee) (message : string) (userState : UserState)
    : Outcome HandlerResult :=
  match handler with
  | Handler h => handlers h message userState
  | Inherited m => call_inherited m
  end.

Definition apology : Reply :=
  {| response :=
       VStr "I'm sorry, I'm having trouble processing your request right now. Can you try again?";
     actions := [] |}.

(** One inbound message: the two service clients answer through
    [classifier] and [recommender]. *)
Record Turn : Type := {
  turn_userId : string;
  turn_message : string;
  turn_now : Z;
  classifier : list ChatMessage -> Completion;
  recommender : list ChatMessage -> Completion
}.

(** [actions] after the recommendation step; the length test can throw. *)
Definition with_recommendations (actions : list Value) (recommendations : Value)
    : Outcome (list Value) :=
  if truthy recommendations then
    let? positive := length_positive recommendations in
    Returned
      (if positive then
         (actions ++
          [ VObj [("type", VStr "product_recommendations");
                  ("products", recommendations)] ])%list
       else actions)
  else Returned actions.

(** The statements of the [try] block of [processMessage] that follow the
    state update, [userState] being the state that the first statement
    loaded; none of them touches the Map. *)
Definition respond (t : Turn) (intent : Value) (userState : UserState)
    : Outcome Reply :=
  let message := turn_message t in
  let? handler := getHandlerForIntent intent in
  let? result := invoke handler message userState in
  let actions := default [] (result_actions result) in
  let? actions :=
    if shouldOfferRecommendations OFFER_TIMING intent userState then
      let? recommendations :=
        getProductRecommendations (recommender t) message userState in
      with_recommendations actions recommendations
    else Returned actions in
  Returned {| response := result_response result; actions := actions |}.

(** The [try] block of [processMessage] from the classification on.  The
    state update is the only statement of this part that touches the Map;
    [now] is the clock reading of the update. *)
Definition processMessage_resume (t : Turn) (userState : UserState)
    (now : Z) : Eff Reply :=
  let userId := turn_userId t in
  let message := turn_message t in
  let* classified := lift_outcome (classifyIntent (classifier t) message) in
  (* const { intent, confidence } = ... *)
  let* intent := lift_outcome (of_option (get_prop classified "intent")) in
  let* _ := lift_state (fun st =>
              updateUserState st userId
                {| upd_lastIntent := intent;
                   upd_lastMessage := message;
                   upd_messageCount := num_or (messageCount userState) 0 + 1 |}
                now) in
  lift_outcome (respond t intent userState).

(** The body of the [try] block of [processMessage]. *)
Definition processMessage_try (t : Turn) : Eff Reply :=
  let* userState :=
    lift_state (fun st => getUserState st (turn_userId t) (turn_now t)) in
  processMessage_resume t userState (turn_now t).

Definition processMessage (t : Turn) (userStates : gmap string UserState)
    : gmap string UserState * Reply :=
  match processMessage_try t userStates with
  | (userStates', Returned reply) => (userStates', reply)
  | (userStates', Thrown) => (userStates', apology)
  end.

(** *** Histories of calls, taken one at a time

    The controller calls [processMessage] for every inbound message and
    [addBotResponse] for the reply; these are the only writers of the
    Map.  In a history of this kind every call runs to its end before the
    next one starts. *)

Inductive Op : Type :=
| OpMessage (t : Turn)
| OpBotResponse (userId : string) (response : Value) (now : Z).

Definition step (userStates : gmap string UserState) (o : Op)
    : gmap string UserState :=
  match o with
  | OpMessage t => fst (processMessage t userStates)
  | OpBotResponse userId response now =>
      fst (addBotResponse userStates userId response now)
  end.

Definition run (userStates : gmap string UserState) (ops : list Op)
    : gmap string UserState :=
  fold_left step ops userStates.

(** The [intent] that the destructuring in [processMessage] binds, or
    [Thrown] when there is nothing to destructure. *)
Definition turn_intent (t : Turn) : Outcome Value :=
  let? classified := classifyIntent (classifier t) (turn_message t) in
  of_option (get_prop classified "intent").

(** *** Calls that overlap

    [processMessage] is an async function: it loads the state, then waits
    for the classifier, and only then stores the update, whose count is the
    loaded one plus one.  While it waits other calls run.  The Map is
    touched at two moments of a call only, the load and the update, so an
    execution is a sequence of such moments, each of them atomic. *)

(** A call of [processMessage] that waits for its classification: the turn
    and the state it has loaded. *)
Record Pending : Type := {
  pending_turn : Turn;
  pending_state : UserState
}.

Record World : Type := {
  world_states : gmap string UserState;
  world_pending : list Pending
}.

Inductive Event : Type :=
| EvCall (t : Turn)          (* processMessage is called and loads the state *)
| EvResume (i : nat) (now : Z)
                             (* the classification of the i-th waiting call
                                arrives and the call runs to its end,
                                [now] being the time of its state update *)
| EvBotResponse (userId : string) (response : Value) (now : Z).

Definition exec_event (w : World) (e : Event) : World :=
  match e with
  | EvCall t =>
      let '(userStates, userState) :=
        getUserState (world_states w) (turn_userId t) (turn_now t) in
      {| world_states := userStates;
         world_pending :=
           (world_pending w ++
            [ {| pending_turn := t; pending_state := userState |} ])%list |}
  | EvResume i now =>
      match world_pending w !! i with
      | Some call =>
          {| world_states :=
               fst (processMessage_resume (pending_turn call)
                      (pending_state call) now (world_states w));
             world_pending := delete i (world_pending w) |}
      | None => w
      end
  | EvBotResponse userId response now =>
      {| world_states := fst (addBotResponse (world_states w) userId response now);
         world_pending := world_pending w |}
  end.

Definition exec (w : World) (events : list Event) : World :=
  fold_left exec_event events w.

(** The world before the first call. *)
Definition initial : World := {| world_states := ∅; world_pending := [] |}.

(** The calls of a user that wait for their classification. *)
Definition in_flight (userId : string) (w : World) : list Pending :=
  filter (fun call => turn_userId (pending_turn call) = userId)
    (world_pending w).

(** The calls of a user do not overlap: in the execution of [events] from
    [w] no call of [processMessage] for the user starts while another call
    for the same user waits for its classification. *)
Fixpoint one_at_a_time (userId : string) (w : World) (events : list Event)
    : Prop :=
  match events with
  | [] => True
  | e :: rest =>
      match e with
      | EvCall t => turn_userId t = userId -> in_flight userId w = []
      | _ => True
      end
      /\ one_at_a_time userId (exec_event w e) rest
  end.

(** The events of a call that runs to its end before anything else
    happens. *)
Definition events_of (o : Op) : list Event :=
  match o with
  | OpMessage t => [EvCall t; EvResume 0 (turn_now t)]
  | OpBotResponse userId response now => [EvBotResponse userId response now]
  end.

(** The execution of a history of calls taken one at a time. *)
Definition one_by_one (ops : list Op) : list Event := flat_map events_of ops.

(** *** Chatbot controller

    The route [POST /conversations/:conversationId/messages]. *)

Inductive HttpResponse : Type :=
| Json (body : Reply)            (* res.json({ response, actions }) *)
| Status400 (error : string)
| Status500 (error : string).

(** A request to the route whose body is an object: the path parameter,
    [req.body.message] when it is a string ([None] when the body carries
    none), the clock readings of the processing and of
    the append of the reply, and the answers of the two service clients. *)
Record MessageRequest : Type := {
  req_conversationId : string;
  req_message : option string;
  req_now : Z;
  req_reply_now : Z;
  req_classifier : list ChatMessage -> Completion;
  req_recommender : list ChatMessage -> Completion
}.

(** The body of the [try] block of the route. *)
Definition postMessage_try (req : MessageRequest) : Eff HttpResponse :=
  let conversationId := req_conversationId req in
  match req_message req with
  | None => eret (Status400 "Message is required")
  | Some message =>
      if negb (truthy (VStr message)) then eret (Status400 "Message is required")
      else
        let* result :=
          lift_state (processMessage
                        {| turn_userId := conversationId;
                           turn_message := message;
                           turn_now := req_now req;
                           classifier := req_classifier req;
                           recommender := req_recommender req |}) in
        let* _ :=
          lift_state (fun st =>
            addBotResponse st conversationId (response result)
              (req_reply_now req)) in
        eret (Json {| response := response result; actions := actions result |})
  end.

Definition postMessage (req : MessageRequest)
    (userStates : gmap string UserState)
    : gmap string UserState * HttpResponse :=
  match postMessage_try req userStates with
  | (userStates', Returned res) => (userStates', res)
  | (userStates', Thrown) => (userStates', Status500 "Failed to process message")
  end.

(** The requests of a server run in which every request is answered before
    the next one arrives. *)
Definition serve (userStates : gmap string UserState)
    (reqs : list MessageRequest) : gmap string UserState :=
  fold_left (fun st req => fst (postMessage req st)) reqs userStates.

(** The calls that the route makes for one request: none for a request it
    refuses, else [processMessage] and then [addBotResponse] with the
    response of the reply. *)
Definition request_ops (req : MessageRequest)
    (userStates : gmap string UserState) : list Op :=
  match req_message req with
  | None => []
  | Some message =>
      if negb (truthy (VStr message)) then []
      else
        let t := {| turn_userId := req_conversationId req;
                    turn_message := message;
                    turn_now := req_now req;
                    classifier := req_classifier req;
                    recommender := req_recommender req |} in
        [ OpMessage t;
          OpBotResponse (req_conversationId req)
            (response (snd (processMessage t userStates)))
            (req_reply_now req) ]
  end.

Fixpoint serve_ops (userStates : gmap string UserState)
    (reqs : list MessageRequest) : list Op :=
  match reqs with
  | [] => []
  | req :: rest =>
      (request_ops req userStates
       ++ serve_ops (fst (postMessage req userStates)) rest)%list
  end.

(** The service call of a handler failed: the request was rejected, the
    response had no message to read, or its text was not JSON. *)
Definition service_failed (c : Completion) : Prop :=
  match c with
  | Rejected | Malformed => True
  | Content text => JSON_parse text = None
  end.

(** A turn of the history whose classification could be destructured, so
    that its state update ran. *)
Definition op_classified (o : Op) : Prop :=
  match o with
  | OpMessage t => turn_intent t <> Thrown
  | OpBotResponse _ _ _ => True
  end.

End Engine.

(** ** Prompt generation

    The methods of the generator that compose the prompt files. *)

Record BotConfig : Type := {
  name : string;
  personality : string;
  responseLength : Z;
  technicalLevel : Z;
  persuasiveLevel : Z;
  offerTiming : string;
  knowledgeBase : list string
}.

Record Conversation : Type := {
  conv_nodes : option (list Value);
  conv_botConfig : option BotConfig
}.

Record Project : Type := {
  proj_conversation : option Conversation
}.

(** The literal that stands in for a missing [botConfig]. *)
Definition defaultBotConfig : BotConfig :=
  {| name := "Shopping Assistant";
     personality := "friendly";
     responseLength := 1;
     technicalLevel := 1;
     persuasiveLevel := 2;
     offerTiming := "balanced";
     knowledgeBase := ["products"; "pricing"; "shipping"; "returns"] |}.

Definition dquote : string := String (ascii_of_nat 34) EmptyString.

(** A template literal, line by line. *)
Definition lines (l : list string) : string := String.concat newline l.

(** [a || b] on texts: a missing and an empty text are falsy. *)
Definition text_or (a : option string) (b : string) : string :=
  match a with
  | Some s => if String.eqb s "" then b else s
  | None => b
  end.

(** [array[i]] for a number [i]: [undefined] outside the array. *)
Definition at_index (array : list string) (i : Z) : option string :=
  if (i <? 0)%Z then None else nth_error array (Z.to_nat i).

(** The own properties of the [personalityTraits] literal. *)
Definition personalityTraits (key : string) : option string :=
  if String.eqb key "friendly" then Some "warm, approachable, and conversational"
  else if String.eqb key "professional" then Some "polite, respectful, and informative"
  else if String.eqb key "sales" then Some "persuasive, enthusiastic, and solution-oriented"
  else if String.eqb key "custom" then Some "tailored to the specific needs of the business"
  else None.

Section PromptGeneration.

(** What a template literal prints for a member of [Object.prototype]. *)
Variable inherited_text : PrototypeMember -> string.

(** Whether [fs.writeFile] succeeds for a file of the prompts directory. *)
Variable can_write : string -> bool.

Definition generateBaseSystemPrompt (botConfig : BotConfig) : string :=
  let responseLengths :=
    [ "concise and to-the-point"; "balanced and informative";
      "detailed and comprehensive" ] in
  let technicalLevels :=
    [ "simple and easy to understand"; "moderately technical when needed";
      "detailed and technical when appropriate" ] in
  let persuasiveLevels :=
    [ "subtly encouraging"; "moderately persuasive"; "strongly convincing" ] in
  (* personalityTraits[botConfig.personality] || personalityTraits.friendly *)
  let personality_text :=
    match personalityTraits (personality botConfig) with
    | Some text => text_or (Some text) "warm, approachable, and conversational"
    | None =>
        match Object_prototype (personality botConfig) with
        | Some member => inherited_text member
        | None => "warm, approachable, and conversational"
        end
    end in
  let length_text :=
    text_or (at_index responseLengths (responseLength botConfig))
      "balanced and informative" in
  let technical_text :=
    text_or (at_index technicalLevels (technicalLevel botConfig))
      "moderately technical when needed" in
  let persuasive_text :=
    text_or (at_index persuasiveLevels (persuasiveLevel botConfig))
      "moderately persuasive" in
  let timing_text :=
    if String.eqb (offerTiming botConfig) "early"
    then "Present offers early in the conversation"
    else if String.eqb (offerTiming botConfig) "late"
         then "Present offers only after building rapport"
         else "Present offers at appropriate moments" in
  lines
      [ "You are " ++ name botConfig ++ ", an AI shopping assistant for our online store.";
        "";
        "PERSONALITY:";
        "You are " ++ personality_text ++ ".";
        "";
        "RESPONSE STYLE:";
        "- Length: " ++ length_text;
        "- Technical level: " ++ technical_text;
        "- Persuasiveness: " ++ persuasive_text;
        "- Offer timing: " ++ timing_text;
        "";
        "KNOWLEDGE BASE:";
        "You have knowledge about: " ++ String.concat ", " (knowledgeBase botConfig);
        "";
        "GOALS:";
        "1. Help customers find the right products for their needs";
        "2. Provide accurate information about products, pricing, and policies";
        "3. Address concerns or objections customers may have";
        "4. Guide customers through the purchasing process";
        "5. Create a positive and helpful shopping experience";
        "";
        "CONSTRAINTS:";
        "1. If you don't know something, admit it rather than making up information";
        "2. Keep responses focused on the customer's needs";
        "3. Don't be pushy or overly sales-focused";
        "4. Respect customer privacy and don't ask for personal information";
        "";
        "Remember to be helpful, accurate, and focused on providing value to the customer." ].

Definition generateWelcomePrompt (botConfig : BotConfig) : string :=
  lines
      [ "Greet the customer in a " ++ personality botConfig ++ " tone. Introduce yourself as " ++ name botConfig ++ ", and ask how you can help them today. Keep your greeting concise and welcoming." ].

Definition generateProductRecommendationPrompt (botConfig : BotConfig) : string :=
  let adverb :=
    text_or (at_index ["subtly"; "moderately"; "strongly"]
               (persuasiveLevel botConfig))
      "moderately" in
  lines
      [ "Based on the customer's stated preferences and needs, recommend appropriate products from our catalog. Be " ++ adverb ++ " persuasive about the benefits of these products specifically for their situation. Limit recommendations to 3 products maximum.";
        "";
        "When recommending products, include:";
        "1. The product name";
        "2. Key features that match their needs";
        "3. How it specifically solves their problem or meets their requirement";
        "4. Price information if available and appropriate";
        "";
        "If you need more information to make a good recommendation, ask specific questions to narrow down their needs." ].

Definition generateObjectionHandlingPrompt (botConfig : BotConfig) : string :=
  lines
      [ "The customer has raised a concern or objection. Address it empathetically and provide helpful information to overcome their concern.";
        "";
        "Common objections include:";
        "1. Price concerns";
        "2. Uncertainty about product fit";
        "3. Shipping or delivery concerns";
        "4. Questions about return policy";
        "5. Hesitation about buying online";
        "";
        "For each type of objection:";
        "1. Acknowledge their concern as valid";
        "2. Provide factual information that addresses the concern";
        "3. Offer a solution or alternative if appropriate";
        "4. Gently reassure them and move the conversation forward" ].

Definition generateCheckoutPrompt (botConfig : BotConfig) : string :=
  lines
      [ "Guide the customer through the checkout process. Explain options clearly and encourage them to complete their purchase. Be helpful with any questions they have about payment methods, shipping options, or other checkout-related concerns.";
        "";
        "Remember to:";
        "1. Reassure them about security";
        "2. Explain any special offers or discounts they might be eligible for";
        "3. Clarify shipping costs and estimated delivery times";
        "4. Mention our return policy briefly if appropriate";
        "5. Thank them for their purchase" ].

Definition generateIntentClassificationPrompt : string :=
  lines
      [ "Analyze the customer message and identify their primary intent from the following categories:";
        "- greeting: Customer is saying hello or starting the conversation";
        "- product_inquiry: Customer is asking about products or product features";
        "- price_inquiry: Customer is asking about pricing";
        "- shipping_inquiry: Customer is asking about shipping";
        "- return_policy: Customer is asking about returns or refunds";
        "- checkout_help: Customer needs help with the checkout process";
        "- objection: Customer is expressing a concern or hesitation";
        "- complaint: Customer is expressing dissatisfaction";
        "- general_question: Customer has a general question not covered by other categories";
        "";
        "Respond in JSON format with the detected intent and confidence score:";
        "{";
        "  " ++ dquote ++ "intent" ++ dquote ++ ": " ++ dquote ++ "the_detected_intent_category" ++ dquote ++ ",";
        "  " ++ dquote ++ "confidence" ++ dquote ++ ": 0.95";
        "}" ].

(** The [defaultPrompts] literal, in the order of its keys. *)
Definition defaultPrompts : list (string * string) :=
  [ ("base_system_prompt",
     lines
         [ "You are a helpful shopping assistant for an e-commerce store. Your goal is to help customers find products, answer their questions, and guide them through the purchasing process. Be friendly, helpful, and concise in your responses." ]);
    ("welcome_prompt",
     lines
         [ "Greet the customer warmly and ask how you can help them today. Keep your response brief and friendly." ]);
    ("product_recommendation_prompt",
     lines
         [ "Recommend products based on the customer's stated preferences. Focus on the key benefits that match their needs. Limit your recommendations to 3 products maximum." ]);
    ("objection_handling_prompt",
     lines
         [ "Address any concerns or objections the customer raises about products or the purchase process. Be empathetic and provide helpful information to overcome their concerns." ]);
    ("checkout_prompt",
     lines
         [ "Guide the customer through the checkout process. Explain any available options clearly and encourage them to complete their purchase." ]);
    ("intent_classification_prompt",
     lines
         [ "Analyze the customer message and identify their primary intent from the following categories:";
           "- greeting: Customer is saying hello or starting the conversation";
           "- product_inquiry: Customer is asking about products or product information";
           "- price_inquiry: Customer is asking about pricing";
           "- shipping_inquiry: Customer is asking about shipping";
           "- return_policy: Customer is asking about returns or refunds";
           "- checkout_help: Customer needs help with the checkout process";
           "- complaint: Customer is expressing dissatisfaction";
           "- general_question: Customer has a general question not covered by other categories";
           "";
           "Respond with just the intent category name." ]) ].

(** The prompts directory, file name to content, and a write into it. *)
Definition writeFile (file content : string) (files : gmap string string)
    : gmap string string * Outcome unit :=
  if can_write file then (<[file := content]> files, Returned tt)
  else (files, Thrown).

(** [for (const [name, text] of Object.entries(...)) await fs.writeFile(...)] *)
Fixpoint writeEach (file_of : string -> string) (entries : list (string * string))
    (files : gmap string string) : gmap string string * Outcome unit :=
  match entries with
  | [] => (files, Returned tt)
  | (entry_name, text) :: rest =>
      match writeFile (file_of entry_name) text files with
      | (files', Returned _) => writeEach file_of rest files'
      | (files', Thrown) => (files', Thrown)
      end
  end.

Definition generateDefaultPromptTemplates (files : gmap string string)
    : gmap string string * Outcome unit :=
  writeEach (fun entry_name => entry_name ++ ".txt") defaultPrompts files.

Definition generatePromptTemplates (project : Project)
    (files : gmap string string) : gmap string string * Outcome unit :=
  match proj_conversation project with
  | None => generateDefaultPromptTemplates files
  | Some conversation =>
      match conv_nodes conversation with
      | None => generateDefaultPromptTemplates files
      | Some _ =>
          let botConfig := default defaultBotConfig (conv_botConfig conversation) in
          let basePrompt := generateBaseSystemPrompt botConfig in
          match writeFile "base_system_prompt.txt" basePrompt files with
          | (files, Thrown) => (files, Thrown)
          | (files, Returned _) =>
              let specializedPrompts :=
                [ ("welcome", generateWelcomePrompt botConfig);
                  ("product_recommendation",
                   generateProductRecommendationPrompt botConfig);
                  ("objection_handling", generateObjectionHandlingPrompt botConfig);
                  ("checkout", generateCheckoutPrompt botConfig) ] in
              match writeEach (fun entry_name => entry_name ++ "_prompt.txt")
                      specializedPrompts files with
              | (files, Thrown) => (files, Thrown)
              | (files, Returned _) =>
                  let intentPrompt := generateIntentClassificationPrompt in
                  writeFile "intent_classification_prompt.txt" intentPrompt files
              end
          end
      end
  end.

End PromptGeneration.

(** ** Observations used in the statements *)

(** The state of a user as the next [getUserState] would return it, up to
    the creation time of a state not yet created. *)
Definition view (userStates : gmap string UserState) (userId : string)
    : UserState :=
  default (defaultState 0) (userStates !! userId).

Definition user_entries (state : UserState) : Z :=
  Z.of_nat (length (filter (fun e => role e = "user") (conversationHistory state))).

Definition with_messageCount (n : Z) (state : UserState) : UserState :=
  {| conversationHistory := conversationHistory state;
     preferences := preferences state;
     lastIntent := lastIntent state;
     lastMessage := lastMessage state;
     messageCount := n;
     stage := stage state;
     createdAt := createdAt state;
     updatedAt := updatedAt state |}.

Definition with_history (h : list HistoryEntry) (state : UserState) : UserState :=
  {| conversationHistory := h;
     preferences := preferences state;
     lastIntent := lastIntent state;
     lastMessage := lastMessage state;
     messageCount := messageCount state;
     stage := stage state;
     createdAt := createdAt state;
     updatedAt := updatedAt state |}.

(** A user entry of the history that carries the text [text]. *)
Definition user_said (text : string) (e : HistoryEntry) : Prop :=
  role e = "user" /\ content e = VStr text.

Definition user_entry (text : string) (now : Z) : HistoryEntry :=
  {| role := "user"; content := VStr text; timestamp := now |}.

(** The fields of a state that the properties observe. *)
Definition core (s : UserState)
    : list HistoryEntry * Z * Value * string * list (string * Value) :=
  (conversationHistory s, messageCount s, lastIntent s, stage s, preferences s).

(** Whether [updateUserState] appends the inbound text. *)
Definition appends (text : string) (history : list HistoryEntry) : bool :=
  negb (String.eqb text "") && negb (existsb (is_user_message text) history).

(** The [updates] literal of [processMessage]. *)
Definition turn_updates (intent : Value) (message : string)
    (userState : UserState) : Updates :=
  {| upd_lastIntent := intent;
     upd_lastMessage := message;
     upd_messageCount := num_or (messageCount userState) 0 + 1 |}.

(** The number of inbound messages of a user in a history of calls. *)
Fixpoint messages_from (userId : string) (ops : list Op) : nat :=
  match ops with
  | [] => 0
  | OpMessage t :: rest =>
      (if String.eqb (turn_userId t) userId then 1 else 0)
      + messages_from userId rest
  | OpBotResponse _ _ _ :: rest => messages_from userId rest
  end.

(** How one call changes the state of one user: not at all, by the state
    update of [processMessage], or by the append of [addBotResponse]. *)
Inductive evolves (s s' : UserState) : Prop :=
| evolves_same :
    core s' = core s -> evolves s s'
| evolves_update (intent : Value) (text : string) (now : Z) :
    messageCount s' = (messageCount s + 1)%Z ->
    lastIntent s' = intent ->
    conversationHistory s'
      = (if appends text (conversationHistory s)
         then conversationHistory s ++ [user_entry text now]
         else conversationHistory s)%list ->
    stage s' = determineConversationStage s' ->
    evolves s s'
| evolves_reply (reply : Value) (now : Z) :
    messageCount s' = messageCount s ->
    lastIntent s' = lastIntent s ->
    stage s' = stage s ->
    conversationHistory s'
      = (conversationHistory s ++
         [ {| role := "assistant"; content := reply; timestamp := now |} ])%list ->
    evolves s s'.

(** How one event changes the state of one user when calls may overlap: as
    [evolves], except that a state update stores the count that its call
    had loaded, plus one, whatever the Map holds by then. *)
Inductive changes (s s' : UserState) : Prop :=
| changes_same :
    core s' = core s -> changes s s'
| changes_update (intent : Value) (text : string) (now : Z) :
    lastIntent s' = intent ->
    conversationHistory s'
      = (if appends text (conversationHistory s)
         then conversationHistory s ++ [user_entry text now]
         else conversationHistory s)%list ->
    stage s' = determineConversationStage s' ->
    changes s s'
| changes_reply (reply : Value) (now : Z) :
    messageCount s' = messageCount s ->
    lastIntent s' = lastIntent s ->
    stage s' = stage s ->
    conversationHistory s'
      = (conversationHistory s ++
         [ {| role := "assistant"; content := reply; timestamp := now |} ])%list ->
    changes s s'.

(** At most one call of the user waits for its classification, and it has
    loaded the count that the Map holds. *)
Definition calm (userId : string) (w : World) : Prop :=
  (length (in_flight userId w) <= 1)%nat
  /\ Forall (fun call =>
               messageCount (pending_state call)
               = messageCount (view (world_states w) userId))
       (in_flight userId w).

Definition assistant_entries (state : UserState) : Z :=
  Z.of_nat (length (filter (fun e => role e = "assistant")
                      (conversationHistory state))).

(** The user whose state a call writes. *)
Definition op_user (o : Op) : string :=
  match o with
  | OpMessage t => turn_userId t
  | OpBotResponse userId _ _ => userId
  end.

Definition with_lastIntent (intent : Value) (state : UserState) : UserState :=
  {| conversationHistory := conversationHistory state;
     preferences := preferences state;
     lastIntent := intent;
     lastMessage := lastMessage state;
     messageCount := messageCount state;
     stage := stage state;
     createdAt := createdAt state;
     updatedAt := updatedAt state |}.

(** The turn that the message route builds from a request. *)
Definition request_turn (req : MessageRequest) (message : string) : Turn :=
  {| turn_userId := req_conversationId req;
     turn_message := message;
     turn_now := req_now req;
     classifier := req_classifier req;
     recommender := req_recommender req |}.

(** A request that passes the validation of the message route. *)
Definition accepted (req : MessageRequest) : bool :=
  match req_message req with
  | Some message => negb (String.eqb message "")
  | None => false
  end.

(** The number of accepted requests of a conversation. *)
Fixpoint accepted_from (conversationId : string) (reqs : list MessageRequest)
    : nat :=
  match reqs with
  | [] => 0
  | req :: rest =>
      (if accepted req && String.eqb (req_conversationId req) conversationId
       then 1 else 0) + accepted_from conversationId rest
  end.

Definition with_personality (p : string) (c : BotConfig) : BotConfig :=
  {| name := name c;
     personality := p;
     responseLength := responseLength c;
     technicalLevel := technicalLevel c;
     persuasiveLevel := persuasiveLevel c;
     offerTiming := offerTiming c;
     knowledgeBase := knowledgeBase c |}.

Definition with_offerTiming (mode : string) (c : BotConfig) : BotConfig :=
  {| name := name c;
     personality := personality c;
     responseLength := responseLength c;
     technicalLevel := technicalLevel c;
     persuasiveLevel := persuasiveLevel c;
     offerTiming := mode;
     knowledgeBase := knowledgeBase c |}.

(** A slider position as the prompts read it: 0, 1 or 2, and 1 for every
    other number. *)
Definition effective_level (n : Z) : Z :=
  if (0 <=? n)%Z && (n <=? 2)%Z then n else 1%Z.

Definition with_effective_levels (c : BotConfig) : BotConfig :=
  {| name := name c;
     personality := personality c;
     responseLength := effective_level (responseLength c);
     technicalLevel := effective_level (technicalLevel c);
     persuasiveLevel := effective_level (persuasiveLevel c);
     offerTiming := offerTiming c;
     knowledgeBase := knowledgeBase c |}.

(** The files of the prompts directory. *)
Definition prompt_files : list string :=
  [ "base_system_prompt.txt"; "welcome_prompt.txt";
    "product_recommendation_prompt.txt"; "objection_handling_prompt.txt";
    "checkout_prompt.txt"; "intent_classification_prompt.txt" ].

(** The configuration the prompts are generated from when the project has a
    conversation flow; [None] when the default templates are used. *)
Definition flow_botConfig (project : Project) : option BotConfig :=
  match proj_conversation project with
  | None => None
  | Some conversation =>
      match conv_nodes conversation with
      | None => None
      | Some _ => Some (default defaultBotConfig (conv_botConfig conversation))
      end
  end.

(** The directory after every entry of a list has been written, in order. *)
Definition written (file_of : string -> string)
    (entries : list (string * string)) (files : gmap string string)
    : gmap string string :=
  foldl (fun files entry => <[file_of (fst entry) := snd entry]> files)
        files entries.

(** ** The rules as the specification words them

    These follow the prose of the specification, not the code, and are what
    the code is compared with. *)

(** Stage derivation: an ordered list of rules, the first match wins. *)
Definition spec_stage_rules : list ((Z -> Value -> bool) * string) :=
  [ (fun messageCount _ => (messageCount <=? 1)%Z, "greeting");
    (fun _ lastIntent => strict_eq_str lastIntent "checkout_help", "checkout");
    (fun _ lastIntent =>
       existsb (strict_eq_str lastIntent) ["product_inquiry"; "price_inquiry"],
     "product_discovery");
    (fun _ lastIntent => strict_eq_str lastIntent "objection", "objection_handling");
    (fun messageCount _ => (5 <=? messageCount)%Z, "engagement") ].

Fixpoint first_match (rules : list ((Z -> Value -> bool) * string))
    (otherwise : string) (messageCount : Z) (lastIntent : Value) : string :=
  match rules with
  | [] => otherwise
  | (applies, label) :: rest =>
      if applies messageCount lastIntent then label
      else first_match rest otherwise messageCount lastIntent
  end.

Definition spec_deriveStage (messageCount : Z) (lastIntent : Value) : string :=
  first_match spec_stage_rules "information" messageCount lastIntent.

(** Recommendation threshold: early 2, balanced 3, any other value
    including unset 5. *)
Definition spec_threshold (timing : option string) : Z :=
  match timing with
  | Some mode =>
      if String.eqb mode "early" then 2
      else if String.eqb mode "balanced" then 3
      else 5
  | None => 5
  end.

Definition spec_shouldRecommend (timing : option string) (intent : Value)
    (state : UserState) : bool :=
  strict_eq_str intent "product_inquiry"
  || (spec_threshold timing <=? messageCount state)%Z.

(** The threshold the code applies: an unset or empty mode counts as
    balanced. *)
Definition effective_threshold (timing : option string) : Z :=
  match timing with
  | Some mode =>
      if String.eqb mode "early" then 2
      else if String.eqb mode "balanced" || String.eqb mode "" then 3
      else 5
  | None => 3
  end.

(** Idempotent append: skipped exactly when the same role and content
    trail the history. *)
Definition spec_append (history : list HistoryEntry) (text : string) (now : Z)
    : list HistoryEntry :=
  match last history with
  | Some e =>
      if String.eqb (role e) "user" && strict_eq_str (content e) text
      then history
      else (history ++ [user_entry text now])%list
  | None => (history ++ [user_entry text now])%list
  end.

(** ** Sample inputs

    A small runtime and a few turns on which the statements below are
    evaluated. *)

Definition sample_Number_toString (q : Q) : string :=
  if Qeq_bool q 0 then "0" else "1".

Definition sample_String_toNumber (s : string) : option Q :=
  if String.eqb s "" then Some 0%Q else None.

(** JSON texts without string literals. *)
Definition sample_JSON_parse (text : string) : option Value :=
  if String.eqb text "null" then Some VNull
  else if String.eqb text "true" then Some (VBool true)
  else if String.eqb text "[]" then Some (VArr [])
  else if String.eqb text "{}" then Some (VObj [])
  else None.

(** Handlers that echo the message, except the complaint handler, which
    throws. *)
Definition sample_handlers (h : HandlerModule) (message : string)
    (userState : UserState) : Outcome HandlerResult :=
  match h with
  | complaint_handler => Thrown
  | _ => Returned {| result_response := VStr ("You said: " ++ message);
                     result_actions := None |}
  end.

(** A turn whose service calls are both rejected. *)
Definition sample_turn (message : string) (now : Z) : Turn :=
  {| turn_userId := "u";
     turn_message := message;
     turn_now := now;
     classifier := fun _ => Rejected;
     recommender := fun _ => Rejected |}.

(** A turn whose classification parses to [null]. *)
Definition sample_null_turn : Turn :=
  {| turn_userId := "u";
     turn_message := "hello";
     turn_now := 1;
     classifier := fun _ => Content "null";
     recommender := fun _ => Rejected |}.

Definition sample_history : list HistoryEntry :=
  [ user_entry "one" 1; user_entry "two" 2; user_entry "three" 3;
    user_entry "four" 4; user_entry "five" 5; user_entry "six" 6 ].

(** The text of a classification, in the format the intent prompt asks
    for. *)
Definition sample_classification (label confidence : string) : string :=
  "{" ++ dquote ++ "intent" ++ dquote ++ ": " ++ dquote ++ label ++ dquote
  ++ ", " ++ dquote ++ "confidence" ++ dquote ++ ": " ++ confidence ++ "}".

(** [sample_JSON_parse], extended to three classifications. *)
Definition sample_label_parse (text : string) : option Value :=
  if String.eqb text (sample_classification "complaint" "0.9")
  then Some (VObj [("intent", VStr "complaint"); ("confidence", VNum (9 # 10))])
  else if String.eqb text (sample_classification "greeting" "0.9")
  then Some (VObj [("intent", VStr "greeting"); ("confidence", VNum (9 # 10))])
  else if String.eqb text (sample_classification "greeting" "0.4")
  then Some (VObj [("intent", VStr "greeting"); ("confidence", VNum (4 # 10))])
  else sample_JSON_parse text.

(** A turn whose classification carries a label and a confidence. *)
Definition sample_classified_turn (label confidence message : string)
    (now : Z) : Turn :=
  {| turn_userId := "u";
     turn_message := message;
     turn_now := now;
     classifier := fun _ => Content (sample_classification label confidence);
     recommender := fun _ => Rejected |}.

(** A turn whose classification parses to [null], with a message and a
    clock reading of its own. *)
Definition sample_unclassified_turn (message : string) (now : Z) : Turn :=
  {| turn_userId := "u";
     turn_message := message;
     turn_now := now;
     classifier := fun _ => Content "null";
     recommender := fun _ => Rejected |}.

(** A response of the recommendation service whose recommendations field
    is a text, and a parser that reads it. *)
Definition sample_recommendations_text : string :=
  "{" ++ dquote ++ "recommendations" ++ dquote ++ ": "
  ++ dquote ++ "abc" ++ dquote ++ "}".

Definition sample_recommendations_parse (text : string) : option Value :=
  if String.eqb text sample_recommendations_text
  then Some (VObj [("recommendations", VStr "abc")])
  else sample_JSON_parse text.

(** A response of the recommendation service whose recommendations carry
    a length that cannot be compared with a number, a parser that reads it,
    and a product inquiry that receives it. *)
Definition sample_length_text : string :=
  "{" ++ dquote ++ "recommendations" ++ dquote ++ ": {"
  ++ dquote ++ "length" ++ dquote ++ ": {"
  ++ dquote ++ "toString" ++ dquote ++ ": 1}}}".

Definition sample_product_parse (text : string) : option Value :=
  if String.eqb text (sample_classification "product_inquiry" "0.9")
  then Some (VObj [("intent", VStr "product_inquiry");
                   ("confidence", VNum (9 # 10))])
  else if String.eqb text sample_length_text
  then Some (VObj [("recommendations",
                    VObj [("length", VObj [("toString", VNum (1 # 1))])])])
  else sample_JSON_parse text.

Definition sample_product_turn : Turn :=
  {| turn_userId := "u";
     turn_message := "which one?";
     turn_now := 1;
     classifier := fun _ => Content (sample_classification "product_inquiry" "0.9");
     recommender := fun _ => Content sample_length_text |}.

(** Three calls for one user, the first of which is still waiting for its
    classification when the other two have run to their end. *)
Definition sample_overlap : list Event :=
  [ EvCall (sample_turn "one" 1);
    EvCall (sample_turn "two" 2); EvResume 1 3;
    EvCall (sample_turn "three" 4); EvResume 1 5 ].

(** A request to the message route whose service calls are both rejected. *)
Definition sample_request (message : option string) : MessageRequest :=
  {| req_conversationId := "c";
     req_message := message;
     req_now := 1;
     req_reply_now := 2;
     req_classifier := fun _ => Rejected;
     req_recommender := fun _ => Rejected |}.

(** * Properties *)

(** ** Basic facts about values *)

Lemma strict_eq_str_true (v : Value) (lit : string) :
  strict_eq_str v lit = true <-> v = VStr lit.
Proof.
  destruct v; simpl; try (split; [discriminate | intros [=]]).
  rewrite String.eqb_eq. split; [intros -> | intros [= ->]]; reflexivity.
Qed.

Lemma strict_eq_str_false (v : Value) (lit : string) :
  strict_eq_str v lit = false <-> v <> VStr lit.
Proof.
  rewrite <- strict_eq_str_true. destruct (strict_eq_str v lit); split; congruence.
Qed.

Lemma num_or_zero (n : Z) : num_or n 0 = n.
Proof. unfold num_or. destruct (Z.eqb_spec n 0); congruence. Qed.

Lemma is_user_message_iff (text : string) (e : HistoryEntry) :
  is_user_message text e = true <-> user_said text e.
Proof.
  unfold is_user_message, user_said.
  rewrite andb_true_iff, String.eqb_eq, strict_eq_str_true. reflexivity.
Qed.

Lemma existsb_user_message (text : string) (h : list HistoryEntry) :
  existsb (is_user_message text) h = true <-> Exists (user_said text) h.
Proof.
  induction h as [|e h IH]; simpl.
  - split; [discriminate | intros H; inversion H].
  - rewrite orb_true_iff, Exists_cons, IH, is_user_message_iff. reflexivity.
Qed.

Lemma not_existsb_user_message (text : string) (h : list HistoryEntry) :
  existsb (is_user_message text) h = false <->
  Forall (fun e => ~ user_said text e) h.
Proof.
  induction h as [|e h IH]; simpl.
  - split; [constructor | reflexivity].
  - rewrite orb_false_iff, Forall_cons, IH, <- not_true_iff_false,
      is_user_message_iff.
    reflexivity.
Qed.

(** ** The recommendation policy decides by count and mode *)

Lemma shouldOfferRecommendations_true_iff
    (timing : option string) (intent : Value) (state : UserState) :
  shouldOfferRecommendations timing intent state = true <->
  intent = VStr "product_inquiry"
  \/ (effective_threshold timing <= messageCount state)%Z.
Proof.
  unfold shouldOfferRecommendations.
  destruct (strict_eq_str intent "product_inquiry") eqn:Hi.
  - apply strict_eq_str_true in Hi. tauto.
  - apply strict_eq_str_false in Hi. rewrite num_or_zero.
    assert (Hcmp :
      (if String.eqb (env_or timing "balanced") "early"
       then (2 <=? messageCount state)%Z
       else if String.eqb (env_or timing "balanced") "balanced"
            then (3 <=? messageCount state)%Z
            else (5 <=? messageCount state)%Z)
      = (effective_threshold timing <=? messageCount state)%Z).
    { destruct timing as [mode|]; simpl; [| reflexivity].
      destruct (String.eqb_spec mode ""); subst; simpl; [reflexivity |].
      destruct (String.eqb mode "early"); [reflexivity |].
      destruct (String.eqb mode "balanced"); reflexivity. }
    rewrite Hcmp, Z.leb_le. tauto.
Qed.

(** C1, as the specification words it, fails on the code: with no timing
    mode configured and three messages counted, the code offers
    recommendations for a general question, while a threshold of five for
    the unset mode would not. *)
Lemma shouldOfferRecommendations_unset_is_not_late :
  shouldOfferRecommendations None (VStr "general_question")
    (with_messageCount 3 (defaultState 0)) = true
  /\ spec_shouldRecommend None (VStr "general_question")
       (with_messageCount 3 (defaultState 0)) = false.
Proof. split; reflexivity. Qed.

(** C1, amended: recommendations are offered for every product inquiry, and
    otherwise exactly when the message count reaches the threshold, which is
    2 for the mode early, 3 for balanced and for an unset or empty mode, and
    5 for every other mode; with the mode early a count of 1 gives false
    (unless the intent is a product inquiry) and a count of 2 gives true. *)
Theorem shouldOfferRecommendations_policy
    (timing : option string) (intent : Value) (state : UserState) :
  (shouldOfferRecommendations timing intent state = true <->
     intent = VStr "product_inquiry"
     \/ (effective_threshold timing <= messageCount state)%Z)
  /\ effective_threshold (Some "early") = 2%Z
  /\ effective_threshold (Some "balanced") = 3%Z
  /\ effective_threshold None = 3%Z
  /\ effective_threshold (Some "") = 3%Z
  /\ (forall mode, ~ In mode ["early"; "balanced"; ""] ->
      effective_threshold (Some mode) = 5%Z)
  /\ shouldOfferRecommendations (Some "early") intent (with_messageCount 1 state)
     = strict_eq_str intent "product_inquiry"
  /\ shouldOfferRecommendations (Some "early") intent (with_messageCount 2 state)
     = true.
Proof.
  split; [apply shouldOfferRecommendations_true_iff |].
  do 4 (split; [reflexivity |]).
  split.
  { intros mode Hmode. simpl in Hmode. unfold effective_threshold.
    destruct (String.eqb_spec mode "early"); [subst; exfalso; auto |].
    destruct (String.eqb_spec mode "balanced"); [subst; exfalso; auto |].
    destruct (String.eqb_spec mode ""); [subst; exfalso; auto 6 | reflexivity]. }
  split;
    unfold shouldOfferRecommendations;
    destruct (strict_eq_str intent "product_inquiry"); reflexivity.
Qed.

Lemma shouldOfferRecommendations_policy_witness :
  effective_threshold (Some "late") = 5%Z.
Proof.
  apply (proj1 (proj2 (proj2 (proj2 (proj2 (proj2
    (shouldOfferRecommendations_policy None VNull (defaultState 0)))))))).
  simpl. intros [H | [H | [H | []]]]; discriminate H.
Defined.

(** ** Stage derivation *)

(** C3: the stage is a function of the message count and the last intent
    alone, the first matching rule of the ordered list deciding: a count of
    at most 1 gives greeting whatever the last intent; else checkout_help
    gives checkout; else product_inquiry or price_inquiry gives
    product_discovery; else objection gives objection_handling; else a
    count of at least 5 gives engagement; otherwise information. *)
Theorem determineConversationStage_rules (state : UserState) :
  let n := messageCount state in
  let intent := lastIntent state in
  determineConversationStage state = spec_deriveStage n intent
  /\ ((n <= 1)%Z -> determineConversationStage state = "greeting")
  /\ ((1 < n)%Z -> intent = VStr "checkout_help" ->
      determineConversationStage state = "checkout")
  /\ ((1 < n)%Z ->
      intent = VStr "product_inquiry" \/ intent = VStr "price_inquiry" ->
      determineConversationStage state = "product_discovery")
  /\ ((1 < n)%Z -> intent = VStr "objection" ->
      determineConversationStage state = "objection_handling")
  /\ ((1 < n)%Z ->
      ~ In intent (map VStr ["checkout_help"; "product_inquiry";
                             "price_inquiry"; "objection"]) ->
      determineConversationStage state
      = if (5 <=? n)%Z then "engagement" else "information").
Proof.
  cbv zeta. split.
  { unfold determineConversationStage, spec_deriveStage, spec_stage_rules.
    cbn [first_match existsb].
    destruct (messageCount state <=? 1)%Z; [reflexivity |].
    destruct (strict_eq_str (lastIntent state) "checkout_help"); [reflexivity |].
    rewrite orb_false_r.
    destruct (strict_eq_str (lastIntent state) "product_inquiry"
              || strict_eq_str (lastIntent state) "price_inquiry"); [reflexivity |].
    destruct (strict_eq_str (lastIntent state) "objection"); [reflexivity |].
    destruct (5 <=? messageCount state)%Z; reflexivity. }
  unfold determineConversationStage.
  destruct (Z.leb_spec (messageCount state) 1) as [Hn | Hn].
  { repeat split; intros; solve [reflexivity | lia]. }
  repeat split.
  - lia.
  - intros _ ->. reflexivity.
  - intros _ [-> | ->]; reflexivity.
  - intros _ ->. reflexivity.
  - intros _ Hnot. simpl in Hnot.
    destruct (strict_eq_str (lastIntent state) "checkout_help") eqn:H1;
      [apply strict_eq_str_true in H1; symmetry in H1; tauto |].
    destruct (strict_eq_str (lastIntent state) "product_inquiry") eqn:H2;
      [apply strict_eq_str_true in H2; symmetry in H2; tauto |].
    destruct (strict_eq_str (lastIntent state) "price_inquiry") eqn:H3;
      [apply strict_eq_str_true in H3; symmetry in H3; tauto |].
    destruct (strict_eq_str (lastIntent state) "objection") eqn:H4;
      [apply strict_eq_str_true in H4; symmetry in H4; tauto |].
    reflexivity.
Qed.

Lemma determineConversationStage_rules_witness :
  determineConversationStage
    (with_messageCount 4 (defaultState 0)) = "information".
Proof.
  apply (determineConversationStage_rules (with_messageCount 4 (defaultState 0))).
  - simpl. lia.
  - simpl. intros [H | [H | [H | [H | []]]]]; discriminate H.
Defined.

(** ** Dispatch table *)

Section Dispatch.

Context (Number_toString : Q -> string).

Local Abbreviation getHandlerForIntent := (getHandlerForIntent Number_toString).

Lemma intentHandlers_get_fallback (key : string) :
  intentHandlers key = None -> Object_prototype key = None ->
  intentHandlers_get key = None.
Proof. unfold intentHandlers_get. intros -> ->. reflexivity. Qed.

(** Every label that names neither an entry of the table nor a member of
    [Object.prototype] is served by the general question handler. *)
Lemma getHandlerForIntent_fallback (label : string) :
  intentHandlers label = None -> Object_prototype label = None ->
  getHandlerForIntent (VStr label)
  = Returned (Handler general_question_handler).
Proof.
  intros Hown Hproto. unfold getHandlerForIntent. simpl.
  rewrite (intentHandlers_get_fallback _ Hown Hproto). reflexivity.
Qed.

(** The nine entries of the table. *)
Lemma getHandlerForIntent_table :
  map (fun label => getHandlerForIntent (VStr label))
    [ "greeting"; "product_inquiry"; "price_inquiry"; "shipping_inquiry";
      "return_policy"; "checkout_help"; "objection"; "complaint";
      "general_question" ]
  = map (fun h => Returned (Handler h))
      [ welcome_handler; product_inquiry_handler; price_inquiry_handler;
        shipping_inquiry_handler; return_policy_handler; checkout_handler;
        objection_handler; complaint_handler; general_question_handler ].
Proof. reflexivity. Qed.

(** C8 does not hold of the code: the label constructor is not one of the
    nine categories, yet the lookup finds the built-in [Object] function
    on the prototype chain of the table and returns it instead of the
    general question handler; the label __proto__ even yields a value that
    is not callable. *)
Theorem getHandlerForIntent_inherited_member :
  getHandlerForIntent (VStr "constructor")
  = Returned (Inherited proto_constructor)
  /\ getHandlerForIntent (VStr "__proto__")
     = Returned (Inherited proto_proto)
  /\ getHandlerForIntent (VStr "constructor")
     <> Returned (Handler general_question_handler).
Proof. repeat split. discriminate. Qed.

End Dispatch.

(** ** User state manager *)

Lemma getUserState_snd (st : gmap string UserState) (u : string) (now : Z) :
  snd (getUserState st u now) = default (defaultState now) (st !! u).
Proof. unfold getUserState. destruct (st !! u); reflexivity. Qed.

Lemma getUserState_lookup (st : gmap string UserState) (u : string) (now : Z) :
  fst (getUserState st u now) !! u = Some (snd (getUserState st u now)).
Proof.
  unfold getUserState. destruct (st !! u) eqn:E; simpl.
  - exact E.
  - apply lookup_insert_eq.
Qed.

Lemma getUserState_lookup_ne (st : gmap string UserState) (u u' : string) (now : Z) :
  u <> u' -> fst (getUserState st u now) !! u' = st !! u'.
Proof.
  intros Hne. unfold getUserState. destruct (st !! u) eqn:E; simpl.
  - reflexivity.
  - apply lookup_insert_ne. exact Hne.
Qed.

Lemma getUserState_core (st : gmap string UserState) (u : string) (now : Z) :
  core (snd (getUserState st u now)) = core (view st u).
Proof.
  rewrite getUserState_snd. unfold view. destruct (st !! u); reflexivity.
Qed.

Lemma getUserState_view (st : gmap string UserState) (u u' : string) (now : Z) :
  core (view (fst (getUserState st u now)) u') = core (view st u').
Proof.
  destruct (decide (u = u')) as [<- | Hne].
  - unfold view at 1. rewrite getUserState_lookup. simpl.
    apply getUserState_core.
  - unfold view. rewrite getUserState_lookup_ne by exact Hne. reflexivity.
Qed.

Lemma core_history (s s' : UserState) :
  core s = core s' -> conversationHistory s = conversationHistory s'.
Proof. unfold core. congruence. Qed.

Lemma core_count (s s' : UserState) :
  core s = core s' -> messageCount s = messageCount s'.
Proof. unfold core. congruence. Qed.

Lemma core_stage (s s' : UserState) :
  core s = core s' ->
  (stage s = determineConversationStage s <->
   stage s' = determineConversationStage s').
Proof.
  unfold core, determineConversationStage. intros [= Hh Hc Hi Hs Hp].
  rewrite Hc, Hi, Hs. reflexivity.
Qed.

Lemma updateUserState_lookup (st : gmap string UserState) (u : string)
    (updates : Updates) (now : Z) :
  fst (updateUserState st u updates now) !! u
  = Some (snd (updateUserState st u updates now)).
Proof.
  unfold updateUserState. destruct (getUserState st u now) as [st1 cur].
  simpl. apply lookup_insert_eq.
Qed.

Lemma updateUserState_view_ne (st : gmap string UserState) (u u' : string)
    (updates : Updates) (now : Z) :
  u <> u' ->
  core (view (fst (updateUserState st u updates now)) u') = core (view st u').
Proof.
  intros Hne. rewrite <- (getUserState_view st u u' now).
  unfold updateUserState. destruct (getUserState st u now) as [st1 cur].
  simpl. unfold view. rewrite lookup_insert_ne by exact Hne. reflexivity.
Qed.

Lemma updateUserState_fields (st : gmap string UserState) (u : string)
    (updates : Updates) (now : Z) :
  let s' := snd (updateUserState st u updates now) in
  let history := conversationHistory (view st u) in
  let text := upd_lastMessage updates in
  conversationHistory s'
    = (if appends text history then history ++ [user_entry text now] else history)%list
  /\ messageCount s' = upd_messageCount updates
  /\ lastIntent s' = upd_lastIntent updates
  /\ preferences s' = preferences (view st u)
  /\ stage s' = determineConversationStage s'.
Proof.
  cbv zeta. pose proof (getUserState_core st u now) as Hcore.
  unfold updateUserState. destruct (getUserState st u now) as [st1 cur].
  simpl in Hcore. injection Hcore as Hh Hc Hi Hs Hp.
  unfold appends. simpl. rewrite <- Hh, <- Hp.
  destruct (negb (String.eqb (upd_lastMessage updates) "")
            && negb (existsb (is_user_message (upd_lastMessage updates))
                             (conversationHistory cur))); simpl;
    repeat split; reflexivity.
Qed.

Lemma updateUserState_history (st : gmap string UserState) (u : string)
    (updates : Updates) (now : Z) :
  conversationHistory (snd (updateUserState st u updates now))
  = (if appends (upd_lastMessage updates) (conversationHistory (view st u))
     then conversationHistory (view st u) ++
          [user_entry (upd_lastMessage updates) now]
     else conversationHistory (view st u))%list.
Proof. apply (proj1 (updateUserState_fields st u updates now)). Qed.

Lemma updateUserState_count (st : gmap string UserState) (u : string)
    (updates : Updates) (now : Z) :
  messageCount (snd (updateUserState st u updates now))
  = upd_messageCount updates.
Proof. apply (proj1 (proj2 (updateUserState_fields st u updates now))). Qed.

Lemma updateUserState_intent (st : gmap string UserState) (u : string)
    (updates : Updates) (now : Z) :
  lastIntent (snd (updateUserState st u updates now)) = upd_lastIntent updates.
Proof.
  apply (proj1 (proj2 (proj2 (updateUserState_fields st u updates now)))).
Qed.

Lemma updateUserState_stage (st : gmap string UserState) (u : string)
    (updates : Updates) (now : Z) :
  stage (snd (updateUserState st u updates now))
  = determineConversationStage (snd (updateUserState st u updates now)).
Proof.
  apply (proj2 (proj2 (proj2 (proj2 (updateUserState_fields st u updates now))))).
Qed.

Lemma addBotResponse_lookup (st : gmap string UserState) (u : string)
    (reply : Value) (now : Z) :
  fst (addBotResponse st u reply now) !! u
  = Some (snd (addBotResponse st u reply now)).
Proof.
  unfold addBotResponse. destruct (getUserState st u now) as [st1 cur].
  simpl. apply lookup_insert_eq.
Qed.

Lemma addBotResponse_view_ne (st : gmap string UserState) (u u' : string)
    (reply : Value) (now : Z) :
  u <> u' ->
  core (view (fst (addBotResponse st u reply now)) u') = core (view st u').
Proof.
  intros Hne. rewrite <- (getUserState_view st u u' now).
  unfold addBotResponse. destruct (getUserState st u now) as [st1 cur].
  simpl. unfold view. rewrite lookup_insert_ne by exact Hne. reflexivity.
Qed.

Lemma addBotResponse_fields (st : gmap string UserState) (u : string)
    (reply : Value) (now : Z) :
  let s' := snd (addBotResponse st u reply now) in
  conversationHistory s'
    = (conversationHistory (view st u) ++
       [ {| role := "assistant"; content := reply; timestamp := now |} ])%list
  /\ messageCount s' = messageCount (view st u)
  /\ lastIntent s' = lastIntent (view st u)
  /\ stage s' = stage (view st u).
Proof.
  cbv zeta. pose proof (getUserState_core st u now) as Hcore.
  unfold addBotResponse. destruct (getUserState st u now) as [st1 cur].
  simpl in Hcore. injection Hcore as Hh Hc Hi Hs Hp. simpl.
  rewrite Hh, Hc, Hi, Hs. repeat split; reflexivity.
Qed.

Lemma appends_true (text : string) (history : list HistoryEntry) :
  appends text history = true <->
  text <> "" /\ Forall (fun e => ~ user_said text e) history.
Proof.
  unfold appends.
  rewrite andb_true_iff, !negb_true_iff, not_existsb_user_message,
    String.eqb_neq.
  reflexivity.
Qed.

Lemma appends_false (text : string) (history : list HistoryEntry) :
  appends text history = false <->
  text = "" \/ Exists (user_said text) history.
Proof.
  unfold appends.
  rewrite andb_false_iff, !negb_false_iff, existsb_user_message, String.eqb_eq.
  reflexivity.
Qed.

(** C2, as the specification words it, fails on the code: after hi and bye
    have been stored, hi is sent again; it does not trail the history, so an
    append that only looks at the last entry would store it again, but the
    code leaves the history at two entries. *)
Lemma updateUserState_resend_not_appended :
  let hi := {| upd_lastIntent := VStr "greeting"; upd_lastMessage := "hi";
               upd_messageCount := 1 |} in
  let bye := {| upd_lastIntent := VStr "greeting"; upd_lastMessage := "bye";
                upd_messageCount := 2 |} in
  let st1 := fst (updateUserState ∅ "u" hi 1) in
  let st2 := fst (updateUserState st1 "u" bye 2) in
  conversationHistory (view st2 "u") = [user_entry "hi" 1; user_entry "bye" 2]
  /\ conversationHistory (snd (updateUserState st2 "u" hi 3))
     = [user_entry "hi" 1; user_entry "bye" 2]
  /\ spec_append (conversationHistory (view st2 "u")) "hi" 3
     = [user_entry "hi" 1; user_entry "bye" 2; user_entry "hi" 3]
  /\ conversationHistory (snd (updateUserState st2 "u" hi 3))
     <> spec_append (conversationHistory (view st2 "u")) "hi" 3.
Proof. vm_compute. repeat split. discriminate. Qed.

(** C2, amended: the state update appends the inbound user message unless
    the message is empty or a user entry with the same content occurs
    anywhere in the history, not only at its end.  So the same message
    submitted twice in a row through two consecutive updates is stored
    once, and the same content sent again after other messages is not
    appended again either. *)
Theorem updateUserState_appends_once
    (st : gmap string UserState) (userId : string) (updates : Updates) (now : Z)
    (text : string) (Htext : upd_lastMessage updates = text) :
  let history := conversationHistory (view st userId) in
  let after := updateUserState st userId updates now in
  (text = "" \/ Exists (user_said text) history ->
   conversationHistory (snd after) = history)
  /\ (text <> "" -> Forall (fun e => ~ user_said text e) history ->
      conversationHistory (snd after) = (history ++ [user_entry text now])%list
      /\ forall (again : Updates) (later : Z),
           upd_lastMessage again = text ->
           conversationHistory
             (snd (updateUserState (fst after) userId again later))
           = (history ++ [user_entry text now])%list)
  /\ (forall before between t0,
        history = (before ++ user_entry text t0 :: between)%list ->
        conversationHistory (snd after) = history).
Proof.
  cbv zeta. subst text.
  destruct (updateUserState_fields st userId updates now) as (Hh & _).
  cbv zeta in Hh. split; [| split].
  - intros Hskip. apply appends_false in Hskip. rewrite Hh, Hskip. reflexivity.
  - intros Hne Hfresh.
    assert (Happ : appends (upd_lastMessage updates)
                     (conversationHistory (view st userId)) = true)
      by (apply appends_true; split; assumption).
    rewrite Hh, Happ. split; [reflexivity |].
    intros again later Hagain.
    destruct (updateUserState_fields (fst (updateUserState st userId updates now))
                userId again later) as (Hh2 & _).
    cbv zeta in Hh2.
    assert (Hview : conversationHistory
                      (view (fst (updateUserState st userId updates now)) userId)
                    = (conversationHistory (view st userId) ++
                       [user_entry (upd_lastMessage updates) now])%list).
    { unfold view at 1. rewrite updateUserState_lookup. simpl.
      rewrite Hh, Happ. reflexivity. }
    rewrite Hh2, Hview, Hagain.
    assert (Hskip : appends (upd_lastMessage updates)
                      (conversationHistory (view st userId) ++
                       [user_entry (upd_lastMessage updates) now]) = false).
    { apply appends_false. right. apply Exists_app. right.
      apply Exists_cons_hd. split; reflexivity. }
    rewrite Hskip. reflexivity.
  - intros before between t0 Hsplit.
    assert (Hskip : appends (upd_lastMessage updates)
                      (conversationHistory (view st userId)) = false).
    { apply appends_false. right. rewrite Hsplit. apply Exists_app. right.
      apply Exists_cons_hd. split; reflexivity. }
    rewrite Hh, Hskip. reflexivity.
Qed.

Lemma updateUserState_appends_once_witness :
  let hi := {| upd_lastIntent := VStr "greeting"; upd_lastMessage := "hi";
               upd_messageCount := 1 |} in
  conversationHistory
    (snd (updateUserState (fst (updateUserState ∅ "u" hi 1)) "u" hi 2))
  = [user_entry "hi" 1].
Proof.
  intros hi.
  refine (proj2 (proj1 (proj2
    (updateUserState_appends_once ∅ "u" hi 1%Z "hi" eq_refl)) _ _) hi 2%Z eq_refl).
  - discriminate.
  - constructor.
Defined.

(** ** How the state of one user evolves *)

Lemma user_entries_snoc (s s' : UserState) (e : HistoryEntry) :
  conversationHistory s' = (conversationHistory s ++ [e])%list ->
  user_entries s'
  = (user_entries s + (if decide (role e = "user") then 1 else 0))%Z.
Proof.
  intros Hh. unfold user_entries. rewrite Hh, filter_app, length_app.
  rewrite Nat2Z.inj_add. f_equal.
  rewrite filter_cons, filter_nil.
  destruct (decide (role e = "user")); reflexivity.
Qed.

Lemma evolves_count (s s' : UserState) :
  evolves s s' -> (messageCount s <= messageCount s')%Z.
Proof.
  intros [Hcore | intent text now Hc _ _ _ | reply now Hc _ _ _].
  - rewrite (core_count _ _ Hcore). lia.
  - lia.
  - lia.
Qed.

Lemma evolves_history (s s' : UserState) :
  evolves s s' -> conversationHistory s `prefix_of` conversationHistory s'.
Proof.
  intros [Hcore | intent text now _ _ Hh _ | reply now _ _ _ Hh].
  - rewrite (core_history _ _ Hcore). reflexivity.
  - rewrite Hh. destruct (appends text (conversationHistory s));
      [apply prefix_app_r |]; reflexivity.
  - rewrite Hh. apply prefix_app_r. reflexivity.
Qed.

Lemma evolves_stage (s s' : UserState) :
  evolves s s' ->
  stage s = determineConversationStage s ->
  stage s' = determineConversationStage s'.
Proof.
  intros [Hcore | intent text now _ _ _ Hs | reply now Hc Hl Hs _] Hinv.
  - apply (core_stage _ _ Hcore). exact Hinv.
  - exact Hs.
  - rewrite Hs, Hinv. unfold determineConversationStage.
    rewrite Hc, Hl. reflexivity.
Qed.

(** The count grows at least as fast as the user entries of the
    history. *)
Lemma evolves_deficit (s s' : UserState) :
  evolves s s' ->
  (messageCount s - user_entries s <= messageCount s' - user_entries s')%Z.
Proof.
  intros [Hcore | intent text now Hc _ Hh _ | reply now Hc _ _ Hh].
  - unfold user_entries.
    rewrite (core_count _ _ Hcore), (core_history _ _ Hcore). lia.
  - destruct (appends text (conversationHistory s)).
    + rewrite (user_entries_snoc s s' _ Hh). simpl. lia.
    + unfold user_entries. rewrite Hh. lia.
  - rewrite (user_entries_snoc s s' _ Hh). simpl. lia.
Qed.

(** ** Recommendation generator *)

Lemma slice_last_short {A} (n : nat) (l : list A) :
  (length l <= n)%nat -> slice_last n l = l.
Proof.
  intros Hle. unfold slice_last.
  replace (length l - n)%nat with 0%nat by lia. reflexivity.
Qed.

Lemma slice_last_app {A} (older recent : list A) :
  slice_last (length recent) (older ++ recent) = recent.
Proof.
  unfold slice_last. rewrite length_app.
  replace (length older + length recent - length recent)%nat
    with (length older) by lia.
  apply drop_app_length.
Qed.

Lemma slice_last_length {A} (n : nat) (l : list A) :
  (length (slice_last n l) <= n)%nat.
Proof. unfold slice_last. rewrite length_drop. lia. Qed.

Lemma slice_last_suffix {A} (n : nat) (l : list A) :
  l = (take (length l - n) l ++ slice_last n l)%list.
Proof. unfold slice_last. symmetry. apply take_drop. Qed.

Section Recommendation.

Context (Number_toString : Q -> string)
        (JSON_parse : string -> option Value)
        (recommendationPrompt : string).

Local Abbreviation ToString := (ToString Number_toString).
Local Abbreviation contextPrompt := (contextPrompt Number_toString).
Local Abbreviation getProductRecommendations :=
  (getProductRecommendations Number_toString JSON_parse recommendationPrompt).
Local Abbreviation service_failed := (service_failed JSON_parse).

Lemma getProductRecommendations_returns
    (openai : list ChatMessage -> Completion) (message : string)
    (userState : UserState) :
  exists v, getProductRecommendations openai message userState = Returned v.
Proof.
  unfold getProductRecommendations.
  destruct (contextPrompt message userState) as [prompt|]; simpl; eauto.
  destruct (openai _) as [| | text]; simpl; eauto.
  destruct (JSON_parse text) as [result|]; simpl; eauto.
  destruct (get_prop result "recommendations"); simpl; eauto.
Qed.

Lemma getProductRecommendations_prompt
    (openai : list ChatMessage -> Completion) (message : string)
    (userState : UserState) (prompt : string) :
  contextPrompt message userState = Returned prompt ->
  getProductRecommendations openai message userState
  = try_catch
      (let? content :=
         match openai [ {| msg_role := "system";
                           msg_content := recommendationPrompt |};
                        {| msg_role := "user"; msg_content := prompt |} ] with
         | Rejected | Malformed => Thrown
         | Content content => Returned content
         end in
       let? result := of_option (JSON_parse content) in
       let? recommendations := of_option (get_prop result "recommendations") in
       Returned (js_or recommendations (VArr [])))
      (Returned (VArr [])).
Proof. intros H. unfold getProductRecommendations. rewrite H. reflexivity. Qed.

Lemma contextPrompt_window (message : string) (userState : UserState)
    (older recent : list HistoryEntry) :
  conversationHistory userState = (older ++ recent)%list ->
  length recent = 5%nat ->
  contextPrompt message userState
  = contextPrompt message (with_history recent userState).
Proof.
  intros Hh Hlen.
  assert (Hwindow : slice_last 5 (older ++ recent) = slice_last 5 recent).
  { rewrite <- Hlen at 1. rewrite slice_last_app.
    rewrite slice_last_short by lia. reflexivity. }
  unfold contextPrompt. simpl. rewrite Hh, Hwindow. reflexivity.
Qed.

Lemma all_returned_lines {A} (line : A -> string -> string)
    (convert : A -> Outcome string) (l : list A) (texts : list string) :
  Forall2 (fun x text => convert x = Returned text) l texts ->
  all_returned
    (map (fun x => let? text := convert x in Returned (line x text)) l)
  = Returned (zip_with line l texts).
Proof.
  induction 1 as [| x text l texts Hx _ IH]; simpl; [reflexivity |].
  rewrite Hx. simpl. rewrite IH. reflexivity.
Qed.

Lemma all_returned_thrown {A} (line : A -> string -> string)
    (convert : A -> Outcome string) (l : list A) :
  Exists (fun x => convert x = Thrown) l ->
  all_returned
    (map (fun x => let? text := convert x in Returned (line x text)) l)
  = Thrown.
Proof.
  induction 1 as [x l Hx | x l _ IH]; simpl.
  - rewrite Hx. reflexivity.
  - destruct (convert x); simpl; [rewrite IH |]; reflexivity.
Qed.

(** The text of the prompt when the preferences and the last five entries
    of the history can be converted to text. *)
Lemma contextPrompt_text (message : string) (userState : UserState)
    (values texts : list string) :
  Forall2 (fun entry value => ToString (snd entry) = Returned value)
    (preferences userState) values ->
  Forall2 (fun msg text => ToString (content msg) = Returned text)
    (slice_last 5 (conversationHistory userState)) texts ->
  contextPrompt message userState
  = Returned
      (newline ++ "User message: " ++ message ++ newline ++
       newline ++ "User preferences:" ++ newline ++
       String.concat newline
         (zip_with (fun entry value => "- " ++ fst entry ++ ": " ++ value)
            (preferences userState) values) ++ newline ++
       newline ++ "Conversation history:" ++ newline ++
       String.concat newline
         (zip_with (fun msg text => role msg ++ ": " ++ text)
            (slice_last 5 (conversationHistory userState)) texts) ++ newline).
Proof.
  intros Hprefs Hhistory. unfold contextPrompt.
  rewrite (all_returned_lines
             (fun entry value => "- " ++ fst entry ++ ": " ++ value)
             (fun entry => ToString (snd entry)) _ _ Hprefs).
  simpl.
  rewrite (all_returned_lines (fun msg text => role msg ++ ": " ++ text)
             (fun msg => ToString (content msg)) _ _ Hhistory).
  reflexivity.
Qed.

(** C7 does not hold of the code: a parsed response whose recommendations
    field is truthy but no array (a text, a number, an object) is handed
    back as it is, where the claim and the documented return type promise
    the array or an empty list. *)
Theorem getProductRecommendations_returns_non_array
    (openai : list ChatMessage -> Completion) (message : string)
    (userState : UserState) (prompt text : string) (result field : Value)
    (Hprompt : contextPrompt message userState = Returned prompt)
    (Hservice :
       openai [ {| msg_role := "system"; msg_content := recommendationPrompt |};
                {| msg_role := "user"; msg_content := prompt |} ]
       = Content text)
    (Hparse : JSON_parse text = Some result)
    (Hfield : get_prop result "recommendations" = Some field)
    (Htruthy : truthy field = true)
    (Hnon_array : forall items, field <> VArr items) :
  getProductRecommendations openai message userState = Returned field
  /\ getProductRecommendations openai message userState <> Returned (VArr [])
  /\ forall items,
       getProductRecommendations openai message userState
       <> Returned (VArr items).
Proof.
  assert (Hreturned :
    getProductRecommendations openai message userState = Returned field).
  { rewrite (getProductRecommendations_prompt _ _ _ _ Hprompt), Hservice.
    simpl. rewrite Hparse. simpl. rewrite Hfield. simpl.
    unfold js_or. rewrite Htruthy. reflexivity. }
  rewrite Hreturned. split; [reflexivity |].
  split; [| intros items]; intros [= H]; exact (Hnon_array _ H).
Qed.

(** X18.  The prompt of the recommendation generator is built from the
    message, the preferences and the last five entries of the conversation
    history, one line per entry; older entries do not reach it.  The
    generator never throws: it returns the recommendations array of the
    parsed response when there is one, and an empty list when an entry
    cannot be converted to text, the service call fails, the text does not
    parse, or the parsed value carries no recommendations. *)
Theorem getProductRecommendations_window_and_fallback
    (openai : list ChatMessage -> Completion) (message : string)
    (userState : UserState) :
  let history := conversationHistory userState in
  let returned := getProductRecommendations openai message userState in
  let request prompt :=
    [ {| msg_role := "system"; msg_content := recommendationPrompt |};
      {| msg_role := "user"; msg_content := prompt |} ] in
  (length (slice_last 5 history) <= 5)%nat
  /\ (exists older, history = (older ++ slice_last 5 history)%list)
  /\ ((length history <= 5)%nat -> slice_last 5 history = history)
  /\ (forall values texts,
        Forall2 (fun entry value => ToString (snd entry) = Returned value)
          (preferences userState) values ->
        Forall2 (fun msg text => ToString (content msg) = Returned text)
          (slice_last 5 history) texts ->
        contextPrompt message userState
        = Returned
            (newline ++ "User message: " ++ message ++ newline ++
             newline ++ "User preferences:" ++ newline ++
             String.concat newline
               (zip_with (fun entry value => "- " ++ fst entry ++ ": " ++ value)
                  (preferences userState) values) ++ newline ++
             newline ++ "Conversation history:" ++ newline ++
             String.concat newline
               (zip_with (fun msg text => role msg ++ ": " ++ text)
                  (slice_last 5 history) texts) ++ newline))
  /\ (forall older recent,
        history = (older ++ recent)%list -> length recent = 5%nat ->
        contextPrompt message userState
        = contextPrompt message (with_history recent userState)
        /\ returned
           = getProductRecommendations openai message
               (with_history recent userState))
  /\ (exists v, returned = Returned v)
  /\ (forall prompt text result items,
        contextPrompt message userState = Returned prompt ->
        openai (request prompt) = Content text ->
        JSON_parse text = Some result ->
        get_prop result "recommendations" = Some (VArr items) ->
        returned = Returned (VArr items))
  /\ (contextPrompt message userState = Thrown ->
      returned = Returned (VArr []))
  /\ (forall prompt,
        contextPrompt message userState = Returned prompt ->
        service_failed (openai (request prompt)) ->
        returned = Returned (VArr []))
  /\ (forall prompt text result,
        contextPrompt message userState = Returned prompt ->
        openai (request prompt) = Content text ->
        JSON_parse text = Some result ->
        result = VNull
        \/ get_prop result "recommendations" = Some VUndefined
        \/ get_prop result "recommendations" = Some VNull ->
        returned = Returned (VArr [])).
Proof.
  cbv zeta.
  split; [apply slice_last_length |].
  split; [eexists; apply slice_last_suffix |].
  split; [apply slice_last_short |].
  split.
  { intros values texts. apply contextPrompt_text. }
  split.
  { intros older recent Hh Hlen.
    pose proof (contextPrompt_window message userState older recent Hh Hlen)
      as Hprompt.
    split; [exact Hprompt |].
    unfold getProductRecommendations. rewrite <- Hprompt. reflexivity. }
  split; [apply getProductRecommendations_returns |].
  split; [| split; [| split]].
  - intros prompt text result items Hprompt Hservice Hparse Hrecs.
    rewrite (getProductRecommendations_prompt _ _ _ _ Hprompt), Hservice.
    simpl. rewrite Hparse. simpl. rewrite Hrecs. reflexivity.
  - intros Hthrown. unfold getProductRecommendations. rewrite Hthrown.
    reflexivity.
  - intros prompt Hprompt.
    rewrite (getProductRecommendations_prompt _ _ _ _ Hprompt).
    unfold service_failed.
    destruct (openai _) as [| | text]; simpl; try reflexivity.
    intros ->. reflexivity.
  - intros prompt text result Hprompt Hservice Hparse Hmissing.
    rewrite (getProductRecommendations_prompt _ _ _ _ Hprompt), Hservice.
    simpl. rewrite Hparse.
    destruct Hmissing as [-> | [Hrecs | Hrecs]]; simpl;
      try rewrite Hrecs; reflexivity.
Qed.

End Recommendation.

(** ** Calls that overlap *)

Lemma evolves_changes (s s' : UserState) : evolves s s' -> changes s s'.
Proof.
  intros [Hcore | intent text now _ Hl Hh Hs | reply now Hc Hl Hs Hh].
  - apply changes_same. exact Hcore.
  - eapply changes_update; eassumption.
  - eapply changes_reply; eassumption.
Qed.

Lemma changes_history (s s' : UserState) :
  changes s s' -> conversationHistory s `prefix_of` conversationHistory s'.
Proof.
  intros [Hcore | intent text now _ Hh _ | reply now _ _ _ Hh].
  - rewrite (core_history _ _ Hcore). reflexivity.
  - rewrite Hh. destruct (appends text (conversationHistory s));
      [apply prefix_app_r |]; reflexivity.
  - rewrite Hh. apply prefix_app_r. reflexivity.
Qed.

Lemma changes_stage (s s' : UserState) :
  changes s s' ->
  stage s = determineConversationStage s ->
  stage s' = determineConversationStage s'.
Proof.
  intros [Hcore | intent text now _ _ Hs | reply now Hc Hl Hs _] Hinv.
  - apply (core_stage _ _ Hcore). exact Hinv.
  - exact Hs.
  - rewrite Hs, Hinv. unfold determineConversationStage.
    rewrite Hc, Hl. reflexivity.
Qed.

Lemma filter_delete_other {A} (P : A -> Prop) `{!forall x, Decision (P x)}
    (l : list A) (i : nat) (x : A) :
  l !! i = Some x -> ~ P x -> filter P (delete i l) = filter P l.
Proof.
  revert i. induction l as [|y l IH]; intros [|i] Hi Hx;
    try discriminate Hi; simpl in Hi.
  - injection Hi as ->. change (delete 0 (x :: l)) with l.
    rewrite filter_cons_False by exact Hx. reflexivity.
  - change (delete (S i) (y :: l)) with (y :: delete i l).
    rewrite !filter_cons, (IH i Hi Hx). reflexivity.
Qed.

Lemma filter_delete_length {A} (P : A -> Prop) `{!forall x, Decision (P x)}
    (l : list A) (i : nat) (x : A) :
  l !! i = Some x -> P x ->
  length (filter P l) = S (length (filter P (delete i l))).
Proof.
  revert i. induction l as [|y l IH]; intros [|i] Hi Hx;
    try discriminate Hi; simpl in Hi.
  - injection Hi as ->. change (delete 0 (x :: l)) with l.
    rewrite filter_cons_True by exact Hx. reflexivity.
  - change (delete (S i) (y :: l)) with (y :: delete i l).
    rewrite !filter_cons. destruct (decide (P y)); simpl;
      rewrite (IH i Hi Hx); reflexivity.
Qed.

(** A world with the same waiting calls of the user and the same count is
    as calm as before. *)
Lemma calm_kept (userId : string) (w w' : World) :
  in_flight userId w' = in_flight userId w ->
  messageCount (view (world_states w') userId)
  = messageCount (view (world_states w) userId) ->
  calm userId w -> calm userId w'.
Proof.
  unfold calm. intros -> ->. exact id.
Qed.

Lemma calm_initial (userId : string) : calm userId initial.
Proof. split; [simpl; lia | constructor]. Qed.

(** ** Conversation flow *)

Section Flow.

Context (Number_toString : Q -> string)
        (String_toNumber : string -> option Q)
        (JSON_parse : string -> option Value)
        (intentPrompt recommendationPrompt : string)
        (OFFER_TIMING : option string)
        (handlers : HandlerModule -> string -> UserState -> Outcome HandlerResult).

Local Abbreviation in_engine f :=
  (f Number_toString String_toNumber JSON_parse intentPrompt
     recommendationPrompt OFFER_TIMING handlers).

Local Abbreviation classifyIntent := (classifyIntent JSON_parse intentPrompt).
Local Abbreviation turn_intent := (turn_intent JSON_parse intentPrompt).
Local Abbreviation op_classified := (op_classified JSON_parse intentPrompt).
Local Abbreviation service_failed := (service_failed JSON_parse).
Local Abbreviation getHandlerForIntent := (getHandlerForIntent Number_toString).
Local Abbreviation getProductRecommendations :=
  (getProductRecommendations Number_toString JSON_parse recommendationPrompt).
Local Abbreviation getProductRecommendations_returns :=
  (getProductRecommendations_returns Number_toString JSON_parse
     recommendationPrompt).
Local Abbreviation with_recommendations :=
  (with_recommendations Number_toString String_toNumber).
Local Abbreviation invoke := (invoke handlers).
Local Abbreviation respond :=
  (respond Number_toString String_toNumber JSON_parse recommendationPrompt
     OFFER_TIMING handlers).
Local Abbreviation processMessage_resume := (in_engine processMessage_resume).
Local Abbreviation processMessage_try := (in_engine processMessage_try).
Local Abbreviation processMessage := (in_engine processMessage).
Local Abbreviation step := (in_engine step).
Local Abbreviation run := (in_engine run).
Local Abbreviation exec_event := (in_engine exec_event).
Local Abbreviation exec := (in_engine exec).
Local Abbreviation one_at_a_time := (in_engine one_at_a_time).

(** *** The classifier never throws *)

Lemma classifyIntent_returns (openai : list ChatMessage -> Completion)
    (message : string) :
  exists v, classifyIntent openai message = Returned v.
Proof.
  unfold classifyIntent.
  destruct (openai _) as [| | text]; simpl; eauto.
  destruct (JSON_parse text); simpl; eauto.
Qed.

Lemma classifyIntent_failed (openai : list ChatMessage -> Completion)
    (message : string) :
  service_failed
    (openai [ {| msg_role := "system"; msg_content := intentPrompt |};
              {| msg_role := "user"; msg_content := message |} ]) ->
  classifyIntent openai message = Returned fallbackIntent.
Proof.
  unfold classifyIntent, service_failed.
  destruct (openai _) as [| | text]; simpl; try reflexivity.
  intros ->. reflexivity.
Qed.

(** *** What one call of [processMessage] does *)

Lemma processMessage_resume_unfold (t : Turn) (userState : UserState)
    (now : Z) (st : gmap string UserState) :
  processMessage_resume t userState now st =
  match turn_intent t with
  | Thrown => (st, Thrown)
  | Returned intent =>
      (fst (updateUserState st (turn_userId t)
              (turn_updates intent (turn_message t) userState) now),
       respond t intent userState)
  end.
Proof.
  unfold processMessage_resume, turn_intent, ebind,
    lift_state, lift_outcome, eret, turn_updates.
  destruct (classifyIntent (classifier t) (turn_message t)) as [classified|];
    simpl; [| reflexivity].
  destruct (get_prop classified "intent") as [intent|]; simpl; [| reflexivity].
  destruct (updateUserState st (turn_userId t) _ now) as [st2 s2].
  simpl. destruct (respond t intent userState); reflexivity.
Qed.

Lemma processMessage_try_unfold (t : Turn) (st : gmap string UserState) :
  let userId := turn_userId t in
  let message := turn_message t in
  let st1 := fst (getUserState st userId (turn_now t)) in
  let userState := snd (getUserState st userId (turn_now t)) in
  processMessage_try t st =
  match turn_intent t with
  | Thrown => (st1, Thrown)
  | Returned intent =>
      (fst (updateUserState st1 userId
              (turn_updates intent message userState) (turn_now t)),
       respond t intent userState)
  end.
Proof.
  cbv zeta. unfold processMessage_try, ebind, lift_state.
  destruct (getUserState st (turn_userId t) (turn_now t)) as [st1 userState].
  simpl. apply processMessage_resume_unfold.
Qed.

(** The Map after a call: the state update has run exactly when the
    classification left something to destructure. *)
Lemma processMessage_store (t : Turn) (st : gmap string UserState) :
  let st1 := fst (getUserState st (turn_userId t) (turn_now t)) in
  let userState := snd (getUserState st (turn_userId t) (turn_now t)) in
  fst (processMessage t st) =
  match turn_intent t with
  | Thrown => st1
  | Returned intent =>
      fst (updateUserState st1 (turn_userId t)
             (turn_updates intent (turn_message t) userState) (turn_now t))
  end.
Proof.
  cbv zeta. unfold processMessage.
  rewrite processMessage_try_unfold. cbv zeta.
  destruct (turn_intent t) as [intent|]; [| reflexivity].
  destruct (respond _ _ _); reflexivity.
Qed.

Lemma processMessage_reply (t : Turn) (st : gmap string UserState) :
  snd (processMessage t st) =
  match snd (processMessage_try t st) with
  | Returned reply => reply
  | Thrown => apology
  end.
Proof.
  unfold processMessage.
  destruct (processMessage_try t st) as [st' [reply|]]; reflexivity.
Qed.

(** The reply of a call whose classification could be destructured. *)
Lemma processMessage_responds (t : Turn) (st : gmap string UserState)
    (intent : Value) :
  turn_intent t = Returned intent ->
  snd (processMessage t st) =
  match respond t intent
          (snd (getUserState st (turn_userId t) (turn_now t))) with
  | Returned reply => reply
  | Thrown => apology
  end.
Proof.
  intros Hi. rewrite processMessage_reply, processMessage_try_unfold.
  cbv zeta. rewrite Hi. reflexivity.
Qed.

(** When the steps after the state update throw. *)
Lemma respond_thrown (t : Turn) (intent : Value) (userState : UserState) :
  respond t intent userState = Thrown <->
  getHandlerForIntent intent = Thrown
  \/ (exists handler,
        getHandlerForIntent intent = Returned handler
        /\ invoke handler (turn_message t) userState = Thrown)
  \/ (exists handler result recommendations,
        getHandlerForIntent intent = Returned handler
        /\ invoke handler (turn_message t) userState = Returned result
        /\ shouldOfferRecommendations OFFER_TIMING intent userState = true
        /\ getProductRecommendations (recommender t) (turn_message t) userState
           = Returned recommendations
        /\ with_recommendations (default [] (result_actions result))
             recommendations = Thrown).
Proof.
  unfold respond.
  destruct (getHandlerForIntent intent) as [handler|]; simpl;
    [| split; [intros _; left; reflexivity | reflexivity]].
  destruct (invoke handler (turn_message t) userState) as [result|] eqn:Hres;
    simpl.
  2:{ split; [| reflexivity]. intros _. right. left. exists handler.
      split; [reflexivity | exact Hres]. }
  destruct (getProductRecommendations_returns (recommender t) (turn_message t)
              userState) as (recs & Hrecs).
  rewrite Hrecs.
  destruct (shouldOfferRecommendations OFFER_TIMING intent userState); simpl.
  - destruct (with_recommendations _ recs) as [acts|] eqn:Hwith; simpl.
    + split; [discriminate |].
      intros [H | [(h & Hh & H) | (h & r & v & Hh & Hr & _ & Hv & H)]];
        [discriminate H | congruence |].
      injection Hh as <-. rewrite Hres in Hr. injection Hr as <-.
      injection Hv as <-. congruence.
    + split; [| reflexivity]. intros _. right. right.
      exists handler, result, recs. repeat split; assumption.
  - split; [discriminate |].
    intros [H | [(h & Hh & H) | (h & r & v & _ & _ & H & _)]];
      [discriminate H | congruence | discriminate H].
Qed.

(** *** Failures of the classifier *)

(** C4: whatever the completion service does, [classifyIntent] returns a
    value; when the call is rejected, the response cannot be read or its
    text does not parse, that value is the fallback with intent
    general_question and confidence 0.5.  The turn then goes on: the
    stored state records general_question as last intent, and the reply is
    the general question handler's response for the loaded state, or the
    apology when that handler throws, hence a non-empty string as long as
    the handler's responses are. *)
Theorem classifyIntent_failure_contained
    (t : Turn) (st : gmap string UserState)
    (Hfail : service_failed
               (classifier t
                  [ {| msg_role := "system"; msg_content := intentPrompt |};
                    {| msg_role := "user"; msg_content := turn_message t |} ]))
    (Hhandler : forall message userState result,
        handlers general_question_handler message userState = Returned result ->
        exists text, result_response result = VStr text /\ text <> "") :
  (forall openai message, exists v, classifyIntent openai message = Returned v)
  /\ classifyIntent (classifier t) (turn_message t) = Returned fallbackIntent
  /\ get_prop fallbackIntent "intent" = Some (VStr "general_question")
  /\ get_prop fallbackIntent "confidence" = Some (VNum (1 # 2))
  /\ (snd (processMessage t st) = apology
      \/ exists result,
           handlers general_question_handler (turn_message t)
             (snd (getUserState st (turn_userId t) (turn_now t)))
           = Returned result
           /\ response (snd (processMessage t st)) = result_response result)
  /\ (exists text, response (snd (processMessage t st)) = VStr text /\ text <> "")
  /\ (exists s, fst (processMessage t st) !! turn_userId t = Some s
                /\ lastIntent s = VStr "general_question").
Proof.
  pose proof (classifyIntent_failed (classifier t) (turn_message t) Hfail)
    as Hcls.
  assert (Hti : turn_intent t = Returned (VStr "general_question")).
  { unfold turn_intent. rewrite Hcls. reflexivity. }
  split; [apply classifyIntent_returns |].
  split; [exact Hcls |].
  split; [reflexivity |]. split; [reflexivity |].
  assert (Hreply :
    snd (processMessage t st) = apology
    \/ exists result,
         handlers general_question_handler (turn_message t)
           (snd (getUserState st (turn_userId t) (turn_now t)))
         = Returned result
         /\ response (snd (processMessage t st)) = result_response result).
  { rewrite (processMessage_responds t st _ Hti). unfold respond.
    change (getHandlerForIntent (VStr "general_question"))
      with (Returned (Handler general_question_handler)).
    cbn [obind invoke].
    destruct (handlers general_question_handler _ _) as [result|] eqn:Hres;
      [| left; reflexivity].
    cbn [obind].
    destruct (getProductRecommendations_returns (recommender t)
                (turn_message t)
                (snd (getUserState st (turn_userId t) (turn_now t))))
      as (recs & ->).
    destruct (shouldOfferRecommendations _ _ _); cbn [obind];
      [| right; exists result; split; reflexivity].
    destruct (with_recommendations _ recs); cbn [obind];
      [right; exists result; split; reflexivity | left; reflexivity]. }
  split; [exact Hreply |]. split.
  - destruct Hreply as [-> | (result & Hres & ->)].
    + eexists. split; [reflexivity | discriminate].
    + exact (Hhandler _ _ _ Hres).
  - rewrite processMessage_store. cbv zeta. rewrite Hti.
    eexists. split; [apply updateUserState_lookup |].
    apply updateUserState_intent.
Qed.

(** *** Exceptions stop at [processMessage] *)

(** The [try] block throws exactly when the classification leaves nothing
    to destructure or a step after the state update throws. *)
Lemma processMessage_try_thrown (t : Turn) (st : gmap string UserState) :
  snd (processMessage_try t st) = Thrown <->
  turn_intent t = Thrown
  \/ exists intent,
       turn_intent t = Returned intent
       /\ respond t intent
            (snd (getUserState st (turn_userId t) (turn_now t))) = Thrown.
Proof.
  rewrite processMessage_try_unfold. cbv zeta.
  destruct (turn_intent t) as [intent|]; simpl.
  - split.
    + intros H. right. exists intent. split; [reflexivity | exact H].
    + intros [H | (i & [= <-] & H)]; [discriminate H | exact H].
  - split; [intros _; left; reflexivity | reflexivity].
Qed.

(** C5: whenever a step inside the [try] block of [processMessage]
    throws, which happens exactly when the classification result cannot
    be destructured, the conversion of the intent to a property key throws,
    the invoked handler throws, or the length test on the recommendations
    throws, the call still returns a reply: the fixed apology with an empty
    list of actions. *)
Theorem processMessage_contains_exceptions
    (t : Turn) (st : gmap string UserState) :
  let message := turn_message t in
  let userState := snd (getUserState st (turn_userId t) (turn_now t)) in
  (snd (processMessage_try t st) = Thrown ->
   snd (processMessage t st) = apology)
  /\ (turn_intent t = Thrown -> snd (processMessage t st) = apology)
  /\ (forall intent,
        turn_intent t = Returned intent ->
        (getHandlerForIntent intent = Thrown ->
         snd (processMessage t st) = apology)
        /\ (forall handler,
              getHandlerForIntent intent = Returned handler ->
              invoke handler message userState = Thrown ->
              snd (processMessage t st) = apology)
        /\ (forall handler result recommendations,
              getHandlerForIntent intent = Returned handler ->
              invoke handler message userState = Returned result ->
              shouldOfferRecommendations OFFER_TIMING intent userState = true ->
              getProductRecommendations (recommender t) message userState
              = Returned recommendations ->
              with_recommendations (default [] (result_actions result))
                recommendations = Thrown ->
              snd (processMessage t st) = apology))
  /\ (snd (processMessage_try t st) = Thrown <->
      turn_intent t = Thrown
      \/ exists intent,
           turn_intent t = Returned intent
           /\ (getHandlerForIntent intent = Thrown
               \/ (exists handler,
                     getHandlerForIntent intent = Returned handler
                     /\ invoke handler message userState = Thrown)
               \/ (exists handler result recommendations,
                     getHandlerForIntent intent = Returned handler
                     /\ invoke handler message userState = Returned result
                     /\ shouldOfferRecommendations OFFER_TIMING intent userState
                        = true
                     /\ getProductRecommendations (recommender t) message
                          userState = Returned recommendations
                     /\ with_recommendations
                          (default [] (result_actions result)) recommendations
                        = Thrown)))
  /\ (snd (processMessage t st) <> apology ->
      exists reply, snd (processMessage_try t st) = Returned reply
                    /\ snd (processMessage t st) = reply)
  /\ actions apology = []
  /\ response apology =
     VStr "I'm sorry, I'm having trouble processing your request right now. Can you try again?".
Proof.
  cbv zeta.
  assert (Hcatch : snd (processMessage_try t st) = Thrown ->
                   snd (processMessage t st) = apology).
  { intros H. rewrite processMessage_reply, H. reflexivity. }
  assert (Hafter : forall intent,
            turn_intent t = Returned intent ->
            respond t intent
              (snd (getUserState st (turn_userId t) (turn_now t))) = Thrown ->
            snd (processMessage t st) = apology).
  { intros intent Hi Hthrown. apply Hcatch, processMessage_try_thrown.
    right. exists intent. split; assumption. }
  split; [exact Hcatch |].
  split; [intros H; apply Hcatch, processMessage_try_thrown; left; exact H |].
  split.
  { intros intent Hi. split; [| split].
    - intros Hkey. apply (Hafter intent Hi), respond_thrown. left. exact Hkey.
    - intros handler Hkey Hcall. apply (Hafter intent Hi), respond_thrown.
      right. left. exists handler. split; assumption.
    - intros handler result recs Hkey Hcall Hoffer Hrecs Hlength.
      apply (Hafter intent Hi), respond_thrown. right. right.
      exists handler, result, recs. repeat split; assumption. }
  split.
  { rewrite processMessage_try_thrown. split.
    - intros [H | (intent & Hi & H)]; [left; exact H |].
      right. exists intent. split; [exact Hi |].
      apply respond_thrown. exact H.
    - intros [H | (intent & Hi & H)]; [left; exact H |].
      right. exists intent. split; [exact Hi |].
      apply respond_thrown. exact H. }
  split; [| split; reflexivity].
  intros Hne. rewrite processMessage_reply in *.
  destruct (snd (processMessage_try t st)) as [reply|].
  - exists reply. split; reflexivity.
  - contradiction.
Qed.

(** *** The state of a user across calls *)

Lemma resume_store (t : Turn) (userState : UserState) (now : Z)
    (st : gmap string UserState) :
  fst (processMessage_resume t userState now st) =
  match turn_intent t with
  | Thrown => st
  | Returned intent =>
      fst (updateUserState st (turn_userId t)
             (turn_updates intent (turn_message t) userState) now)
  end.
Proof.
  rewrite processMessage_resume_unfold.
  destruct (turn_intent t); reflexivity.
Qed.

(** A call is its load followed by the rest of the [try] block. *)
Lemma processMessage_as_resume (t : Turn) (st : gmap string UserState) :
  fst (processMessage t st)
  = fst (processMessage_resume t
           (snd (getUserState st (turn_userId t) (turn_now t)))
           (turn_now t)
           (fst (getUserState st (turn_userId t) (turn_now t)))).
Proof. rewrite processMessage_store, resume_store. reflexivity. Qed.

Lemma resume_view_updated (t : Turn) (userState : UserState) (now : Z)
    (st : gmap string UserState) (intent : Value) :
  turn_intent t = Returned intent ->
  let s := view st (turn_userId t) in
  let s' :=
    view (fst (processMessage_resume t userState now st)) (turn_userId t) in
  messageCount s' = (messageCount userState + 1)%Z
  /\ lastIntent s' = intent
  /\ conversationHistory s'
     = (if appends (turn_message t) (conversationHistory s)
        then conversationHistory s ++ [user_entry (turn_message t) now]
        else conversationHistory s)%list
  /\ stage s' = determineConversationStage s'.
Proof.
  intros Hi. cbv zeta.
  assert (Hv : view (fst (processMessage_resume t userState now st))
                 (turn_userId t)
               = snd (updateUserState st (turn_userId t)
                        (turn_updates intent (turn_message t) userState)
                        now)).
  { unfold view. rewrite resume_store, Hi, updateUserState_lookup.
    reflexivity. }
  rewrite Hv. clear Hv.
  rewrite updateUserState_count, updateUserState_intent,
    updateUserState_history, <- updateUserState_stage.
  simpl. rewrite num_or_zero. repeat split; reflexivity.
Qed.

Lemma resume_view_other (t : Turn) (userState : UserState) (now : Z)
    (st : gmap string UserState) (userId : string) :
  turn_userId t <> userId \/ turn_intent t = Thrown ->
  core (view (fst (processMessage_resume t userState now st)) userId)
  = core (view st userId).
Proof.
  intros Hother. rewrite resume_store.
  destruct (turn_intent t) as [intent|] eqn:Hi; [| reflexivity].
  destruct Hother as [Hne | [=]].
  apply updateUserState_view_ne. exact Hne.
Qed.

Lemma processMessage_view_updated (t : Turn) (st : gmap string UserState)
    (intent : Value) :
  turn_intent t = Returned intent ->
  let s := view st (turn_userId t) in
  let s' := view (fst (processMessage t st)) (turn_userId t) in
  messageCount s' = (messageCount s + 1)%Z
  /\ lastIntent s' = intent
  /\ conversationHistory s'
     = (if appends (turn_message t) (conversationHistory s)
        then conversationHistory s ++
             [user_entry (turn_message t) (turn_now t)]
        else conversationHistory s)%list
  /\ stage s' = determineConversationStage s'.
Proof.
  intros Hi. cbv zeta. rewrite processMessage_as_resume.
  destruct (resume_view_updated t
              (snd (getUserState st (turn_userId t) (turn_now t)))
              (turn_now t)
              (fst (getUserState st (turn_userId t) (turn_now t)))
              intent Hi) as (Hc & Hl & Hh & Hs).
  pose proof (getUserState_core st (turn_userId t) (turn_now t)) as Hloaded.
  pose proof (getUserState_view st (turn_userId t) (turn_userId t) (turn_now t))
    as Hstored.
  rewrite Hc, Hl, Hh.
  rewrite (core_count _ _ Hloaded), (core_history _ _ Hstored).
  repeat split; try reflexivity. exact Hs.
Qed.

Lemma processMessage_view_other (t : Turn) (st : gmap string UserState)
    (userId : string) :
  turn_userId t <> userId \/ turn_intent t = Thrown ->
  core (view (fst (processMessage t st)) userId) = core (view st userId).
Proof.
  intros Hother. rewrite processMessage_as_resume.
  rewrite (resume_view_other _ _ _ _ _ Hother). apply getUserState_view.
Qed.

Lemma addBotResponse_view (st : gmap string UserState) (userId : string)
    (reply : Value) (now : Z) :
  view (fst (addBotResponse st userId reply now)) userId
  = snd (addBotResponse st userId reply now).
Proof. unfold view. rewrite addBotResponse_lookup. reflexivity. Qed.

Lemma step_evolves (st : gmap string UserState) (o : Op) (userId : string) :
  evolves (view st userId) (view (step st o) userId).
Proof.
  destruct o as [t | u reply now]; simpl.
  - destruct (turn_intent t) as [intent|] eqn:Hi.
    + destruct (decide (turn_userId t = userId)) as [<- | Hne].
      * destruct (processMessage_view_updated t st intent Hi)
          as (Hc & Hl & Hh & Hs).
        eapply evolves_update; eassumption.
      * apply evolves_same, processMessage_view_other. left. exact Hne.
    + apply evolves_same, processMessage_view_other. right. exact Hi.
  - destruct (decide (u = userId)) as [<- | Hne].
    + rewrite addBotResponse_view.
      destruct (addBotResponse_fields st u reply now) as (Hh & Hc & Hl & Hs).
      eapply evolves_reply; eassumption.
    + apply evolves_same, addBotResponse_view_ne. exact Hne.
Qed.

Lemma run_snoc (st : gmap string UserState) (ops : list Op) (o : Op) :
  run st (ops ++ [o]) = step (run st ops) o.
Proof. unfold run. rewrite fold_left_app. reflexivity. Qed.

Lemma run_app (st : gmap string UserState) (ops later : list Op) :
  run st (ops ++ later) = run (run st ops) later.
Proof. unfold run. apply fold_left_app. Qed.

Lemma run_deficit (ops : list Op) (st : gmap string UserState)
    (userId : string) :
  (messageCount (view st userId) - user_entries (view st userId)
   <= messageCount (view (run st ops) userId)
      - user_entries (view (run st ops) userId))%Z.
Proof.
  revert st. induction ops as [|o ops IH]; intros st; simpl.
  - lia.
  - pose proof (evolves_deficit _ _ (step_evolves st o userId)).
    specialize (IH (step st o)). lia.
Qed.

Lemma run_stage (ops : list Op) (st : gmap string UserState)
    (userId : string) :
  stage (view st userId) = determineConversationStage (view st userId) ->
  stage (view (run st ops) userId)
  = determineConversationStage (view (run st ops) userId).
Proof.
  revert st. induction ops as [|o ops IH]; intros st Hinv; simpl.
  - exact Hinv.
  - apply IH. apply (evolves_stage _ _ (step_evolves st o userId)), Hinv.
Qed.

(** *** Executions with overlapping calls *)

Lemma exec_call (w : World) (t : Turn) :
  exec_event w (EvCall t)
  = {| world_states :=
         fst (getUserState (world_states w) (turn_userId t) (turn_now t));
       world_pending :=
         (world_pending w ++
          [ {| pending_turn := t;
               pending_state :=
                 snd (getUserState (world_states w) (turn_userId t)
                        (turn_now t)) |} ])%list |}.
Proof.
  simpl. destruct (getUserState _ _ _) as [st1 userState]. reflexivity.
Qed.

Lemma exec_resume (w : World) (i : nat) (now : Z) (call : Pending) :
  world_pending w !! i = Some call ->
  exec_event w (EvResume i now)
  = {| world_states :=
         fst (processMessage_resume (pending_turn call) (pending_state call)
                now (world_states w));
       world_pending := delete i (world_pending w) |}.
Proof. simpl. intros ->. reflexivity. Qed.

Lemma exec_snoc (w : World) (events : list Event) (e : Event) :
  exec w (events ++ [e]) = exec_event (exec w events) e.
Proof. unfold exec. rewrite fold_left_app. reflexivity. Qed.

Lemma exec_app (w : World) (events later : list Event) :
  exec w (events ++ later) = exec (exec w events) later.
Proof. unfold exec. apply fold_left_app. Qed.

Lemma one_at_a_time_app (userId : string) (w : World)
    (events later : list Event) :
  one_at_a_time userId w (events ++ later) <->
  one_at_a_time userId w events
  /\ one_at_a_time userId (exec w events) later.
Proof.
  revert w. induction events as [|e events IH]; intros w.
  - simpl. split; [intros H; split; [exact I | exact H] | intros [_ H]; exact H].
  - change (one_at_a_time userId w ((e :: events) ++ later))
      with (match e with
            | EvCall t => turn_userId t = userId -> in_flight userId w = []
            | _ => True
            end /\ one_at_a_time userId (exec_event w e) (events ++ later)).
    change (one_at_a_time userId w (e :: events))
      with (match e with
            | EvCall t => turn_userId t = userId -> in_flight userId w = []
            | _ => True
            end /\ one_at_a_time userId (exec_event w e) events).
    change (exec w (e :: events)) with (exec (exec_event w e) events).
    rewrite IH. split.
    + intros (He & Hev & Hl). repeat split; assumption.
    + intros ((He & Hev) & Hl). repeat split; assumption.
Qed.

(** Every event, whatever the calls in flight, extends the history of a
    user at its end and stores a stage derived from the stored state. *)
Lemma exec_event_changes (w : World) (e : Event) (userId : string) :
  changes (view (world_states w) userId)
    (view (world_states (exec_event w e)) userId).
Proof.
  destruct e as [t | i at_time | u reply now].
  - rewrite exec_call. simpl. apply changes_same, getUserState_view.
  - destruct (world_pending w !! i) as [call|] eqn:Hcall.
    + rewrite (exec_resume w i at_time call Hcall). simpl.
      destruct (turn_intent (pending_turn call)) as [intent|] eqn:Hi.
      * destruct (decide (turn_userId (pending_turn call) = userId))
          as [<- | Hne].
        -- destruct (resume_view_updated (pending_turn call)
                       (pending_state call) at_time (world_states w) intent Hi)
             as (_ & Hl & Hh & Hs).
           eapply changes_update; eassumption.
        -- apply changes_same, resume_view_other. left. exact Hne.
      * apply changes_same, resume_view_other. right. exact Hi.
    + simpl. rewrite Hcall. apply changes_same. reflexivity.
  - simpl. destruct (decide (u = userId)) as [<- | Hne].
    + rewrite addBotResponse_view.
      destruct (addBotResponse_fields (world_states w) u reply now)
        as (Hh & Hc & Hl & Hs).
      eapply changes_reply; eassumption.
    + apply changes_same, addBotResponse_view_ne. exact Hne.
Qed.

Lemma exec_stage (events : list Event) (w : World) (userId : string) :
  stage (view (world_states w) userId)
  = determineConversationStage (view (world_states w) userId) ->
  stage (view (world_states (exec w events)) userId)
  = determineConversationStage (view (world_states (exec w events)) userId).
Proof.
  revert w. induction events as [|e events IH]; intros w Hinv.
  - exact Hinv.
  - change (exec w (e :: events)) with (exec (exec_event w e) events).
    apply IH. apply (changes_stage _ _ (exec_event_changes w e userId)), Hinv.
Qed.

(** While the calls of a user do not overlap, every event changes the
    user's state as a whole call would. *)
Lemma exec_event_evolves (w : World) (e : Event) (userId : string) :
  calm userId w ->
  match e with
  | EvCall t => turn_userId t = userId -> in_flight userId w = []
  | _ => True
  end ->
  evolves (view (world_states w) userId)
    (view (world_states (exec_event w e)) userId)
  /\ calm userId (exec_event w e).
Proof.
  intros Hcalm Hallowed. destruct e as [t | i at_time | u reply now].
  - rewrite exec_call.
    pose proof (getUserState_view (world_states w) (turn_userId t) userId
                  (turn_now t)) as Hview.
    split; [apply evolves_same; exact Hview |].
    destruct (decide (turn_userId t = userId)) as [Hu | Hne].
    + specialize (Hallowed Hu). unfold calm, in_flight in *. simpl.
      rewrite filter_app, Hallowed, filter_cons_True by exact Hu.
      rewrite filter_nil. simpl. split; [lia |].
      constructor; [| constructor]. simpl. subst userId.
      unfold view. rewrite getUserState_lookup. reflexivity.
    + apply (calm_kept userId w); [| apply (core_count _ _ Hview) | exact Hcalm].
      unfold in_flight. simpl.
      rewrite filter_app, filter_cons_False by exact Hne.
      rewrite filter_nil. apply app_nil_r.
  - destruct (world_pending w !! i) as [call|] eqn:Hcall.
    2:{ simpl. rewrite Hcall. split; [apply evolves_same; reflexivity | exact Hcalm]. }
    rewrite (exec_resume w i at_time call Hcall).
    destruct (decide (turn_userId (pending_turn call) = userId)) as [Hu | Hne].
    + destruct Hcalm as (Hone & Hloaded).
      assert (Hin : call ∈ in_flight userId w).
      { apply list_elem_of_filter. split; [exact Hu |].
        apply (list_elem_of_lookup_2 _ i). exact Hcall. }
      rewrite Forall_forall in Hloaded. specialize (Hloaded call Hin).
      split.
      * simpl. destruct (turn_intent (pending_turn call)) as [intent|] eqn:Hi.
        -- subst userId.
           destruct (resume_view_updated (pending_turn call)
                       (pending_state call) at_time (world_states w) intent Hi)
             as (Hc & Hl & Hh & Hs).
           rewrite Hloaded in Hc.
           eapply evolves_update; eassumption.
        -- apply evolves_same, resume_view_other. right. exact Hi.
      * unfold calm, in_flight in *. simpl.
        pose proof (filter_delete_length
                      (fun c => turn_userId (pending_turn c) = userId)
                      (world_pending w) i call Hcall Hu) as Hlen.
        destruct (filter _ (delete i (world_pending w))) as [|c rest];
          [split; [simpl; lia | constructor] |].
        simpl in Hlen. lia.
    + assert (Hcore :
        core (view (fst (processMessage_resume (pending_turn call)
                           (pending_state call) at_time (world_states w)))
                userId)
        = core (view (world_states w) userId))
        by (apply resume_view_other; left; exact Hne).
      split; [apply evolves_same; exact Hcore |].
      apply (calm_kept userId w); [| apply (core_count _ _ Hcore) | exact Hcalm].
      unfold in_flight. simpl.
      apply (filter_delete_other _ _ i call Hcall). exact Hne.
  - simpl. destruct (decide (u = userId)) as [<- | Hne].
    + rewrite addBotResponse_view.
      destruct (addBotResponse_fields (world_states w) u reply now)
        as (Hh & Hc & Hl & Hs).
      split; [eapply evolves_reply; eassumption |].
      apply (calm_kept u w); [reflexivity | | exact Hcalm].
      simpl. rewrite addBotResponse_view. exact Hc.
    + pose proof (addBotResponse_view_ne (world_states w) u userId reply now Hne)
        as Hcore.
      split; [apply evolves_same; exact Hcore |].
      apply (calm_kept userId w);
        [reflexivity | apply (core_count _ _ Hcore) | exact Hcalm].
Qed.

Lemma exec_evolves (events : list Event) (w : World) (userId : string) :
  calm userId w ->
  one_at_a_time userId w events ->
  calm userId (exec w events)
  /\ (messageCount (view (world_states w) userId)
      <= messageCount (view (world_states (exec w events)) userId))%Z
  /\ (messageCount (view (world_states w) userId)
      - user_entries (view (world_states w) userId)
      <= messageCount (view (world_states (exec w events)) userId)
         - user_entries (view (world_states (exec w events)) userId))%Z.
Proof.
  revert w. induction events as [|e events IH]; intros w Hcalm Hone.
  - change (exec w []) with w. split; [exact Hcalm | split; lia].
  - destruct Hone as (He & Hrest).
    destruct (exec_event_evolves w e userId Hcalm He) as (Hev & Hcalm').
    change (exec w (e :: events)) with (exec (exec_event w e) events).
    destruct (IH _ Hcalm' Hrest) as (Hc & Hcount & Hdeficit).
    pose proof (evolves_count _ _ Hev). pose proof (evolves_deficit _ _ Hev).
    split; [exact Hc | split; lia].
Qed.

(** A history of calls taken one at a time is the execution of its calls
    one by one, in which no two calls overlap. *)
Lemma exec_one_by_one (ops : list Op) (st : gmap string UserState) :
  exec {| world_states := st; world_pending := [] |} (one_by_one ops)
  = {| world_states := run st ops; world_pending := [] |}.
Proof.
  revert st. induction ops as [|o ops IH]; intros st; [reflexivity |].
  change (one_by_one (o :: ops)) with (events_of o ++ one_by_one ops)%list.
  rewrite exec_app.
  change (run st (o :: ops)) with (run (step st o) ops).
  rewrite <- IH. f_equal.
  destruct o as [t | u reply now]; [| reflexivity].
  change (exec {| world_states := st; world_pending := [] |}
            (events_of (OpMessage t)))
    with (exec_event
            (exec_event {| world_states := st; world_pending := [] |}
               (EvCall t))
            (EvResume 0 (turn_now t))).
  rewrite exec_call.
  rewrite (exec_resume _ 0 (turn_now t)
             {| pending_turn := t;
                pending_state :=
                  snd (getUserState st (turn_userId t) (turn_now t)) |})
    by reflexivity.
  simpl. rewrite processMessage_as_resume. reflexivity.
Qed.

Lemma one_at_a_time_one_by_one (userId : string) (ops : list Op)
    (st : gmap string UserState) :
  one_at_a_time userId {| world_states := st; world_pending := [] |}
    (one_by_one ops).
Proof.
  revert st. induction ops as [|o ops IH]; intros st; [exact I |].
  change (one_by_one (o :: ops)) with (events_of o ++ one_by_one ops)%list.
  apply one_at_a_time_app. split.
  - destruct o as [t | u reply now]; simpl; tauto.
  - rewrite <- (app_nil_r (events_of o)).
    change (events_of o ++ [])%list with (one_by_one [o]).
    rewrite exec_one_by_one. apply IH.
Qed.

(** C9, amended: along every execution that starts from the empty Map,
    with calls that may overlap, one more event (a call that loads the
    state, a call that resumes and stores its update, or an appended bot
    response, for any user) extends the user's conversation history at its
    end only and leaves the stored stage equal to the stage derived from the
    state's own message count and last intent.  The message count of a user
    does not decrease as long as the calls for that user do not overlap; in
    particular it does not when the calls are taken one at a time. *)
Theorem reachable_state_invariants
    (events : list Event) (e : Event) (userId : string) :
  let w := exec initial events in
  let w' := exec_event w e in
  let s := view (world_states w) userId in
  let s' := view (world_states w') userId in
  conversationHistory s `prefix_of` conversationHistory s'
  /\ stage s = determineConversationStage s
  /\ stage s' = determineConversationStage s'
  /\ (one_at_a_time userId initial (events ++ [e]) ->
      (messageCount s <= messageCount s')%Z)
  /\ w' = exec initial (events ++ [e])
  /\ forall ops o,
       exec initial (one_by_one (ops ++ [o]))
       = {| world_states := step (run ∅ ops) o; world_pending := [] |}
       /\ one_at_a_time userId initial (one_by_one (ops ++ [o]))
       /\ (messageCount (view (run ∅ ops) userId)
           <= messageCount (view (step (run ∅ ops) o) userId))%Z.
Proof.
  cbv zeta.
  pose proof (exec_event_changes (exec initial events) e userId) as Hch.
  assert (Hst : stage (view (world_states (exec initial events)) userId)
                = determineConversationStage
                    (view (world_states (exec initial events)) userId))
    by (apply exec_stage; reflexivity).
  split; [exact (changes_history _ _ Hch) |].
  split; [exact Hst |].
  split; [exact (changes_stage _ _ Hch Hst) |].
  split.
  { intros Hone. apply one_at_a_time_app in Hone as (Hevents & He & _).
    destruct (exec_evolves events initial userId (calm_initial userId) Hevents)
      as (Hcalm & _).
    destruct (exec_event_evolves _ e userId Hcalm He) as (Hev & _).
    exact (evolves_count _ _ Hev). }
  split; [symmetry; apply exec_snoc |].
  intros ops o. split; [| split].
  - unfold initial. rewrite exec_one_by_one, run_snoc. reflexivity.
  - apply one_at_a_time_one_by_one.
  - exact (evolves_count _ _ (step_evolves (run ∅ ops) o userId)).
Qed.


(** *** The handler and the policy see the state as loaded *)

Lemma step_count (st : gmap string UserState) (o : Op) (userId : string) :
  op_classified o ->
  messageCount (view (step st o) userId)
  = (messageCount (view st userId) + Z.of_nat (messages_from userId [o]))%Z.
Proof.
  destruct o as [t | u reply now]; simpl; intros Hcl.
  - destruct (turn_intent t) as [intent|] eqn:Hi; [| contradiction].
    destruct (String.eqb_spec (turn_userId t) userId) as [<- | Hne].
    + destruct (processMessage_view_updated t st intent Hi) as (Hc & _).
      rewrite Hc. reflexivity.
    + rewrite (core_count _ _ (processMessage_view_other t st userId
                                 (or_introl Hne))).
      simpl. lia.
  - destruct (decide (u = userId)) as [<- | Hne].
    + rewrite addBotResponse_view.
      destruct (addBotResponse_fields st u reply now) as (_ & Hc & _).
      rewrite Hc. lia.
    + rewrite (core_count _ _ (addBotResponse_view_ne st u userId reply now Hne)).
      lia.
Qed.

Lemma run_count (ops : list Op) (st : gmap string UserState)
    (userId : string) :
  Forall op_classified ops ->
  messageCount (view (run st ops) userId)
  = (messageCount (view st userId) + Z.of_nat (messages_from userId ops))%Z.
Proof.
  revert st. induction ops as [|o ops IH]; intros st Hall.
  - simpl. lia.
  - apply Forall_cons in Hall as [Ho Hall].
    change (run st (o :: ops)) with (run (step st o) ops).
    rewrite (IH _ Hall), (step_count st o userId Ho).
    destruct o as [t | u reply now]; simpl; lia.
Qed.


End Flow.

(** ** The statements on sample inputs *)

Lemma classifyIntent_failure_contained_witness :
  (exists text,
     response
       (snd (processMessage sample_Number_toString sample_String_toNumber
               sample_JSON_parse "classify" "recommend" None sample_handlers
               (sample_turn "hello" 1) ∅))
     = VStr text /\ text <> "")
  /\ exists s,
       fst (processMessage sample_Number_toString sample_String_toNumber
              sample_JSON_parse "classify" "recommend" None sample_handlers
              (sample_turn "hello" 1) ∅) !! "u" = Some s
       /\ lastIntent s = VStr "general_question".
Proof.
  refine (proj2 (proj2 (proj2 (proj2 (proj2
    (classifyIntent_failure_contained sample_Number_toString
       sample_String_toNumber sample_JSON_parse "classify" "recommend" None
       sample_handlers (sample_turn "hello" 1) ∅ I _)))))).
  intros message userState result [= <-]. simpl.
  eexists. split; [reflexivity | discriminate].
Defined.

Lemma processMessage_contains_exceptions_witness :
  snd (processMessage sample_Number_toString sample_String_toNumber
         sample_JSON_parse "classify" "recommend" None sample_handlers
         sample_null_turn ∅)
  = apology.
Proof.
  apply (proj1 (proj2
    (processMessage_contains_exceptions sample_Number_toString
       sample_String_toNumber sample_JSON_parse "classify" "recommend" None
       sample_handlers sample_null_turn ∅))).
  reflexivity.
Defined.



Lemma getProductRecommendations_returns_non_array_witness :
  getProductRecommendations sample_Number_toString
    sample_recommendations_parse "recommend"
    (fun _ => Content sample_recommendations_text) "what else?"
    (defaultState 0)
  = Returned (VStr "abc").
Proof.
  refine (proj1
    (getProductRecommendations_returns_non_array sample_Number_toString
       sample_recommendations_parse "recommend"
       (fun _ => Content sample_recommendations_text) "what else?"
       (defaultState 0) _ sample_recommendations_text
       (VObj [("recommendations", VStr "abc")]) (VStr "abc")
       eq_refl eq_refl eq_refl eq_refl eq_refl _)).
  intros items. discriminate.
Defined.

Lemma getProductRecommendations_window_and_fallback_witness :
  let userState := with_history sample_history (defaultState 0) in
  contextPrompt sample_Number_toString "what else?" userState
  = contextPrompt sample_Number_toString "what else?"
      (with_history (tail sample_history) userState).
Proof.
  intros userState.
  apply (proj1 (proj2 (proj2 (proj2 (proj2
    (getProductRecommendations_window_and_fallback sample_Number_toString
       sample_JSON_parse "recommend" (fun _ => Rejected) "what else?"
       userState)))))
    [user_entry "one" 1] (tail sample_history) eq_refl eq_refl).
Defined.

(** C9, as the claim words it, fails on the code.  A call loads the state
    of a user who has sent nothing yet and waits for its classification;
    meanwhile two more calls for the same user run to their end and the
    count is two, the stage information.  Then the first call resumes and
    stores the count it had loaded plus one: the count drops to one and the
    stage is greeting again, with three user entries in the history. *)
Lemma messageCount_decreases_when_calls_overlap :
  let w := exec sample_Number_toString sample_String_toNumber
             sample_JSON_parse "classify" "recommend" None sample_handlers
             initial sample_overlap in
  let w' := exec_event sample_Number_toString sample_String_toNumber
              sample_JSON_parse "classify" "recommend" None sample_handlers
              w (EvResume 0 6) in
  messageCount (view (world_states w) "u") = 2%Z
  /\ stage (view (world_states w) "u") = "information"
  /\ messageCount (view (world_states w') "u") = 1%Z
  /\ stage (view (world_states w') "u") = "greeting"
  /\ ~ (messageCount (view (world_states w) "u")
        <= messageCount (view (world_states w') "u"))%Z.
Proof. vm_compute. repeat split. intros H. apply H. reflexivity. Qed.



(** An intent label found on the prototype chain reaches the caller: for
    the label constructor the reply carries no response text at all, and
    for __proto__ the call of the looked-up value throws and the apology is
    returned. *)
Example processMessage_inherited_callee :
  let turn_with (label : string) :=
    {| turn_userId := "u"; turn_message := "hello"; turn_now := 1;
       classifier := fun _ => Content label;
       recommender := fun _ => Rejected |} in
  let parse (text : string) := Some (VObj [("intent", VStr text)]) in
  snd (processMessage sample_Number_toString sample_String_toNumber parse
         "classify" "recommend" None sample_handlers
         (turn_with "constructor") ∅)
  = {| response := VUndefined; actions := [] |}
  /\ snd (processMessage sample_Number_toString sample_String_toNumber parse
            "classify" "recommend" None sample_handlers
            (turn_with "__proto__") ∅)
     = apology.
Proof. split; reflexivity. Qed.

(** An intent that cannot be converted to a property key, an object with a
    toString field, ends the turn with the apology after the state update
    has run. *)
Example processMessage_unconvertible_intent :
  let t := {| turn_userId := "u"; turn_message := "hello"; turn_now := 1;
              classifier := fun _ => Content "classification";
              recommender := fun _ => Rejected |} in
  let parse (_ : string) :=
    Some (VObj [("intent", VObj [("toString", VNum (1 # 1))])]) in
  let result :=
    processMessage sample_Number_toString sample_String_toNumber parse
      "classify" "recommend" None sample_handlers t ∅ in
  snd result = apology
  /\ messageCount (view (fst result) "u") = 1%Z.
Proof. split; reflexivity. Qed.

(** * Further properties of the engine *)

(** ** More on the user state manager *)

Lemma updateUserState_lookup_ne (st : gmap string UserState) (u u' : string)
    (updates : Updates) (now : Z) :
  u <> u' -> fst (updateUserState st u updates now) !! u' = st !! u'.
Proof.
  intros Hne. rewrite <- (getUserState_lookup_ne st u u' now Hne).
  unfold updateUserState. destruct (getUserState st u now) as [st1 cur].
  simpl. apply lookup_insert_ne. exact Hne.
Qed.

Lemma addBotResponse_lookup_ne (st : gmap string UserState) (u u' : string)
    (reply : Value) (now : Z) :
  u <> u' -> fst (addBotResponse st u reply now) !! u' = st !! u'.
Proof.
  intros Hne. rewrite <- (getUserState_lookup_ne st u u' now Hne).
  unfold addBotResponse. destruct (getUserState st u now) as [st1 cur].
  simpl. apply lookup_insert_ne. exact Hne.
Qed.

Lemma getUserState_existing (st : gmap string UserState) (u : string) (now : Z)
    (s : UserState) :
  st !! u = Some s -> getUserState st u now = (st, s).
Proof. intros H. unfold getUserState. rewrite H. reflexivity. Qed.

Lemma updateUserState_kept_fields (st : gmap string UserState) (u : string)
    (updates : Updates) (now : Z) :
  let loaded := snd (getUserState st u now) in
  let s' := snd (updateUserState st u updates now) in
  createdAt s' = createdAt loaded
  /\ preferences s' = preferences loaded
  /\ lastMessage s' = VStr (upd_lastMessage updates)
  /\ updatedAt s' = Some now.
Proof.
  cbv zeta. unfold updateUserState.
  destruct (getUserState st u now) as [st1 cur]. simpl.
  destruct (negb (String.eqb (upd_lastMessage updates) "")
            && negb (existsb (is_user_message (upd_lastMessage updates))
                             (conversationHistory cur)));
    repeat split; reflexivity.
Qed.

Lemma addBotResponse_kept_fields (st : gmap string UserState) (u : string)
    (reply : Value) (now : Z) :
  let loaded := snd (getUserState st u now) in
  let s' := snd (addBotResponse st u reply now) in
  createdAt s' = createdAt loaded
  /\ preferences s' = preferences loaded
  /\ lastMessage s' = lastMessage loaded.
Proof.
  cbv zeta. unfold addBotResponse.
  destruct (getUserState st u now) as [st1 cur]. simpl.
  repeat split; reflexivity.
Qed.

Lemma core_preferences (s s' : UserState) :
  core s = core s' -> preferences s = preferences s'.
Proof. unfold core. congruence. Qed.

Lemma determineConversationStage_greeting (state : UserState) :
  determineConversationStage state = "greeting" <->
  (messageCount state <= 1)%Z.
Proof.
  unfold determineConversationStage.
  destruct (Z.leb_spec (messageCount state) 1) as [Hle | Hgt].
  - split; [intros _; exact Hle | reflexivity].
  - split; [| lia].
    destruct (strict_eq_str (lastIntent state) "checkout_help");
      [discriminate |].
    destruct (strict_eq_str (lastIntent state) "product_inquiry"
              || strict_eq_str (lastIntent state) "price_inquiry");
      [discriminate |].
    destruct (strict_eq_str (lastIntent state) "objection"); [discriminate |].
    destruct (5 <=? messageCount state)%Z; discriminate.
Qed.

Lemma assistant_entries_snoc (s s' : UserState) (e : HistoryEntry) :
  conversationHistory s' = (conversationHistory s ++ [e])%list ->
  assistant_entries s'
  = (assistant_entries s + (if decide (role e = "assistant") then 1 else 0))%Z.
Proof.
  intros Hh. unfold assistant_entries. rewrite Hh, filter_app, length_app.
  rewrite Nat2Z.inj_add. f_equal.
  rewrite filter_cons, filter_nil.
  destruct (decide (role e = "assistant")); reflexivity.
Qed.

(** The reply entries of the history are written by [addBotResponse]
    only. *)
Lemma evolves_assistant_entries (s s' : UserState) :
  evolves s s' ->
  assistant_entries s' = assistant_entries s
  \/ (assistant_entries s' = assistant_entries s + 1
      /\ messageCount s' = messageCount s)%Z.
Proof.
  intros [Hcore | intent text now _ _ Hh _ | reply now Hc _ _ Hh].
  - left. unfold assistant_entries. rewrite (core_history _ _ Hcore).
    reflexivity.
  - left. destruct (appends text (conversationHistory s)).
    + rewrite (assistant_entries_snoc s s' _ Hh). simpl. lia.
    + unfold assistant_entries. rewrite Hh. reflexivity.
  - right. rewrite (assistant_entries_snoc s s' _ Hh). simpl. lia.
Qed.

(** ** More on the recommendation generator *)

Section RecommendationFailure.

Context (Number_toString : Q -> string)
        (JSON_parse : string -> option Value)
        (recommendationPrompt : string).

Local Abbreviation contextPrompt := (contextPrompt Number_toString).
Local Abbreviation getProductRecommendations :=
  (getProductRecommendations Number_toString JSON_parse recommendationPrompt).
Local Abbreviation service_failed := (service_failed JSON_parse).

Lemma getProductRecommendations_failed
    (openai : list ChatMessage -> Completion) (message : string)
    (userState : UserState) :
  (forall prompt,
     contextPrompt message userState = Returned prompt ->
     service_failed
       (openai [ {| msg_role := "system"; msg_content := recommendationPrompt |};
                 {| msg_role := "user"; msg_content := prompt |} ])) ->
  getProductRecommendations openai message userState = Returned (VArr []).
Proof.
  unfold getProductRecommendations, service_failed. intros Hfail.
  destruct (contextPrompt message userState) as [prompt|]; [| reflexivity].
  specialize (Hfail prompt eq_refl). simpl.
  destruct (openai _) as [| | text]; simpl; try reflexivity.
  rewrite Hfail. reflexivity.
Qed.

End RecommendationFailure.

(** ** More on the conversation flow *)

Section MoreFlow.

Context (Number_toString : Q -> string)
        (String_toNumber : string -> option Q)
        (JSON_parse : string -> option Value)
        (intentPrompt recommendationPrompt : string)
        (OFFER_TIMING : option string)
        (handlers : HandlerModule -> string -> UserState -> Outcome HandlerResult).

Local Abbreviation in_engine f :=
  (f Number_toString String_toNumber JSON_parse intentPrompt
     recommendationPrompt OFFER_TIMING handlers).

Local Abbreviation classifyIntent := (classifyIntent JSON_parse intentPrompt).
Local Abbreviation turn_intent := (turn_intent JSON_parse intentPrompt).
Local Abbreviation service_failed := (service_failed JSON_parse).
Local Abbreviation getHandlerForIntent := (getHandlerForIntent Number_toString).
Local Abbreviation contextPrompt := (contextPrompt Number_toString).
Local Abbreviation getProductRecommendations :=
  (getProductRecommendations Number_toString JSON_parse recommendationPrompt).
Local Abbreviation with_recommendations :=
  (with_recommendations Number_toString String_toNumber).
Local Abbreviation length_positive :=
  (length_positive Number_toString String_toNumber).
Local Abbreviation invoke := (invoke handlers).
Local Abbreviation ToString := (ToString Number_toString).
Local Abbreviation ToNumber := (ToNumber Number_toString String_toNumber).
Local Abbreviation respond :=
  (respond Number_toString String_toNumber JSON_parse recommendationPrompt
     OFFER_TIMING handlers).
Local Abbreviation processMessage_try := (in_engine processMessage_try).
Local Abbreviation processMessage := (in_engine processMessage).
Local Abbreviation step := (in_engine step).
Local Abbreviation run := (in_engine run).
Local Abbreviation exec_event := (in_engine exec_event).
Local Abbreviation exec := (in_engine exec).
Local Abbreviation one_at_a_time := (in_engine one_at_a_time).

Lemma processMessage_view_eq (t : Turn) (st : gmap string UserState)
    (intent : Value) :
  turn_intent t = Returned intent ->
  view (fst (processMessage t st)) (turn_userId t)
  = snd (updateUserState
           (fst (getUserState st (turn_userId t) (turn_now t)))
           (turn_userId t)
           (turn_updates intent (turn_message t)
              (snd (getUserState st (turn_userId t) (turn_now t))))
           (turn_now t)).
Proof.
  intros Hi. unfold view.
  rewrite (in_engine processMessage_store). cbv zeta.
  rewrite Hi, updateUserState_lookup. reflexivity.
Qed.

Lemma step_lookup_ne (st : gmap string UserState) (o : Op) (userId : string) :
  op_user o <> userId -> step st o !! userId = st !! userId.
Proof.
  destruct o as [t | u reply now]; simpl; intros Hne.
  - rewrite (in_engine processMessage_store). cbv zeta.
    destruct (turn_intent t) as [intent|].
    + rewrite updateUserState_lookup_ne by exact Hne.
      apply getUserState_lookup_ne. exact Hne.
    + apply getUserState_lookup_ne. exact Hne.
  - apply addBotResponse_lookup_ne. exact Hne.
Qed.

Lemma run_count_mono (ops : list Op) (st : gmap string UserState)
    (userId : string) :
  (messageCount (view st userId) <= messageCount (view (run st ops) userId))%Z.
Proof.
  revert st. induction ops as [|o ops IH]; intros st; simpl.
  - lia.
  - pose proof (evolves_count _ _ (in_engine step_evolves st o userId)).
    specialize (IH (step st o)). lia.
Qed.

(** X1.  A call never touches the state of another user: after a
    processed message or an appended bot response of one user, the Map holds
    for every other identifier exactly what it held before, and creates
    nothing for it. *)
Theorem step_leaves_other_users
    (st : gmap string UserState) (o : Op) (userId : string)
    (Hother : op_user o <> userId) :
  step st o !! userId = st !! userId
  /\ forall later,
       Forall (fun o' => op_user o' <> userId) later ->
       run st (o :: later) !! userId = st !! userId.
Proof.
  split; [apply step_lookup_ne; exact Hother |].
  intros later Hlater.
  assert (Hrun : forall ops st0,
            Forall (fun o' => op_user o' <> userId) ops ->
            run st0 ops !! userId = st0 !! userId).
  { induction ops as [|o' ops IH]; intros st0 Hall; [reflexivity |].
    apply Forall_cons in Hall as [Ho' Hall].
    change (run st0 (o' :: ops)) with (run (step st0 o') ops).
    rewrite (IH _ Hall). apply step_lookup_ne. exact Ho'. }
  apply Hrun. constructor; assumption.
Qed.

(** X2.  A throw after the state update does not undo the turn: when the
    lookup of the handler, the handler itself or the length test on the
    recommendations throws, the caller gets the apology, but the state
    update has already run, so the message is counted, the classified intent
    and the message are stored, and a new message is in the history. *)
Theorem handler_failure_keeps_update
    (t : Turn) (st : gmap string UserState) (intent : Value)
    (Hintent : turn_intent t = Returned intent)
    (Hthrows : respond t intent
                 (snd (getUserState st (turn_userId t) (turn_now t)))
               = Thrown) :
  let before := view st (turn_userId t) in
  let after := view (fst (processMessage t st)) (turn_userId t) in
  snd (processMessage t st) = apology
  /\ messageCount after = (messageCount before + 1)%Z
  /\ lastIntent after = intent
  /\ lastMessage after = VStr (turn_message t)
  /\ updatedAt after = Some (turn_now t)
  /\ (turn_message t <> "" ->
      Forall (fun e => ~ user_said (turn_message t) e)
        (conversationHistory before) ->
      conversationHistory after
      = (conversationHistory before ++
         [user_entry (turn_message t) (turn_now t)])%list).
Proof.
  cbv zeta.
  destruct (in_engine processMessage_view_updated t st intent Hintent)
    as (Hc & Hl & Hh & _).
  split.
  { rewrite (in_engine processMessage_reply).
    assert (Hthrown : snd (processMessage_try t st) = Thrown).
    { apply (in_engine processMessage_try_thrown). right.
      exists intent. split; assumption. }
    rewrite Hthrown. reflexivity. }
  split; [exact Hc |]. split; [exact Hl |].
  rewrite (processMessage_view_eq t st intent Hintent) in *.
  destruct (updateUserState_kept_fields
              (fst (getUserState st (turn_userId t) (turn_now t)))
              (turn_userId t)
              (turn_updates intent (turn_message t)
                 (snd (getUserState st (turn_userId t) (turn_now t))))
              (turn_now t)) as (_ & _ & Hm & Hu).
  split; [exact Hm |]. split; [exact Hu |].
  intros Hne Hfresh. rewrite Hh.
  replace (appends (turn_message t)
             (conversationHistory (view st (turn_userId t)))) with true;
    [reflexivity |].
  symmetry. apply appends_true. split; assumption.
Qed.

(** X3.  The only classification that aborts a turn is a response whose
    text parses to [null] (or to nothing that can be destructured).  The
    caller then gets the apology and the message leaves no trace: the state
    is at most created, and its count, intent, stage and history are what
    they were. *)
Theorem null_classification_leaves_no_trace
    (t : Turn) (st : gmap string UserState) :
  (turn_intent t = Thrown <->
   exists text,
     classifier t
       [ {| msg_role := "system"; msg_content := intentPrompt |};
         {| msg_role := "user"; msg_content := turn_message t |} ]
     = Content text
     /\ (JSON_parse text = Some VNull \/ JSON_parse text = Some VUndefined))
  /\ (turn_intent t = Thrown ->
      snd (processMessage t st) = apology
      /\ fst (processMessage t st)
         = fst (getUserState st (turn_userId t) (turn_now t))
      /\ forall userId,
           core (view (fst (processMessage t st)) userId)
           = core (view st userId)).
Proof.
  split.
  - unfold turn_intent, classifyIntent.
    destruct (classifier t _) as [| | text]; simpl.
    + split; [discriminate | intros (text & [=] & _)].
    + split; [discriminate | intros (text & [=] & _)].
    + destruct (JSON_parse text) as [v|] eqn:Hparse; simpl.
      * split.
        -- intros Hthrown. exists text. split; [reflexivity |].
           destruct v; simpl in Hthrown; try discriminate; tauto.
        -- intros (text' & [= <-] & [H | H]); rewrite Hparse in H;
             injection H as ->; reflexivity.
      * split; [discriminate |].
        intros (text' & [= <-] & [H | H]); rewrite Hparse in H;
          discriminate.
  - intros Hthrown. split.
    { rewrite (in_engine processMessage_reply).
      assert (H : snd (processMessage_try t st) = Thrown)
        by (apply (in_engine processMessage_try_thrown); left; exact Hthrown).
      rewrite H. reflexivity. }
    split.
    { rewrite (in_engine processMessage_store). cbv zeta.
      rewrite Hthrown. reflexivity. }
    intros userId. apply (in_engine processMessage_view_other).
    right. exact Hthrown.
Qed.

Lemma getProductRecommendations_truthy
    (openai : list ChatMessage -> Completion) (message : string)
    (userState : UserState) (v : Value) :
  getProductRecommendations openai message userState = Returned v ->
  truthy v = true.
Proof.
  unfold getProductRecommendations.
  destruct (contextPrompt message userState) as [prompt|];
    simpl; [| intros [= <-]; reflexivity].
  destruct (openai _) as [| | text]; simpl; try (intros [= <-]; reflexivity).
  destruct (JSON_parse text) as [result|]; simpl;
    [| intros [= <-]; reflexivity].
  destruct (get_prop result "recommendations") as [field|]; simpl;
    [| intros [= <-]; reflexivity].
  unfold js_or. destruct (truthy field) eqn:Hfield; intros [= <-];
    [exact Hfield | reflexivity].
Qed.

Lemma ToNumber_thrown (v : Value) :
  ToNumber v = Thrown -> ToString v = Thrown.
Proof.
  destruct v as [| | b | q | s | items | fields]; try discriminate.
  - unfold ToNumber. destruct (ToString (VArr items)); [discriminate | reflexivity].
  - unfold ToNumber. destruct (ToString (VObj fields)); [discriminate | reflexivity].
Qed.

Lemma length_positive_thrown (v : Value) :
  length_positive v = Thrown ->
  exists fields w,
    v = VObj fields
    /\ own_field "length" fields = Some w
    /\ ToString w = Thrown.
Proof.
  destruct v as [| | b | q | s | items | fields]; try discriminate.
  simpl. destruct (own_field "length" fields) as [w|] eqn:Hlength;
    [| discriminate].
  intros H. exists fields, w. split; [reflexivity |]. split; [exact Hlength |].
  apply ToNumber_thrown.
  destruct (ToNumber w); [discriminate H | reflexivity].
Qed.

(** X4.  When the handler returns, the reply keeps the handler's response
    and actions: the recommendation step appends at most one action, of
    type product_recommendations, behind the handler's own, and only when
    the policy holds and the generator returned something of positive
    length.  A failed recommendation call adds nothing.  The one exception
    is a length that cannot be compared with zero, which only an object
    whose length field cannot be converted to text has: the test throws and
    the reply is the apology. *)
Theorem reply_extends_handler_actions
    (t : Turn) (st : gmap string UserState) (intent : Value)
    (handler : Callee) (result : HandlerResult)
    (Hintent : turn_intent t = Returned intent)
    (Hhandler : getHandlerForIntent intent = Returned handler)
    (Hresult : invoke handler (turn_message t)
                 (snd (getUserState st (turn_userId t) (turn_now t)))
               = Returned result) :
  let userState := snd (getUserState st (turn_userId t) (turn_now t)) in
  let own := default [] (result_actions result) in
  let reply := snd (processMessage t st) in
  let offered := shouldOfferRecommendations OFFER_TIMING intent userState in
  let with_action recommendations :=
    (own ++ [ VObj [("type", VStr "product_recommendations");
                    ("products", recommendations)] ])%list in
  (offered = false ->
   reply = {| response := result_response result; actions := own |})
  /\ (forall recommendations,
        offered = true ->
        getProductRecommendations (recommender t) (turn_message t) userState
        = Returned recommendations ->
        match length_positive recommendations with
        | Returned positive =>
            reply = {| response := result_response result;
                       actions := if positive
                                  then with_action recommendations
                                  else own |}
        | Thrown =>
            reply = apology
            /\ exists fields w,
                 recommendations = VObj fields
                 /\ own_field "length" fields = Some w
                 /\ ToString w = Thrown
        end)
  /\ (forall items,
        offered = true ->
        getProductRecommendations (recommender t) (turn_message t) userState
        = Returned (VArr items) ->
        reply = {| response := result_response result;
                   actions := if (0 <? length items)%nat
                              then with_action (VArr items)
                              else own |})
  /\ ((forall prompt,
         contextPrompt (turn_message t) userState
         = Returned prompt ->
         service_failed
           (recommender t
              [ {| msg_role := "system"; msg_content := recommendationPrompt |};
                {| msg_role := "user"; msg_content := prompt |} ])) ->
      reply = {| response := result_response result; actions := own |}).
Proof.
  cbv zeta.
  assert (Hreply : forall recs,
    getProductRecommendations (recommender t) (turn_message t)
      (snd (getUserState st (turn_userId t) (turn_now t))) = Returned recs ->
    snd (processMessage t st)
    = if shouldOfferRecommendations OFFER_TIMING intent
           (snd (getUserState st (turn_userId t) (turn_now t)))
      then
        match length_positive recs with
        | Returned positive =>
            {| response := result_response result;
               actions :=
                 if positive
                 then (default [] (result_actions result) ++
                       [ VObj [("type", VStr "product_recommendations");
                               ("products", recs)] ])%list
                 else default [] (result_actions result) |}
        | Thrown => apology
        end
      else {| response := result_response result;
              actions := default [] (result_actions result) |}).
  { intros recs Hrecs.
    rewrite (in_engine processMessage_responds t st intent Hintent).
    unfold respond. rewrite Hhandler. cbn [obind]. rewrite Hresult.
    cbn [obind]. rewrite Hrecs.
    destruct (shouldOfferRecommendations _ _ _); [| reflexivity].
    cbn [obind]. unfold with_recommendations.
    rewrite (getProductRecommendations_truthy _ _ _ _ Hrecs).
    destruct (length_positive recs) as [positive|]; reflexivity. }
  destruct (getProductRecommendations_returns Number_toString JSON_parse
              recommendationPrompt (recommender t) (turn_message t)
              (snd (getUserState st (turn_userId t) (turn_now t))))
    as (recs & Hrecs).
  split; [| split; [| split]].
  - intros Hoffer. rewrite (Hreply recs Hrecs), Hoffer. reflexivity.
  - intros recommendations Hoffer Hrecommendations.
    rewrite (Hreply _ Hrecommendations), Hoffer.
    destruct (length_positive recommendations) as [positive|] eqn:Hlength;
      [reflexivity |].
    split; [reflexivity | apply length_positive_thrown; exact Hlength].
  - intros items Hoffer Hitems.
    rewrite (Hreply _ Hitems), Hoffer. reflexivity.
  - intros Hfail.
    rewrite (Hreply _ (getProductRecommendations_failed Number_toString
                         JSON_parse recommendationPrompt _ _ _ Hfail)).
    destruct (shouldOfferRecommendations _ _ _); reflexivity.
Qed.

Lemma step_preferences (st : gmap string UserState) (o : Op) (userId : string) :
  preferences (view (step st o) userId) = preferences (view st userId).
Proof.
  destruct (decide (op_user o = userId)) as [Hu | Hne];
    [| unfold view; rewrite (step_lookup_ne st o userId Hne); reflexivity].
  destruct o as [t | u reply now]; simpl in *; subst userId.
  - destruct (turn_intent t) as [intent|] eqn:Hi.
    + rewrite (processMessage_view_eq t st intent Hi).
      destruct (updateUserState_kept_fields
                  (fst (getUserState st (turn_userId t) (turn_now t)))
                  (turn_userId t)
                  (turn_updates intent (turn_message t)
                     (snd (getUserState st (turn_userId t) (turn_now t))))
                  (turn_now t)) as (_ & Hp & _).
      rewrite Hp.
      rewrite (core_preferences _ _ (getUserState_core _ _ _)).
      apply core_preferences, getUserState_view.
    + apply core_preferences, (in_engine processMessage_view_other).
      right. exact Hi.
  - rewrite addBotResponse_view.
    destruct (addBotResponse_kept_fields st u reply now) as (_ & Hp & _).
    rewrite Hp. apply core_preferences, getUserState_core.
Qed.

Lemma step_createdAt (st : gmap string UserState) (o : Op) (userId : string)
    (s : UserState) :
  st !! userId = Some s ->
  exists s', step st o !! userId = Some s' /\ createdAt s' = createdAt s.
Proof.
  intros Hs.
  destruct (decide (op_user o = userId)) as [Hu | Hne];
    [| exists s; split; [rewrite (step_lookup_ne st o userId Hne); exact Hs
                        | reflexivity]].
  destruct o as [t | u reply now]; simpl in *; subst userId.
  - rewrite (in_engine processMessage_store). cbv zeta.
    rewrite (getUserState_existing st _ (turn_now t) s Hs). simpl.
    destruct (turn_intent t) as [intent|].
    + eexists. split; [apply updateUserState_lookup |].
      destruct (updateUserState_kept_fields st (turn_userId t)
                  (turn_updates intent (turn_message t) s) (turn_now t))
        as (Hc & _).
      rewrite Hc, (getUserState_existing st _ (turn_now t) s Hs).
      reflexivity.
    + exists s. split; [exact Hs | reflexivity].
  - eexists. split; [apply addBotResponse_lookup |].
    destruct (addBotResponse_kept_fields st u reply now) as (Hc & _).
    rewrite Hc, (getUserState_existing st _ now s Hs). reflexivity.
Qed.


(** X6.  The greeting stage belongs to the start of a conversation: in
    every state reached from the empty Map, whatever the calls in flight,
    the stage is greeting exactly while the stored count is at most one;
    and once two messages are counted no later event brings the stage back
    to greeting, as long as the calls of the user do not overlap. *)
Theorem greeting_stage_only_at_start
    (events later : list Event) (userId : string) :
  let s := view (world_states (exec initial events)) userId in
  (stage s = "greeting" <-> (messageCount s <= 1)%Z)
  /\ ((2 <= messageCount s)%Z ->
      one_at_a_time userId initial (events ++ later) ->
      stage (view (world_states (exec initial (events ++ later))) userId)
      <> "greeting").
Proof.
  cbv zeta.
  assert (Hstage : forall events0,
            stage (view (world_states (exec initial events0)) userId)
            = "greeting" <->
            (messageCount (view (world_states (exec initial events0)) userId)
             <= 1)%Z).
  { intros events0.
    assert (H0 : stage (view (world_states initial) userId)
                 = determineConversationStage
                     (view (world_states initial) userId))
      by reflexivity.
    rewrite (in_engine exec_stage events0 initial userId H0).
    apply determineConversationStage_greeting. }
  split; [apply Hstage |].
  intros Hcount Hcalls Hgreeting. apply Hstage in Hgreeting.
  apply (in_engine one_at_a_time_app) in Hcalls as (Hevents & Hlater).
  destruct (in_engine exec_evolves events initial userId
              (calm_initial userId) Hevents) as (Hcalm & _).
  destruct (in_engine exec_evolves later _ userId Hcalm Hlater)
    as (_ & Hmono & _).
  rewrite (in_engine exec_app) in Hgreeting. lia.
Qed.

(** X7.  The policy has no cool-down: once the count of a user has reached
    the timing threshold, and as long as the calls of the user do not
    overlap, the state loaded by every later call of that user makes the
    policy hold, whatever the intent, so the recommendation generator is
    called on every such turn. *)
Theorem recommendations_offered_from_threshold_on
    (events later : list Event) (userId : string) (now : Z) (intent : Value)
    (Hreached :
       (effective_threshold OFFER_TIMING
        <= messageCount (view (world_states (exec initial events)) userId))%Z)
    (Hcalls : one_at_a_time userId initial (events ++ later)) :
  shouldOfferRecommendations OFFER_TIMING intent
    (snd (getUserState (world_states (exec initial (events ++ later)))
            userId now))
  = true.
Proof.
  apply shouldOfferRecommendations_true_iff. right.
  apply (in_engine one_at_a_time_app) in Hcalls as (Hevents & Hlater).
  destruct (in_engine exec_evolves events initial userId
              (calm_initial userId) Hevents) as (Hcalm & _).
  destruct (in_engine exec_evolves later _ userId Hcalm Hlater)
    as (_ & Hmono & _).
  rewrite (core_count _ _ (getUserState_core _ _ _)), (in_engine exec_app).
  lia.
Qed.

Lemma ToString_plain_object (fields : list (string * Value)) :
  ToString (VObj fields)
  = match own_field "toString" fields with
    | Some _ => Thrown
    | None => Returned "[object Object]"
    end.
Proof. reflexivity. Qed.

(** X8.  A classification without a usable label.  When the parsed object
    has no intent field the destructuring binds [undefined]; for an intent
    that is [undefined], [null], a boolean or an object without a toString
    field the general question handler is resolved; for an object with a
    toString field the lookup throws, which ends the turn with the
    apology; an array of one label resolves as the label itself.  For every
    intent that is not a text the policy decides by the count alone, and the
    stage is greeting, information or engagement by the count alone. *)
Theorem intent_without_label_is_general_question
    (intent : Value) (state : UserState) (timing : option string) :
  (intent = VUndefined \/ intent = VNull \/ (exists b, intent = VBool b)
   \/ (exists fields,
         intent = VObj fields /\ own_field "toString" fields = None) ->
   getHandlerForIntent intent = Returned (Handler general_question_handler))
  /\ (forall fields,
        intent = VObj fields -> own_field "toString" fields <> None ->
        getHandlerForIntent intent = Thrown)
  /\ (forall label,
        intent = VArr [VStr label] ->
        getHandlerForIntent intent = getHandlerForIntent (VStr label))
  /\ ((forall label, intent <> VStr label) ->
      (shouldOfferRecommendations timing intent state = true <->
       (effective_threshold timing <= messageCount state)%Z)
      /\ determineConversationStage (with_lastIntent intent state)
         = (if (messageCount state <=? 1)%Z then "greeting"
            else if (5 <=? messageCount state)%Z then "engagement"
            else "information"))
  /\ (forall fields, own_field "intent" fields = None ->
      get_prop (VObj fields) "intent" = Some VUndefined).
Proof.
  split.
  { intros [-> | [-> | [([|] & ->) | (fields & -> & Hnone)]]];
      try reflexivity.
    unfold getHandlerForIntent. rewrite ToString_plain_object, Hnone.
    reflexivity. }
  split.
  { intros fields -> Hown. unfold getHandlerForIntent.
    rewrite ToString_plain_object.
    destruct (own_field "toString" fields); [reflexivity | contradiction]. }
  split.
  { intros label ->. reflexivity. }
  split.
  { intros Hnot_text.
    assert (Hnot : forall lit, strict_eq_str intent lit = false).
    { intros lit. apply strict_eq_str_false, Hnot_text. }
    split.
    - rewrite shouldOfferRecommendations_true_iff.
      split; [| intros H; right; exact H].
      intros [-> | H]; [| exact H].
      exfalso. exact (Hnot_text _ eq_refl).
    - unfold determineConversationStage. simpl. rewrite !Hnot. reflexivity. }
  intros fields Hnone. simpl. rewrite Hnone. reflexivity.
Qed.

(** X9.  The confidence of a classification plays no part: two turns of
    the same user with the same message, clock and recommendation service,
    whose classifications bind the same intent, leave the same Map and give
    the same reply, whatever else the classifications carry. *)
Theorem processMessage_ignores_confidence
    (t t' : Turn) (st : gmap string UserState)
    (Huser : turn_userId t = turn_userId t')
    (Hmessage : turn_message t = turn_message t')
    (Hnow : turn_now t = turn_now t')
    (Hrecommender : recommender t = recommender t')
    (Hintent : turn_intent t = turn_intent t') :
  processMessage t st = processMessage t' st.
Proof.
  unfold processMessage.
  rewrite !(in_engine processMessage_try_unfold). cbv zeta.
  unfold respond.
  rewrite Huser, Hmessage, Hnow, Hrecommender, Hintent. reflexivity.
Qed.

(** ** The message route of the controller *)

Local Abbreviation postMessage_try := (in_engine postMessage_try).
Local Abbreviation postMessage := (in_engine postMessage).
Local Abbreviation serve := (in_engine serve).

Lemma postMessage_rejected (req : MessageRequest) (st : gmap string UserState) :
  accepted req = false ->
  postMessage req st = (st, Status400 "Message is required").
Proof.
  unfold accepted, postMessage, postMessage_try.
  destruct (req_message req) as [message|]; [| reflexivity].
  simpl. intros ->. reflexivity.
Qed.

Lemma postMessage_accepted (req : MessageRequest) (st : gmap string UserState)
    (message : string) :
  req_message req = Some message -> message <> "" ->
  postMessage req st
  = (fst (addBotResponse
            (fst (processMessage (request_turn req message) st))
            (req_conversationId req)
            (response (snd (processMessage (request_turn req message) st)))
            (req_reply_now req)),
     Json (snd (processMessage (request_turn req message) st))).
Proof.
  intros Hm Hne. unfold postMessage, postMessage_try, request_turn.
  rewrite Hm. simpl.
  apply String.eqb_neq in Hne. rewrite Hne. simpl.
  unfold ebind, lift_state, eret.
  destruct (processMessage _ st) as [st1 [resp acts]]. simpl.
  destruct (addBotResponse st1 _ resp _) as [st2 s2]. reflexivity.
Qed.

Lemma accepted_message (req : MessageRequest) :
  accepted req = true ->
  exists message, req_message req = Some message /\ message <> "".
Proof.
  unfold accepted. destruct (req_message req) as [message|]; [| discriminate].
  rewrite negb_true_iff, String.eqb_neq. eauto.
Qed.

(** X10.  For a request whose body is an object and whose message is
    missing or a string: the message route answers 400 for a missing or
    empty message and leaves the Map as it was, so that not even the default
    state of the conversation is created.  Every other such request is
    answered with the reply of [processMessage]; the 500 branch of the route
    is never taken. *)
Theorem postMessage_status (req : MessageRequest) (st : gmap string UserState) :
  (req_message req = None \/ req_message req = Some "" ->
   postMessage req st = (st, Status400 "Message is required"))
  /\ (forall message,
        req_message req = Some message -> message <> "" ->
        snd (postMessage req st)
        = Json (snd (processMessage (request_turn req message) st)))
  /\ (forall error, snd (postMessage req st) <> Status500 error).
Proof.
  split; [| split].
  - intros Hmissing. apply postMessage_rejected. unfold accepted.
    destruct Hmissing as [-> | ->]; reflexivity.
  - intros message Hm Hne. rewrite (postMessage_accepted req st message Hm Hne).
    reflexivity.
  - intros error. destruct (accepted req) eqn:Hacc.
    + destruct (accepted_message req Hacc) as (message & Hm & Hne).
      rewrite (postMessage_accepted req st message Hm Hne). discriminate.
    + rewrite (postMessage_rejected req st Hacc). discriminate.
Qed.

Lemma processMessage_assistant_entries (t : Turn) (st : gmap string UserState) :
  let s := view st (turn_userId t) in
  let s' := view (fst (processMessage t st)) (turn_userId t) in
  assistant_entries s' = assistant_entries s
  /\ (messageCount s <= messageCount s' <= messageCount s + 1)%Z.
Proof.
  cbv zeta. destruct (turn_intent t) as [intent|] eqn:Hi.
  - destruct (in_engine processMessage_view_updated t st intent Hi)
      as (Hc & _ & Hh & _).
    split; [| lia].
    destruct (appends (turn_message t)
                (conversationHistory (view st (turn_userId t)))).
    + rewrite (assistant_entries_snoc _ _ _ Hh). simpl. lia.
    + unfold assistant_entries. rewrite Hh. reflexivity.
  - pose proof (in_engine processMessage_view_other t st (turn_userId t)
                  (or_intror Hi)) as Hcore.
    unfold assistant_entries.
    rewrite (core_history _ _ Hcore), (core_count _ _ Hcore). lia.
Qed.

Lemma postMessage_accepted_counts
    (req : MessageRequest) (st : gmap string UserState) (message : string) :
  req_message req = Some message -> message <> "" ->
  let conversationId := req_conversationId req in
  let processed := processMessage (request_turn req message) st in
  let after := view (fst (postMessage req st)) conversationId in
  messageCount after = messageCount (view (fst processed) conversationId)
  /\ assistant_entries after
     = (assistant_entries (view st conversationId) + 1)%Z.
Proof.
  intros Hmessage Hnonempty.
  cbv zeta. rewrite (postMessage_accepted req st message Hmessage Hnonempty).
  simpl fst. rewrite addBotResponse_view.
  destruct (addBotResponse_fields
              (fst (processMessage (request_turn req message) st))
              (req_conversationId req)
              (response (snd (processMessage (request_turn req message) st)))
              (req_reply_now req)) as (Hh & Hc & _ & _).
  split; [exact Hc |].
  rewrite (assistant_entries_snoc _ _ _ Hh). simpl.
  destruct (processMessage_assistant_entries (request_turn req message) st)
    as (Ha & _).
  simpl in Ha. rewrite Ha. reflexivity.
Qed.

(** X11.  An accepted message is answered and recorded: the reply of
    [processMessage], the apology included, becomes the last entry of the
    conversation history, as an assistant entry stamped with the time of
    the append; the append changes neither the count nor the stage, and
    the request adds exactly one assistant entry. *)
Theorem postMessage_records_reply
    (req : MessageRequest) (st : gmap string UserState) (message : string)
    (Hmessage : req_message req = Some message) (Hnonempty : message <> "") :
  let conversationId := req_conversationId req in
  let processed := processMessage (request_turn req message) st in
  let after := view (fst (postMessage req st)) conversationId in
  conversationHistory after
  = (conversationHistory (view (fst processed) conversationId) ++
     [ {| role := "assistant";
          content := response (snd processed);
          timestamp := req_reply_now req |} ])%list
  /\ messageCount after = messageCount (view (fst processed) conversationId)
  /\ stage after = stage (view (fst processed) conversationId)
  /\ assistant_entries after
     = (assistant_entries (view st conversationId) + 1)%Z.
Proof.
  cbv zeta.
  destruct (postMessage_accepted_counts req st message Hmessage Hnonempty)
    as (Hcount & Hassistant).
  cbv zeta in Hcount, Hassistant.
  split; [| split; [exact Hcount | split; [| exact Hassistant]]].
  - rewrite (postMessage_accepted req st message Hmessage Hnonempty).
    simpl fst. rewrite addBotResponse_view.
    apply (addBotResponse_fields
             (fst (processMessage (request_turn req message) st))
             (req_conversationId req)
             (response (snd (processMessage (request_turn req message) st)))
             (req_reply_now req)).
  - rewrite (postMessage_accepted req st message Hmessage Hnonempty).
    simpl fst. rewrite addBotResponse_view.
    apply (addBotResponse_fields
             (fst (processMessage (request_turn req message) st))
             (req_conversationId req)
             (response (snd (processMessage (request_turn req message) st)))
             (req_reply_now req)).
Qed.

Lemma postMessage_effect (req : MessageRequest) (st : gmap string UserState)
    (userId : string) :
  let s := view st userId in
  let s' := view (fst (postMessage req st)) userId in
  let counted :=
    if accepted req && String.eqb (req_conversationId req) userId
    then 1%Z else 0%Z in
  assistant_entries s' = (assistant_entries s + counted)%Z
  /\ (messageCount s <= messageCount s' <= messageCount s + counted)%Z
  /\ (messageCount s - user_entries s
      <= messageCount s' - user_entries s')%Z.
Proof.
  cbv zeta. destruct (accepted req) eqn:Hacc; simpl.
  - destruct (accepted_message req Hacc) as (message & Hm & Hne).
    pose proof (postMessage_accepted_counts req st message Hm Hne) as Hrec.
    cbv zeta in Hrec.
    rewrite (postMessage_accepted req st message Hm Hne) in *. simpl fst in *.
    assert (Hdef : (messageCount (view st userId) - user_entries (view st userId)
                    <= messageCount
                         (view (fst (addBotResponse
                                  (fst (processMessage (request_turn req message) st))
                                  (req_conversationId req)
                                  (response (snd (processMessage
                                                    (request_turn req message) st)))
                                  (req_reply_now req))) userId)
                       - user_entries
                           (view (fst (addBotResponse
                                    (fst (processMessage (request_turn req message) st))
                                    (req_conversationId req)
                                    (response (snd (processMessage
                                                      (request_turn req message) st)))
                                    (req_reply_now req))) userId))%Z).
    { exact (in_engine run_deficit
               [ OpMessage (request_turn req message);
                 OpBotResponse (req_conversationId req)
                   (response (snd (processMessage (request_turn req message) st)))
                   (req_reply_now req) ] st userId). }
    destruct (String.eqb_spec (req_conversationId req) userId) as [<- | Hother].
    + destruct Hrec as (Hc & Ha).
      destruct (processMessage_assistant_entries (request_turn req message) st)
        as (_ & Hcount).
      simpl in Hcount. split; [exact Ha |]. split; [| exact Hdef].
      rewrite Hc. lia.
    + assert (Hsame : view (fst (addBotResponse
                              (fst (processMessage (request_turn req message) st))
                              (req_conversationId req)
                              (response (snd (processMessage
                                                (request_turn req message) st)))
                              (req_reply_now req))) userId
                      = view st userId).
      { unfold view.
        rewrite addBotResponse_lookup_ne by exact Hother.
        pose proof (step_lookup_ne st (OpMessage (request_turn req message))
                      userId Hother) as Hstep.
        simpl in Hstep. rewrite Hstep. reflexivity. }
      rewrite Hsame. lia.
  - rewrite (postMessage_rejected req st Hacc). simpl. lia.
Qed.

Lemma postMessage_run (req : MessageRequest) (st : gmap string UserState) :
  fst (postMessage req st) = run st (in_engine request_ops req st).
Proof.
  destruct (accepted req) eqn:Hacc.
  - destruct (accepted_message req Hacc) as (message & Hm & Hne).
    rewrite (postMessage_accepted req st message Hm Hne).
    unfold request_ops. rewrite Hm. simpl.
    apply String.eqb_neq in Hne. rewrite Hne. reflexivity.
  - rewrite (postMessage_rejected req st Hacc). unfold request_ops.
    unfold accepted in Hacc.
    destruct (req_message req) as [message|]; [| reflexivity].
    simpl. apply negb_false_iff in Hacc. rewrite Hacc. reflexivity.
Qed.

(** Requests that are answered before the next one arrives are a history
    of calls taken one at a time. *)
Lemma serve_run (reqs : list MessageRequest) (st : gmap string UserState) :
  serve st reqs = run st (in_engine serve_ops st reqs).
Proof.
  revert st. induction reqs as [|req reqs IH]; intros st; [reflexivity |].
  change (serve st (req :: reqs)) with (serve (fst (postMessage req st)) reqs).
  change (in_engine serve_ops st (req :: reqs))
    with (in_engine request_ops req st
          ++ in_engine serve_ops (fst (postMessage req st)) reqs)%list.
  rewrite (in_engine run_app), <- postMessage_run. apply IH.
Qed.

(** X12.  When every request is answered before the next one arrives, so
    that the calls of the route are taken one at a time, the three counts
    of a conversation stay in order: the user entries of the history never
    exceed the message count, the message count never exceeds the assistant
    entries, and the assistant entries are exactly the accepted requests of
    the conversation, since every accepted request stores one reply even
    when the turn itself failed. *)
Theorem served_conversation_counts
    (reqs : list MessageRequest) (conversationId : string) :
  let s := view (serve ∅ reqs) conversationId in
  exec initial (one_by_one (in_engine serve_ops ∅ reqs))
  = {| world_states := serve ∅ reqs; world_pending := [] |}
  /\ one_at_a_time conversationId initial
       (one_by_one (in_engine serve_ops ∅ reqs))
  /\ (user_entries s <= messageCount s)%Z
  /\ (messageCount s <= assistant_entries s)%Z
  /\ assistant_entries s = Z.of_nat (accepted_from conversationId reqs).
Proof.
  cbv zeta.
  split; [unfold initial; rewrite (in_engine exec_one_by_one), serve_run;
          reflexivity |].
  split; [apply (in_engine one_at_a_time_one_by_one) |].
  assert (Hgen : forall reqs0 st,
    let s := view st conversationId in
    let s' := view (serve st reqs0) conversationId in
    assistant_entries s'
    = (assistant_entries s + Z.of_nat (accepted_from conversationId reqs0))%Z
    /\ (messageCount s' - messageCount s
        <= Z.of_nat (accepted_from conversationId reqs0))%Z
    /\ (messageCount s - user_entries s
        <= messageCount s' - user_entries s')%Z).
  { induction reqs0 as [|req reqs0 IH]; intros st; cbv zeta.
    - simpl. lia.
    - change (serve st (req :: reqs0))
        with (serve (fst (postMessage req st)) reqs0).
      specialize (IH (fst (postMessage req st))). cbv zeta in IH.
      destruct IH as (Ha & Hc & Hd).
      destruct (postMessage_effect req st conversationId) as (Ha1 & Hc1 & Hd1).
      cbn [accepted_from]. rewrite Nat2Z.inj_add.
      destruct (accepted req && String.eqb (req_conversationId req) conversationId);
        simpl Z.of_nat; lia. }
  destruct (Hgen reqs ∅) as (Ha & Hc & Hd).
  change (view ∅ conversationId) with (defaultState 0) in *.
  unfold assistant_entries at 2 in Ha. unfold user_entries at 1 in Hd.
  simpl in Ha, Hc, Hd. lia.
Qed.

End MoreFlow.

(** * Properties of the prompt generation *)

Lemma string_length_append (a b : string) :
  String.length (a ++ b) = (String.length a + String.length b)%nat.
Proof. induction a as [|c a IH]; simpl; [reflexivity | rewrite IH; reflexivity]. Qed.

Lemma string_app_inv_head (a b c : string) : a ++ b = a ++ c -> b = c.
Proof.
  induction a as [|x a IH]; simpl; intros H; [exact H |].
  injection H as H. apply IH, H.
Qed.

Lemma string_app_inv_tail (a b c : string) : a ++ c = b ++ c -> a = b.
Proof.
  revert b. induction a as [|x a IH]; intros [|y b] H; simpl in H.
  - reflexivity.
  - apply (f_equal String.length) in H.
    rewrite ?string_length_append in H. simpl in H.
    rewrite ?string_length_append in H. lia.
  - apply (f_equal String.length) in H.
    rewrite ?string_length_append in H. simpl in H.
    rewrite ?string_length_append in H. lia.
  - injection H as -> H. f_equal. apply IH, H.
Qed.

Lemma text_or_effective_level (a b c : string) (n : Z) :
  text_or (at_index [a; b; c] (effective_level n)) b
  = text_or (at_index [a; b; c] n) b.
Proof.
  unfold effective_level, at_index.
  destruct (Z.leb_spec 0 n) as [Hlo | Hlo]; simpl.
  - destruct (Z.leb_spec n 2) as [Hhi | Hhi]; simpl; [reflexivity |].
    destruct (Z.ltb_spec n 0) as [Hneg | _]; [lia |].
    destruct (Z.to_nat n) as [|[|[|k]]] eqn:E; try lia.
    simpl. destruct k; simpl; destruct (String.eqb b ""); reflexivity.
  - destruct (Z.ltb_spec n 0) as [_ | Hpos]; [| lia].
    simpl. destruct (String.eqb b ""); reflexivity.
Qed.

Lemma effective_level_range (n : Z) : In (effective_level n) [0%Z; 1%Z; 2%Z].
Proof.
  unfold effective_level.
  destruct (Z.leb_spec 0 n); destruct (Z.leb_spec n 2); simpl; try tauto.
  assert (n = 0 \/ n = 1 \/ n = 2)%Z as [-> | [-> | ->]] by lia; tauto.
Qed.

Section MorePrompts.

Context (inherited_text : PrototypeMember -> string)
        (can_write : string -> bool).

Local Abbreviation generateBaseSystemPrompt :=
  (generateBaseSystemPrompt inherited_text).
Local Abbreviation writeFile := (writeFile can_write).
Local Abbreviation generateDefaultPromptTemplates :=
  (generateDefaultPromptTemplates can_write).
Local Abbreviation generatePromptTemplates :=
  (generatePromptTemplates inherited_text can_write).

(** X13.  The three sliders are read with a fallback: a length, technical
    or persuasiveness level other than 0, 1 or 2 gives the same system
    prompt as level 1, and the recommendation prompt resolves the
    persuasiveness level in the same way, so the two prompts always speak
    of the same level. *)
Theorem prompts_read_levels_with_fallback (botConfig : BotConfig) :
  generateBaseSystemPrompt (with_effective_levels botConfig)
  = generateBaseSystemPrompt botConfig
  /\ generateProductRecommendationPrompt (with_effective_levels botConfig)
     = generateProductRecommendationPrompt botConfig
  /\ In (responseLength (with_effective_levels botConfig)) [0; 1; 2]%Z
  /\ In (technicalLevel (with_effective_levels botConfig)) [0; 1; 2]%Z
  /\ In (persuasiveLevel (with_effective_levels botConfig)) [0; 1; 2]%Z.
Proof.
  split; [| split].
  - unfold generateBaseSystemPrompt. simpl.
    rewrite !text_or_effective_level. reflexivity.
  - unfold generateProductRecommendationPrompt. simpl.
    rewrite text_or_effective_level. reflexivity.
  - repeat split; apply effective_level_range.
Qed.

(** X14.  A personality that is neither one of the four traits nor a name
    found on the prototype chain becomes the friendly persona in the system
    prompt, while the welcome prompt still asks for the raw value as its
    tone: the two prompts then describe different personalities. *)
Theorem unknown_personality_is_friendly_in_system_prompt_only
    (botConfig : BotConfig)
    (Hown : personalityTraits (personality botConfig) = None)
    (Hinherited : Object_prototype (personality botConfig) = None) :
  generateBaseSystemPrompt botConfig
  = generateBaseSystemPrompt (with_personality "friendly" botConfig)
  /\ generateWelcomePrompt botConfig
     <> generateWelcomePrompt (with_personality "friendly" botConfig).
Proof.
  split.
  - unfold generateBaseSystemPrompt. simpl. rewrite Hown, Hinherited.
    reflexivity.
  - unfold generateWelcomePrompt, lines. simpl. intros H.
    apply (string_app_inv_head "Greet the customer in a ") in H.
    apply string_app_inv_tail in H.
    rewrite H in Hown. discriminate Hown.
Qed.

(** X15.  An offer timing other than the three offered ones is worded as
    the balanced one in the system prompt, which is not the wording of the
    late one, while the recommendation policy handles the same value as it
    handles the late one. *)
Theorem unknown_offer_timing_is_balanced_in_prompt_and_late_in_policy
    (botConfig : BotConfig) (mode : string) (intent : Value)
    (userState : UserState)
    (Hearly : mode <> "early") (Hbalanced : mode <> "balanced")
    (Hlate : mode <> "late") (Hempty : mode <> "") :
  generateBaseSystemPrompt (with_offerTiming mode botConfig)
  = generateBaseSystemPrompt (with_offerTiming "balanced" botConfig)
  /\ generateBaseSystemPrompt (with_offerTiming "balanced" botConfig)
     <> generateBaseSystemPrompt (with_offerTiming "late" botConfig)
  /\ shouldOfferRecommendations (Some mode) intent userState
     = shouldOfferRecommendations (Some "late") intent userState.
Proof.
  apply String.eqb_neq in Hearly, Hbalanced, Hlate, Hempty.
  split; [| split].
  - unfold generateBaseSystemPrompt. simpl. rewrite Hearly, Hlate.
    reflexivity.
  - intros H. apply (f_equal String.length) in H.
    unfold generateBaseSystemPrompt, lines in H. simpl in H.
    rewrite ?string_length_append in H. simpl in H.
    rewrite ?string_length_append in H. simpl in H. lia.
  - unfold shouldOfferRecommendations, env_or. simpl.
    rewrite Hempty, Hearly, Hbalanced. reflexivity.
Qed.

End MorePrompts.

Section PromptFiles.

Context (inherited_text : PrototypeMember -> string)
        (can_write : string -> bool).

Local Abbreviation generateBaseSystemPrompt :=
  (generateBaseSystemPrompt inherited_text).
Local Abbreviation writeFile := (writeFile can_write).
Local Abbreviation writeEach := (writeEach can_write).
Local Abbreviation generateDefaultPromptTemplates :=
  (generateDefaultPromptTemplates can_write).
Local Abbreviation generatePromptTemplates :=
  (generatePromptTemplates inherited_text can_write).

Lemma writeEach_all_written (file_of : string -> string)
    (entries : list (string * string)) (files : gmap string string) :
  Forall (fun entry => can_write (file_of (fst entry)) = true) entries ->
  writeEach file_of entries files
  = (written file_of entries files, Returned tt).
Proof.
  intros Hall. revert files.
  induction Hall as [| [entry_name text] rest Hhead _ IH]; intros files.
  - reflexivity.
  - simpl in Hhead. simpl. unfold writeFile. rewrite Hhead. apply IH.
Qed.

Lemma written_app (file_of : string -> string)
    (before after : list (string * string)) (files : gmap string string) :
  written file_of (before ++ after)%list files
  = written file_of after (written file_of before files).
Proof. unfold written. apply foldl_app. Qed.

Lemma writeEach_first_failure (file_of : string -> string)
    (before after : list (string * string)) (entry_name text : string)
    (files : gmap string string) :
  Forall (fun entry => can_write (file_of (fst entry)) = true) before ->
  can_write (file_of entry_name) = false ->
  writeEach file_of (before ++ (entry_name, text) :: after)%list files
  = (written file_of before files, Thrown).
Proof.
  intros Hbefore Hfails. revert files.
  induction Hbefore as [| [first_name first_text] rest Hhead _ IH];
    intros files.
  - simpl. unfold writeFile. rewrite Hfails. reflexivity.
  - simpl in Hhead. simpl. unfold writeFile. rewrite Hhead. apply IH.
Qed.

Lemma written_lookup_other (file_of : string -> string)
    (entries : list (string * string)) (files : gmap string string)
    (file : string) :
  Forall (fun entry => file_of (fst entry) <> file) entries ->
  written file_of entries files !! file = files !! file.
Proof.
  intros Hall. revert files.
  induction Hall as [| [entry_name text] rest Hhead _ IH]; intros files.
  - reflexivity.
  - simpl in Hhead. unfold written. simpl.
    change (written file_of rest (<[file_of entry_name := text]> files) !! file
            = files !! file).
    rewrite IH. apply lookup_insert_ne, Hhead.
Qed.

(** X16.  When every prompt file can be written, generation succeeds and
    writes the same six files whether or not the project has a conversation
    flow, leaving every other file as it was.  With a flow the six files hold
    the prompts generated from the bot configuration (the default one when
    the flow has none) and the JSON intent prompt; without one they hold the
    default templates. *)
Theorem generatePromptTemplates_writes_six_files (project : Project)
    (files : gmap string string)
    (Hwritable : forall file, In file prompt_files -> can_write file = true) :
  exists files',
    generatePromptTemplates project files = (files', Returned tt)
    /\ dom files' = list_to_set prompt_files ∪ dom files
    /\ (forall file, ~ In file prompt_files -> files' !! file = files !! file)
    /\ match flow_botConfig project with
       | Some botConfig =>
           files' !! "base_system_prompt.txt"
           = Some (generateBaseSystemPrompt botConfig)
           /\ files' !! "welcome_prompt.txt"
              = Some (generateWelcomePrompt botConfig)
           /\ files' !! "product_recommendation_prompt.txt"
              = Some (generateProductRecommendationPrompt botConfig)
           /\ files' !! "objection_handling_prompt.txt"
              = Some (generateObjectionHandlingPrompt botConfig)
           /\ files' !! "checkout_prompt.txt"
              = Some (generateCheckoutPrompt botConfig)
           /\ files' !! "intent_classification_prompt.txt"
              = Some generateIntentClassificationPrompt
       | None =>
           forall entry_name text,
             In (entry_name, text) defaultPrompts ->
             files' !! (entry_name ++ ".txt") = Some text
       end.
Proof.
  assert (can_write "base_system_prompt.txt" = true) as Hbase
    by (apply Hwritable; simpl; tauto).
  assert (can_write "welcome_prompt.txt" = true) as Hwelcome
    by (apply Hwritable; simpl; tauto).
  assert (can_write "product_recommendation_prompt.txt" = true) as Hproduct
    by (apply Hwritable; simpl; tauto).
  assert (can_write "objection_handling_prompt.txt" = true) as Hobjection
    by (apply Hwritable; simpl; tauto).
  assert (can_write "checkout_prompt.txt" = true) as Hcheckout
    by (apply Hwritable; simpl; tauto).
  assert (can_write "intent_classification_prompt.txt" = true) as Hintent
    by (apply Hwritable; simpl; tauto).
  destruct (flow_botConfig project) as [botConfig |] eqn:Hflow.
  - assert (generatePromptTemplates project files
            = (<["intent_classification_prompt.txt" :=
                   generateIntentClassificationPrompt]>
                 (written (fun entry_name => entry_name ++ "_prompt.txt")
                    [ ("welcome", generateWelcomePrompt botConfig);
                      ("product_recommendation",
                       generateProductRecommendationPrompt botConfig);
                      ("objection_handling",
                       generateObjectionHandlingPrompt botConfig);
                      ("checkout", generateCheckoutPrompt botConfig) ]
                    (<["base_system_prompt.txt" :=
                         generateBaseSystemPrompt botConfig]> files)),
               Returned tt)) as Hrun.
    { unfold flow_botConfig in Hflow. unfold generatePromptTemplates.
      destruct (proj_conversation project) as [conversation |];
        [| discriminate Hflow].
      destruct (conv_nodes conversation) as [nodes |]; [| discriminate Hflow].
      injection Hflow as <-.
      cbv zeta. unfold writeFile at 1. rewrite Hbase.
      rewrite writeEach_all_written
        by (repeat constructor; cbn [fst String.append]; assumption).
      unfold writeFile. rewrite Hintent. reflexivity. }
    eexists. split; [exact Hrun |].
    unfold written. cbn [foldl fst snd String.append].
    split; [| split].
    + rewrite !dom_insert_L. unfold prompt_files. simpl.
      apply set_eq. intros file.
      rewrite !elem_of_union, !elem_of_singleton, elem_of_empty. tauto.
    + intros file Hnot. unfold prompt_files in Hnot. simpl in Hnot.
      rewrite !lookup_insert_ne by (intros <-; apply Hnot; tauto).
      reflexivity.
    + repeat split;
        (rewrite ?lookup_insert_ne by discriminate; apply lookup_insert_eq).
  - assert (generatePromptTemplates project files
            = (written (fun entry_name => entry_name ++ ".txt") defaultPrompts
                 files, Returned tt)) as Hrun.
    { assert (generatePromptTemplates project files
              = generateDefaultPromptTemplates files) as ->.
      { unfold flow_botConfig in Hflow. unfold generatePromptTemplates.
        destruct (proj_conversation project) as [conversation |];
          [| reflexivity].
        destruct (conv_nodes conversation) as [nodes |];
          [discriminate Hflow | reflexivity]. }
      unfold generateDefaultPromptTemplates.
      apply writeEach_all_written.
      unfold defaultPrompts.
      repeat constructor; cbn [fst]; simpl String.append; assumption. }
    eexists. split; [exact Hrun |].
    unfold written, defaultPrompts. cbn [foldl fst snd].
    split; [| split].
    + rewrite !dom_insert_L. unfold prompt_files. simpl.
      apply set_eq. intros file.
      rewrite !elem_of_union, !elem_of_singleton, elem_of_empty. tauto.
    + intros file Hnot. unfold prompt_files in Hnot. simpl in Hnot.
      rewrite !lookup_insert_ne by (intros <-; apply Hnot; tauto).
      reflexivity.
    + intros entry_name text Hin.
      cbn [In] in Hin.
      repeat (destruct Hin as [Hin | Hin];
              [injection Hin as <- <-;
               rewrite ?lookup_insert_ne by discriminate;
               apply lookup_insert_eq |]).
      destruct Hin.
Qed.
(** X17.  Writing a list of prompts stops at the first file that cannot be
    written: the call throws, the entries before it stay written, and every
    file that none of them names, the failing one and those of the entries
    after it included, is left as it was. *)
Theorem writeEach_stops_at_first_failure (file_of : string -> string)
    (before after : list (string * string)) (entry_name text : string)
    (files : gmap string string)
    (Hbefore : Forall (fun entry => can_write (file_of (fst entry)) = true)
                 before)
    (Hfails : can_write (file_of entry_name) = false) :
  exists files',
    writeEach file_of (before ++ (entry_name, text) :: after)%list files
    = (files', Thrown)
    /\ files' = written file_of before files
    /\ files' !! file_of entry_name = files !! file_of entry_name
    /\ (forall file,
          Forall (fun entry => file_of (fst entry) <> file) before ->
          files' !! file = files !! file).
Proof.
  eexists. split; [apply writeEach_first_failure; assumption |].
  split; [reflexivity |]. split.
  - apply written_lookup_other.
    eapply Forall_impl; [exact Hbefore |].
    intros entry Hwrites Hsame. simpl in Hwrites.
    rewrite Hsame, Hfails in Hwrites. discriminate Hwrites.
  - intros file Hother. apply written_lookup_other, Hother.
Qed.

End PromptFiles.

(** ** The further statements on sample inputs *)

Lemma step_leaves_other_users_witness :
  step sample_Number_toString sample_String_toNumber sample_JSON_parse
    "classify" "recommend" None sample_handlers
    ∅ (OpMessage (sample_turn "hello" 1)) !! "v"
  = None.
Proof.
  refine (proj1
    (step_leaves_other_users sample_Number_toString sample_String_toNumber
       sample_JSON_parse "classify" "recommend" None sample_handlers
       ∅ (OpMessage (sample_turn "hello" 1)) "v" _)).
  simpl. discriminate.
Defined.

Lemma handler_failure_keeps_update_witness :
  let t := sample_classified_turn "complaint" "0.9" "this is broken" 1 in
  let result :=
    processMessage sample_Number_toString sample_String_toNumber
      sample_label_parse "classify" "recommend" None sample_handlers t ∅ in
  snd result = apology
  /\ messageCount (view (fst result) "u") = 1%Z
  /\ lastIntent (view (fst result) "u") = VStr "complaint".
Proof.
  intros t result.
  destruct (handler_failure_keeps_update sample_Number_toString
              sample_String_toNumber sample_label_parse "classify" "recommend"
              None sample_handlers t ∅ (VStr "complaint")
              eq_refl eq_refl) as (Hreply & Hcount & Hintent & _).
  split; [exact Hreply |]. split; [exact Hcount | exact Hintent].
Defined.

Lemma reply_extends_handler_actions_witness :
  snd (processMessage sample_Number_toString sample_String_toNumber
         sample_label_parse "classify" "recommend" None sample_handlers
         (sample_classified_turn "greeting" "0.9" "hi" 1) ∅)
  = {| response := VStr "You said: hi"; actions := [] |}
  /\ snd (processMessage sample_Number_toString sample_String_toNumber
            sample_product_parse "classify" "recommend" None sample_handlers
            sample_product_turn ∅)
     = apology.
Proof.
  split.
  - destruct (reply_extends_handler_actions sample_Number_toString
                sample_String_toNumber sample_label_parse "classify"
                "recommend" None sample_handlers
                (sample_classified_turn "greeting" "0.9" "hi" 1) ∅
                (VStr "greeting") (Handler welcome_handler)
                {| result_response := VStr "You said: hi";
                   result_actions := None |}
                eq_refl eq_refl eq_refl) as (Hnone & _).
    apply Hnone. reflexivity.
  - destruct (reply_extends_handler_actions sample_Number_toString
                sample_String_toNumber sample_product_parse "classify"
                "recommend" None sample_handlers sample_product_turn ∅
                (VStr "product_inquiry") (Handler product_inquiry_handler)
                {| result_response := VStr "You said: which one?";
                   result_actions := None |}
                eq_refl eq_refl eq_refl) as (_ & Hlength & _).
    pose proof (Hlength (VObj [("length", VObj [("toString", VNum (1 # 1))])])
                  eq_refl eq_refl) as Hthrown.
    simpl in Hthrown. exact (proj1 Hthrown).
Defined.

Lemma recommendations_offered_from_threshold_on_witness :
  let events := [ EvCall (sample_turn "one" 1); EvResume 0 2;
                  EvCall (sample_turn "two" 3); EvResume 0 4;
                  EvCall (sample_turn "three" 5); EvResume 0 6 ] in
  let later := [ EvBotResponse "u" (VStr "You said: three") 7 ] in
  shouldOfferRecommendations None (VStr "greeting")
    (snd (getUserState
            (world_states
               (exec sample_Number_toString sample_String_toNumber
                  sample_JSON_parse "classify" "recommend" None sample_handlers
                  initial (events ++ later)%list)) "u" 5))
  = true.
Proof.
  intros events later.
  apply (recommendations_offered_from_threshold_on sample_Number_toString
           sample_String_toNumber sample_JSON_parse "classify" "recommend"
           None sample_handlers events later "u" 5 (VStr "greeting")).
  - vm_compute. discriminate.
  - vm_compute. tauto.
Defined.

Lemma processMessage_ignores_confidence_witness :
  processMessage sample_Number_toString sample_String_toNumber
    sample_label_parse "classify" "recommend" None sample_handlers
    (sample_classified_turn "greeting" "0.9" "hi" 1) ∅
  = processMessage sample_Number_toString sample_String_toNumber
      sample_label_parse "classify" "recommend" None sample_handlers
      (sample_classified_turn "greeting" "0.4" "hi" 1) ∅.
Proof.
  apply (processMessage_ignores_confidence sample_Number_toString
           sample_String_toNumber sample_label_parse "classify" "recommend"
           None sample_handlers
           (sample_classified_turn "greeting" "0.9" "hi" 1)
           (sample_classified_turn "greeting" "0.4" "hi" 1) ∅);
    reflexivity.
Defined.

Lemma postMessage_records_reply_witness :
  let after :=
    view (fst (postMessage sample_Number_toString sample_String_toNumber
                 sample_JSON_parse "classify" "recommend" None sample_handlers
                 (sample_request (Some "hi")) ∅)) "c" in
  assistant_entries after = 1%Z /\ messageCount after = 1%Z.
Proof.
  intros after.
  destruct (postMessage_records_reply sample_Number_toString
              sample_String_toNumber sample_JSON_parse "classify" "recommend"
              None sample_handlers (sample_request (Some "hi")) ∅ "hi"
              eq_refl ltac:(discriminate))
    as (_ & Hcount & _ & Hassistant).
  split; [exact Hassistant | exact Hcount].
Defined.

Lemma unknown_personality_is_friendly_in_system_prompt_only_witness :
  let botConfig := with_personality "playful" defaultBotConfig in
  generateBaseSystemPrompt (fun _ => "") botConfig
  = generateBaseSystemPrompt (fun _ => "") defaultBotConfig
  /\ generateWelcomePrompt botConfig <> generateWelcomePrompt defaultBotConfig.
Proof.
  intros botConfig.
  exact (unknown_personality_is_friendly_in_system_prompt_only (fun _ => "")
           botConfig eq_refl eq_refl).
Defined.

Lemma unknown_offer_timing_is_balanced_in_prompt_and_late_in_policy_witness :
  generateBaseSystemPrompt (fun _ => "")
    (with_offerTiming "aggressive" defaultBotConfig)
  = generateBaseSystemPrompt (fun _ => "") defaultBotConfig
  /\ shouldOfferRecommendations (Some "aggressive") (VStr "greeting")
       (with_messageCount 3 (defaultState 0))
     = false.
Proof.
  destruct (unknown_offer_timing_is_balanced_in_prompt_and_late_in_policy
              (fun _ => "") defaultBotConfig "aggressive" (VStr "greeting")
              (with_messageCount 3 (defaultState 0))
              ltac:(discriminate) ltac:(discriminate) ltac:(discriminate)
              ltac:(discriminate)) as (Hprompt & _ & Hpolicy).
  split; [exact Hprompt | exact Hpolicy].
Defined.

Lemma generatePromptTemplates_writes_six_files_witness :
  exists files',
    generatePromptTemplates (fun _ => "") (fun _ => true)
      {| proj_conversation := None |} ∅
    = (files', Returned tt)
    /\ dom files' = list_to_set prompt_files.
Proof.
  destruct (generatePromptTemplates_writes_six_files (fun _ => "")
              (fun _ => true) {| proj_conversation := None |} ∅
              (fun _ _ => eq_refl)) as (files' & Hrun & Hdom & _).
  exists files'. split; [exact Hrun |].
  rewrite Hdom, dom_empty_L. apply (right_id_L ∅ (∪)).
Defined.

Lemma writeEach_stops_at_first_failure_witness :
  writeEach (fun file => negb (String.eqb file "welcome_prompt.txt"))
    (fun entry_name => entry_name ++ ".txt")
    [ ("base_system_prompt", "base"); ("welcome_prompt", "welcome");
      ("checkout_prompt", "checkout") ] ∅
  = (<["base_system_prompt.txt" := "base"]> ∅, Thrown).
Proof.
  destruct (writeEach_stops_at_first_failure
              (fun file => negb (String.eqb file "welcome_prompt.txt"))
              (fun entry_name => entry_name ++ ".txt")
              [ ("base_system_prompt", "base") ]
              [ ("checkout_prompt", "checkout") ]
              "welcome_prompt" "welcome" ∅
              ltac:(repeat constructor) eq_refl)
    as (files' & Hrun & -> & _).
  exact Hrun.
Defined.
